(** * pgtest: starting and stopping a postgres server for Go unit tests

    A shallow embedding of package pgtest.  The repository holds two
    revisions of the package that the properties below speak about:

    - [PgtestA]: src/pgtest.go (lines 1-123), with the package-level
      constants [URL] and [sock] and the configuration appended to the
      template by [maybeInitdb];
    - [PgtestC]: src/unnamed/part_000, with a per-instance [URL], the
      [initdbOk] flag and the configuration appended to each copy.

    The further properties at the end also speak about

    - [PgtestB]: the second document of src/pgtest.go (lines 124-248),
      which differs from the first one in the template path, the constant
      [Dir] = "pgtestdata";
    - [TestA], [TestC]: the two documents of src/pgtest_test.go, the test
      of the package.

    The package is a sequence of calls into the operating system.  Those
    calls are embedded in a state-and-exit monad over a [World]: a file
    system, the launched engine processes, a clock, the list of calls issued
    so far and the package-level variables.  What the environment decides
    (which call fails, which name [ioutil.TempDir] draws, when the engine
    starts to listen) is read from an [Env]. *)

From Stdlib Require Import String Ascii List Bool Arith ZArith Lia Decimal DecimalString.
Import ListNotations.
Open Scope string_scope.

(** ** Strings and paths *)

(** [bytes.Contains b sub]. *)
Fixpoint bytes_Contains (b sub : string) : bool :=
  if prefix sub b then true
  else match b with
       | EmptyString => false
       | String _ b' => bytes_Contains b' sub
       end.

Definition is_space (c : ascii) : bool :=
  match nat_of_ascii c with
  | 9 | 10 | 11 | 12 | 13 | 32 => true
  | _ => false
  end.

Fixpoint trim_left (s : string) : string :=
  match s with
  | EmptyString => EmptyString
  | String c s' => if is_space c then trim_left s' else s
  end.

Fixpoint trim_right (s : string) : string :=
  match s with
  | EmptyString => EmptyString
  | String c s' =>
      let r := trim_right s' in
      if is_space c && (r =? "") then "" else String c r
  end.

(** [bytes.TrimSpace], on ASCII white space. *)
Definition bytes_TrimSpace (s : string) : string := trim_right (trim_left s).

(** [filepath.Join] of two clean elements: an empty element is ignored. *)
Definition filepath_Join (a b : string) : string :=
  if a =? "" then b else a ++ "/" ++ b.

(** [under d p]: [p] is [d] itself or lies inside the directory [d]. *)
Definition under (d p : string) : bool := prefix (d ++ "/") (p ++ "/").

(** [strip_prefix a s] is [Some r] when [s = a ++ r]. *)
Fixpoint strip_prefix (a s : string) : option string :=
  match a with
  | EmptyString => Some s
  | String c a' =>
      match s with
      | EmptyString => None
      | String c' s' => if Ascii.eqb c c' then strip_prefix a' s' else None
      end
  end.

(** The directory named by a [cp] source operand of the form [d/.]. *)
Fixpoint drop_dot (s : string) : string :=
  match s with
  | EmptyString => EmptyString
  | String c s' => if s' =? "/." then String c "" else String c (drop_dot s')
  end.

(** ** The world *)

Inductive error := EEXIST | ENOENT | EACCES | EISDIR | EIO.

(** [os.IsExist]. *)
Definition os_IsExist (err : option error) : bool :=
  match err with Some EEXIST => true | _ => false end.

Inductive node :=
| Dir
| File (data : string) (readable writable : bool)
| Sock.

Definition FS := string -> option node.

Definition upd (p : string) (n : node) (f : FS) : FS :=
  fun q => if q =? p then Some n else f q.

Definition remove_all (d : string) (f : FS) : FS :=
  fun q => if under d q then None else f q.

(** [cp -a src/. dst]: every entry inside [src] appears inside [dst]. *)
Definition copy_into (src dst : string) (f : FS) : FS :=
  fun q =>
    match strip_prefix (dst ++ "/") q with
    | Some r => match f (src ++ "/" ++ r) with
                | Some n => Some n
                | None => f q
                end
    | None => f q
    end.

(** The files [initdb] leaves in a data directory. *)
Fixpoint populate (d : string) (files : list (string * string)) (f : FS) : FS :=
  match files with
  | [] => f
  | (name, data) :: rest => upd (d ++ "/" ++ name) (File data true true) (populate d rest f)
  end.

(** A launched engine: [up_at] is the time at which its socket file will
    appear, [None] when it never will or already has. *)
Record proc := { pid : nat; psock : string; up_at : option nat }.

Inductive event :=
| EvMkdir (p : string)
| EvTempDir (p : string)
| EvRemoveAll (p : string)
| EvOpenFile (p : string)
| EvWrite (p data : string)
| EvClose (p : string)
| EvReadFile (p : string)
| EvStat (p : string)
| EvSleep (ms : nat)
| EvRun (argv : list string)
| EvOutput (argv : list string)
| EvStart (argv : list string)
| EvSignal (pid : nat).

(** A [*testing.T] is known by its number; an argument of [t.Fatal] is a
    string or an error. *)
Definition T := nat.
Inductive arg := AStr (s : string) | AErr (e : error).

Record World := {
  fs : FS;
  procs : list proc;
  now : nat;                          (* milliseconds *)
  log : list event;                   (* calls issued, the latest first *)
  failed : list (T * list arg);       (* what t.Fatal reported, the latest first *)
  once : bool;                        (* var once sync.Once: has Do run? *)
  initdbOk : bool;                    (* part_000 only *)
  postgres : string                   (* part_000 only *)
}.

Definition set_fs (f : FS) (w : World) : World :=
  {| fs := f; procs := procs w; now := now w; log := log w; failed := failed w;
     once := once w; initdbOk := initdbOk w; postgres := postgres w |}.
Definition set_procs (ps : list proc) (w : World) : World :=
  {| fs := fs w; procs := ps; now := now w; log := log w; failed := failed w;
     once := once w; initdbOk := initdbOk w; postgres := postgres w |}.
Definition set_now (n : nat) (w : World) : World :=
  {| fs := fs w; procs := procs w; now := n; log := log w; failed := failed w;
     once := once w; initdbOk := initdbOk w; postgres := postgres w |}.
Definition set_log (l : list event) (w : World) : World :=
  {| fs := fs w; procs := procs w; now := now w; log := l; failed := failed w;
     once := once w; initdbOk := initdbOk w; postgres := postgres w |}.
Definition set_failed (l : list (T * list arg)) (w : World) : World :=
  {| fs := fs w; procs := procs w; now := now w; log := log w; failed := l;
     once := once w; initdbOk := initdbOk w; postgres := postgres w |}.
Definition set_once (b : bool) (w : World) : World :=
  {| fs := fs w; procs := procs w; now := now w; log := log w; failed := failed w;
     once := b; initdbOk := initdbOk w; postgres := postgres w |}.
Definition set_initdbOk (b : bool) (w : World) : World :=
  {| fs := fs w; procs := procs w; now := now w; log := log w; failed := failed w;
     once := once w; initdbOk := b; postgres := postgres w |}.
Definition set_postgres (s : string) (w : World) : World :=
  {| fs := fs w; procs := procs w; now := now w; log := log w; failed := failed w;
     once := once w; initdbOk := initdbOk w; postgres := s |}.

(** What the environment decides. *)
Record Env := {
  tmpdir : string;                        (* os.TempDir() *)
  flt : nat -> bool;                      (* the n-th call fails with an I/O error *)
  rnd : nat -> uint;                      (* the digits TempDir draws at the n-th call *)
  execs : string -> bool;                 (* the executables that can be launched *)
  initdb_files : list (string * string);  (* what initdb writes: name, contents *)
  pg_config_out : string;                 (* standard output of pg_config --bindir *)
  listen_delay : nat -> option nat        (* engine launched by the n-th call: ms until it listens *)
}.

(** ** The monad: a goroutine over the world *)

(** A call returns, or the goroutine exits ([t.Fatal] ends in
    [runtime.Goexit]), or it panics. *)
Inductive Res (A : Type) :=
| Ok (a : A)
| Goexit
| Panic (msg : string).
Arguments Ok {A} a.
Arguments Goexit {A}.
Arguments Panic {A} msg.

Definition M (A : Type) := World -> Res A * World.

Definition ret {A} (a : A) : M A := fun w => (Ok a, w).

Definition bind {A B} (m : M A) (k : A -> M B) : M B :=
  fun w =>
    match m w with
    | (Ok a, w') => k a w'
    | (Goexit, w') => (Goexit, w')
    | (Panic msg, w') => (Panic msg, w')
    end.

Declare Scope go_scope.
Delimit Scope go_scope with go.
Notation "x <- m ;; k" := (bind m (fun x => k))
  (at level 61, m at next level, right associativity) : go_scope.
Notation "' p <- m ;; k" := (bind m (fun p => k))
  (at level 61, p pattern, m at next level, right associativity) : go_scope.
Notation "m ;; k" := (bind m (fun _ => k))
  (at level 61, right associativity) : go_scope.
Open Scope go_scope.

Definition gets {A} (f : World -> A) : M A := fun w => (Ok (f w), w).
Definition modify (f : World -> World) : M unit := fun w => (Ok tt, f w).
Definition panic {A} (msg : string) : M A := fun w => (Panic msg, w).

(** [t.Fatal(args...)]: the failure is recorded and the goroutine exits. *)
Definition t_Fatal {A} (t : T) (args : list arg) : M A :=
  fun w => (Goexit, set_failed ((t, args) :: failed w) w).

(** [if err != nil { ... }]. *)
Definition if_err (err : option error) (k : error -> M unit) : M unit :=
  match err with
  | Some e => k e
  | None => ret tt
  end.

(** [once.Do(f)]: [Do] marks the [Once] as done in a deferred call, so it is
    done also when [f] leaves through [runtime.Goexit]. *)
Definition once_Do (f : M unit) : M unit :=
  fun w =>
    if once w then (Ok tt, w)
    else let (r, w') := f w in (r, set_once true w').

(** ** Calls into the operating system *)

(** [exec.Cmd]. *)
Record Cmd := { Path : string; Args : list string; Process : option nat }.

Definition exec_Command (name : string) (args : list string) : Cmd :=
  {| Path := name; Args := args; Process := None |}.

Definition tick (e : event) (w : World) : World := set_log (e :: log w) w.

Definition due (n : nat) (pr : proc) : bool :=
  match up_at pr with
  | Some t => Nat.leb t n
  | None => false
  end.

(** The engines whose time has come create their socket files. *)
Definition settle (w : World) : World :=
  set_procs
    (map (fun pr => if due (now w) pr
                    then {| pid := pid pr; psock := psock pr; up_at := None |}
                    else pr) (procs w))
    (set_fs
       (fold_right (fun pr f => if due (now w) pr then upd (psock pr) Sock f else f)
                   (fs w) (procs w))
       w).

Section Calls.

Variable E : Env.

(** Does the environment fail the call about to be issued? *)
Definition faulty (w : World) : bool := flt E (length (log w)).

(** [os.Mkdir(p, perm)]. *)
Definition os_Mkdir (p : string) : M (option error) :=
  fun w =>
    let w' := tick (EvMkdir p) w in
    if faulty w then (Ok (Some EIO), w')
    else match fs w p with
         | Some _ => (Ok (Some EEXIST), w')
         | None => (Ok None, set_fs (upd p Dir (fs w)) w')
         end.

(** The name [ioutil.TempDir(dir, prefix)] tries: the prefix followed by
    digits. *)
Definition temp_name (dir pfx : string) (n : uint) : string :=
  filepath_Join (if dir =? "" then tmpdir E else dir)
                (pfx ++ NilEmpty.string_of_uint n).

(** [ioutil.TempDir(dir, prefix)]: a directory that did not exist is
    created, or an error is returned. *)
Definition ioutil_TempDir (dir pfx : string) : M (string * option error) :=
  fun w =>
    let name := temp_name dir pfx (rnd E (length (log w))) in
    let w' := tick (EvTempDir name) w in
    if faulty w then (Ok ("", Some EIO), w')
    else match fs w name with
         | Some _ => (Ok ("", Some EEXIST), w')
         | None => (Ok (name, None), set_fs (upd name Dir (fs w)) w')
         end.

(** [os.RemoveAll(p)]: nil also when [p] does not exist. *)
Definition os_RemoveAll (p : string) : M (option error) :=
  fun w =>
    let w' := tick (EvRemoveAll p) w in
    if faulty w then (Ok (Some EIO), w')
    else (Ok None, set_fs (remove_all p (fs w)) w').

(** [os.OpenFile(p, os.O_APPEND|os.O_WRONLY, perm)]: no [O_CREATE]. The
    handle is the path. *)
Definition os_OpenFile (p : string) : M (string * option error) :=
  fun w =>
    let w' := tick (EvOpenFile p) w in
    if faulty w then (Ok (p, Some EIO), w')
    else match fs w p with
         | Some (File _ _ true) => (Ok (p, None), w')
         | Some (File _ _ false) => (Ok (p, Some EACCES), w')
         | Some Dir => (Ok (p, Some EISDIR), w')
         | Some Sock => (Ok (p, Some EACCES), w')
         | None => (Ok (p, Some ENOENT), w')
         end.

(** [f.Write(data)] on a handle opened for appending. *)
Definition File_Write (f data : string) : M (option error) :=
  fun w =>
    let w' := tick (EvWrite f data) w in
    if faulty w then (Ok (Some EIO), w')
    else match fs w f with
         | Some (File old r x) =>
             (Ok None, set_fs (upd f (File (old ++ data) r x) (fs w)) w')
         | _ => (Ok (Some EIO), w')
         end.

(** [f.Close()]. *)
Definition File_Close (f : string) : M (option error) :=
  fun w =>
    let w' := tick (EvClose f) w in
    if faulty w then (Ok (Some EIO), w') else (Ok None, w').

(** [ioutil.ReadFile(name)]. *)
Definition ioutil_ReadFile (name : string) : M (string * option error) :=
  fun w =>
    let w' := tick (EvReadFile name) w in
    if faulty w then (Ok ("", Some EIO), w')
    else match fs w name with
         | Some (File data true _) => (Ok (data, None), w')
         | Some (File _ false _) => (Ok ("", Some EACCES), w')
         | Some Dir => (Ok ("", Some EISDIR), w')
         | Some Sock => (Ok ("", Some EACCES), w')
         | None => (Ok ("", Some ENOENT), w')
         end.

(** [os.Stat(p)], of which the package keeps the error only. *)
Definition os_Stat (p : string) : M (option error) :=
  fun w =>
    let w' := tick (EvStat p) w in
    if faulty w then (Ok (Some EIO), w')
    else match fs w p with
         | Some _ => (Ok None, w')
         | None => (Ok (Some ENOENT), w')
         end.

(** [time.Sleep(ms * time.Millisecond)]: time passes, engines come up. *)
Definition time_Sleep (ms : nat) : M unit :=
  fun w => (Ok tt, settle (set_now (now w + ms) (tick (EvSleep ms) w))).

(** [cmd.Run()] of the two programs the package runs to completion:
    [cp -a src/. dst] and [initdb -D dir]. *)
Definition Cmd_Run (c : Cmd) : M (option error) :=
  fun w =>
    let w' := tick (EvRun (Path c :: Args c)) w in
    if faulty w || negb (execs E (Path c)) then (Ok (Some EIO), w')
    else match Args c with
         | ["-a"; src; dst] =>
             match fs w (drop_dot src) with
             | Some _ => (Ok None, set_fs (copy_into (drop_dot src) dst (fs w)) w')
             | None => (Ok (Some ENOENT), w')
             end
         | ["-D"; d] => (Ok None, set_fs (populate d (initdb_files E) (fs w)) w')
         | _ => (Ok None, w')
         end.

(** [cmd.Output()] of [pg_config --bindir]. *)
Definition Cmd_Output (c : Cmd) : M (string * option error) :=
  fun w =>
    let w' := tick (EvOutput (Path c :: Args c)) w in
    if faulty w || negb (execs E (Path c)) then (Ok ("", Some EIO), w')
    else (Ok (pg_config_out E, None), w').

(** [cmd.Start()] of the engine.  [sockfile] is where the engine will
    listen, as its configuration file says.  The started command carries
    its [Process]. *)
Definition Cmd_Start (sockfile : string) (c : Cmd) : M (Cmd * option error) :=
  fun w =>
    let w' := tick (EvStart (Path c :: Args c)) w in
    if faulty w || negb (execs E (Path c)) then (Ok (c, Some EIO), w')
    else
      let p := length (procs w) in
      let pr := {| pid := p; psock := sockfile;
                   up_at := option_map (fun d => now w + d)
                                       (listen_delay E (length (log w))) |} in
      (Ok ({| Path := Path c; Args := Args c; Process := Some p |}, None),
       settle (set_procs (pr :: procs w) w')).

(** [p.Signal(os.Interrupt)]: delivery only; the package never waits for
    the process. *)
Definition Process_Signal (p : nat) : M (option error) :=
  fun w =>
    let w' := tick (EvSignal p) w in
    if faulty w then (Ok (Some EIO), w') else (Ok None, w').

End Calls.

Definition nl : string := String (ascii_of_nat 10) "".

(** ** The readiness wait, check by check *)

(** Does [os.Stat(sock)] succeed in [w]? *)
Definition stat_ok (E : Env) (sock : string) (w : World) : bool :=
  match fst (os_Stat E sock w) with
  | Ok None => true
  | _ => false
  end.

(** The world after a check and the sleep that follows it. *)
Definition miss (E : Env) (sock : string) (w : World) : World :=
  snd (time_Sleep 50 (snd (os_Stat E sock w))).

(** The world after [k] checks, each followed by its sleep. *)
Fixpoint misses (E : Env) (sock : string) (k : nat) (w : World) : World :=
  match k with
  | 0 => w
  | Datatypes.S k' => miss E sock (misses E sock k' w)
  end.

(** The calls of [k] rounds, the latest first. *)
Definition wait_log (sock : string) (k : nat) : list event :=
  List.concat (repeat [EvSleep 50; EvStat sock] k).

(** What a wait loop [wait], given the number of iterations, does from [w]
    for the socket file [sock]: when the first 20 checks all fail it ends in
    the timeout after them; when the check number [k] (from 0) is the first
    to succeed it returns [pg] at once. *)
Definition readiness_wait {PG : Type} (E : Env) (wait : nat -> M PG)
    (t : T) (pg : PG) (sock : string) (w : World) : Prop :=
  ((forall k, k < 20 -> stat_ok E sock (misses E sock k w) = false) ->
   wait 20 w =
   (Goexit,
    set_failed ((t, [AStr "timeout waiting for postgres to start"]) :: failed w)
               (misses E sock 20 w))) /\
  (forall k, k < 20 ->
     (forall j, j < k -> stat_ok E sock (misses E sock j w) = false) ->
     stat_ok E sock (misses E sock k w) = true ->
     wait 20 w = (Ok pg, tick (EvStat sock) (misses E sock k w))).

(** ** src/pgtest.go *)

Module PgtestA.

Record PG := { t : T; dir : string; cmd : option Cmd }.

(** Connection URL for [sql.Open]. *)
Definition URL : string := "host=/tmp dbname=postgres sslmode=disable".

(** To poll until postgres fully starts. *)
Definition sock : string := "/tmp/.s.PGSQL.5432".

Definition conf : string :=
  nl ++ "fsync = off" ++ nl ++
  "listen_addresses = ''" ++ nl ++
  "unix_socket_directory = '/tmp'" ++ nl.

Section Package.

Variable E : Env.

Definition pgtestdata : string := filepath_Join (tmpdir E) "pgtestdata".

(** Lines 98-123. *)
Definition maybeInitdb (t : T) : M unit :=
  err <- os_Mkdir E pgtestdata ;;
  if os_IsExist err then ret tt
  else
    if_err err (fun e => t_Fatal t [AErr e]) ;;
    err <- Cmd_Run E (exec_Command "initdb" ["-D"; pgtestdata]) ;;
    if_err err (fun e => t_Fatal t [AStr "initdb"; AErr e]) ;;
    let path := filepath_Join pgtestdata "postgresql.conf" in
    '(f, err) <- os_OpenFile E path ;;
    if_err err (fun e => t_Fatal t [AErr e]) ;;
    err <- File_Write E f conf ;;
    if_err err (fun e => t_Fatal t [AErr e]) ;;
    err <- File_Close E f ;;
    if_err err (fun e => t_Fatal t [AErr e]).

(** [Start], line 57: the template, at most once. *)
Definition Start_once (t : T) : M unit := once_Do (maybeInitdb t).

(** [Start], lines 58-68: a fresh directory holding a copy of the template. *)
Definition Start_copy (t : T) : M PG :=
  '(d, err) <- ioutil_TempDir E "" "pgtest" ;;
  let pg := {| t := t; dir := d; cmd := None |} in
  if_err err (fun e => t_Fatal t [AErr e]) ;;
  err <- Cmd_Run E (exec_Command "cp" ["-a"; pgtestdata ++ "/."; dir pg]) ;;
  if_err err (fun e => t_Fatal t [AStr "copy:"; AErr e]) ;;
  ret pg.

(** [Start], lines 69-73: the engine is launched on the copy.  Its
    configuration, inherited from the template, names /tmp as the socket
    directory. *)
Definition Start_launch (t : T) (pg : PG) : M PG :=
  '(c, err) <- Cmd_Start E sock (exec_Command "postgres" ["-D"; dir pg]) ;;
  let pg := {| t := PgtestA.t pg; dir := dir pg; cmd := Some c |} in
  if_err err (fun e => t_Fatal t [AStr "starting postgres:"; AErr e]) ;;
  ret pg.

(** [Start], lines 74-81: the loop [for n := 0; n < 20; n++], with [left]
    iterations still to run, followed by the timeout. *)
Fixpoint Start_wait (t : T) (pg : PG) (left : nat) : M PG :=
  match left with
  | 0 =>
      t_Fatal (A := unit) t [AStr "timeout waiting for postgres to start"] ;;
      panic "unreached"
  | S left' =>
      err <- os_Stat E sock ;;
      match err with
      | None => ret pg
      | Some _ => time_Sleep 50 ;; Start_wait t pg left'
      end
  end.

(** Lines 56-82. *)
Definition Start (t : T) : M PG :=
  Start_once t ;;
  pg <- Start_copy t ;;
  pg <- Start_launch t pg ;;
  Start_wait t pg 20.

(** [Start] up to the copy, lines 57-68: what the launch starts from. *)
Definition Start_provisioned (t : T) : M PG :=
  Start_once t ;;
  Start_copy t.

(** [Start] up to the launch, lines 57-73: what the wait starts from. *)
Definition Start_launched (t : T) : M PG :=
  Start_once t ;;
  pg <- Start_copy t ;;
  Start_launch t pg.

(** [Start] after the template block, lines 58-82. *)
Definition Start_rest (t : T) : M PG :=
  pg <- Start_copy t ;;
  pg <- Start_launch t pg ;;
  Start_wait t pg 20.

(** Lines 87-96. *)
Definition Stop (pg : PG) : M unit :=
  match cmd pg with
  | None => panic "nil pointer dereference"
  | Some c =>
      match Process c with
      | None => panic "nil pointer dereference"
      | Some p =>
          err <- Process_Signal E p ;;
          if_err err (fun e => t_Fatal (t pg) [AStr "postgres:"; AErr e]) ;;
          err <- os_RemoveAll E (dir pg) ;;
          if_err err (fun e => t_Fatal (t pg) [AErr e])
      end
  end.

(** The calls a test process makes, one after the other; a goroutine that
    exits leaves the world to the next test. *)
Inductive call := CallStart (t : T) | CallStop (pg : PG).

Definition do_call (c : call) (w : World) : World :=
  match c with
  | CallStart t => snd (Start t w)
  | CallStop pg => snd (Stop pg w)
  end.

Definition run (cs : list call) (w : World) : World :=
  fold_left (fun w c => do_call c w) cs w.

End Package.

End PgtestA.

(** ** src/unnamed/part_000 *)

Module PgtestC.

Record PG := { URL : string; t : T; dir : string; cmd : option Cmd }.

(** The template [conf], executed on the fields [ConfDir] and [Plural]. *)
Definition conf (ConfDir : string) (Plural : bool) : string :=
  nl ++ "fsync = off" ++ nl ++
  "listen_addresses = ''" ++ nl ++
  nl ++
  (if Plural
   then nl ++ "unix_socket_directories = '" ++ ConfDir ++ "'" ++ nl
   else nl ++ "unix_socket_directory = '" ++ ConfDir ++ "'" ++ nl) ++
  nl ++ nl.

Section Package.

Variable E : Env.

Definition pgtestdata : string := filepath_Join (tmpdir E) "pgtestdata1".

(** [conf.Execute(f, data)]. *)
Definition conf_Execute (f ConfDir : string) (Plural : bool) : M (option error) :=
  File_Write E f (conf ConfDir Plural).

(** Lines 149-152. *)
Definition contains (substr name : string) : M bool :=
  '(b, err) <- ioutil_ReadFile E name ;;
  ret (match err with
       | None => bytes_Contains b substr
       | Some _ => false
       end).

(** Lines 125-147. *)
Definition maybeInitdb (t : T) : M unit :=
  '(out, err) <- Cmd_Output E (exec_Command "pg_config" ["--bindir"]) ;;
  if_err err (fun e => t_Fatal t [AStr "pg_config"; AErr e]) ;;
  let bindir := bytes_TrimSpace out in
  modify (set_postgres (filepath_Join bindir "postgres")) ;;
  let initdb := filepath_Join bindir "initdb" in
  err <- os_Mkdir E pgtestdata ;;
  if os_IsExist err then modify (set_initdbOk true)
  else
    if_err err (fun e => t_Fatal t [AErr e]) ;;
    err <- Cmd_Run E (exec_Command initdb ["-D"; pgtestdata]) ;;
    if_err err (fun e =>
      os_RemoveAll E pgtestdata ;;
      t_Fatal t [AStr "initdb"; AErr e]) ;;
    modify (set_initdbOk true).

(** [Start], lines 62-65: the template, at most once, and the guard on its
    outcome. *)
Definition Start_once (t : T) : M unit :=
  once_Do (maybeInitdb t) ;;
  ok <- gets initdbOk ;;
  if negb ok then t_Fatal t [AStr "prior initdb attempt failed"] else ret tt.

(** [Start], lines 66-76: a fresh directory holding a copy of the template. *)
Definition Start_copy (t : T) : M PG :=
  '(d, err) <- ioutil_TempDir E "" "pgtest" ;;
  let pg := {| URL := ""; t := t; dir := d; cmd := None |} in
  if_err err (fun e => t_Fatal t [AErr e]) ;;
  err <- Cmd_Run E (exec_Command "cp" ["-a"; pgtestdata ++ "/."; dir pg]) ;;
  if_err err (fun e => t_Fatal t [AStr "copy:"; AErr e]) ;;
  ret pg.

(** [Start], lines 77-93: the overrides are appended to the copy. *)
Definition Start_conf (t : T) (pg : PG) : M unit :=
  let path := filepath_Join (dir pg) "postgresql.conf" in
  '(f, err) <- os_OpenFile E path ;;
  if_err err (fun e => t_Fatal t [AErr e]) ;;
  found <- contains "unix_socket_directory" path ;;
  let plural := negb found in
  err <- conf_Execute f (dir pg) plural ;;
  if_err err (fun e => t_Fatal t [AErr e]) ;;
  err <- File_Close E f ;;
  if_err err (fun e => t_Fatal t [AErr e]).

(** [Start], lines 94-99: the engine is launched on the copy; the overrides
    make it listen inside its own directory. *)
Definition Start_launch (t : T) (pg : PG) : M PG :=
  let url := "host=" ++ dir pg ++ " dbname=postgres sslmode=disable" in
  exe <- gets postgres ;;
  '(c, err) <- Cmd_Start E (filepath_Join (dir pg) ".s.PGSQL.5432")
                         (exec_Command exe ["-D"; dir pg]) ;;
  let pg := {| URL := url; t := PgtestC.t pg; dir := dir pg; cmd := Some c |} in
  if_err err (fun e => t_Fatal t [AStr "starting postgres:"; AErr e]) ;;
  ret pg.

(** [Start], lines 100-108: the loop [for n := 0; n < 20; n++], with [left]
    iterations still to run, followed by the timeout. *)
Fixpoint Start_wait (t : T) (pg : PG) (sock : string) (left : nat) : M PG :=
  match left with
  | 0 =>
      t_Fatal (A := unit) t [AStr "timeout waiting for postgres to start"] ;;
      panic "unreached"
  | S left' =>
      err <- os_Stat E sock ;;
      match err with
      | None => ret pg
      | Some _ => time_Sleep 50 ;; Start_wait t pg sock left'
      end
  end.

(** Lines 61-109. *)
Definition Start (t : T) : M PG :=
  Start_once t ;;
  pg <- Start_copy t ;;
  Start_conf t pg ;;
  pg <- Start_launch t pg ;;
  Start_wait t pg (filepath_Join (dir pg) ".s.PGSQL.5432") 20.

(** [Start] up to the overrides, lines 62-93: what the launch starts from. *)
Definition Start_provisioned (t : T) : M PG :=
  Start_once t ;;
  pg <- Start_copy t ;;
  Start_conf t pg ;;
  ret pg.

(** [Start] up to the launch, lines 62-99: what the wait starts from. *)
Definition Start_launched (t : T) : M PG :=
  Start_once t ;;
  pg <- Start_copy t ;;
  Start_conf t pg ;;
  Start_launch t pg.

(** [Start] after the template block, lines 66-109. *)
Definition Start_rest (t : T) : M PG :=
  pg <- Start_copy t ;;
  Start_conf t pg ;;
  pg <- Start_launch t pg ;;
  Start_wait t pg (filepath_Join (dir pg) ".s.PGSQL.5432") 20.

(** Lines 114-123. *)
Definition Stop (pg : PG) : M unit :=
  match cmd pg with
  | None => panic "nil pointer dereference"
  | Some c =>
      match Process c with
      | None => panic "nil pointer dereference"
      | Some p =>
          err <- Process_Signal E p ;;
          if_err err (fun e => t_Fatal (t pg) [AStr "postgres:"; AErr e]) ;;
          err <- os_RemoveAll E (dir pg) ;;
          if_err err (fun e => t_Fatal (t pg) [AErr e])
      end
  end.

(** The calls a test process makes, one after the other; a goroutine that
    exits leaves the world to the next test. *)
Inductive call := CallStart (t : T) | CallStop (pg : PG).

Definition do_call (c : call) (w : World) : World :=
  match c with
  | CallStart t => snd (Start t w)
  | CallStop pg => snd (Stop pg w)
  end.

Definition run (cs : list call) (w : World) : World :=
  fold_left (fun w c => do_call c w) cs w.

End Package.

End PgtestC.

(** ** Definitions for the statements *)

(** The factor [filepath.Join a] puts in front of its second argument. *)
Definition join_head (a : string) : string := if a =? "" then "" else a ++ "/".

(** The digits [ioutil.TempDir] appends hold no path separator. *)
Fixpoint no_slash (s : string) : bool :=
  match s with
  | EmptyString => true
  | String c s' => negb (Ascii.eqb c "/") && no_slash s'
  end.

Definition digits (u : uint) : string := NilEmpty.string_of_uint u.

(** *** What a call leaves alone

    [step P S w w']: between [w] and [w'] the package-level variables [once]
    and [initdbOk] kept their values, no call selected by [P] was issued,
    and, provided no engine listens at a path selected by [S], no path
    selected by [S] changed in the file system. *)

Section StepDefs.

Variable P : event -> bool.
Variable S : string -> bool.

Definition socks_off (w : World) : bool :=
  forallb (fun pr => negb (S (psock pr))) (procs w).

Definition same_on (w w' : World) : Prop :=
  forall q, S q = true -> fs w' q = fs w q.

(** Nothing inside the directory [d] is selected by [S]. *)
Definition off (d : string) : Prop :=
  forall q, under d q = true -> S q = false.

Record step (w w' : World) : Prop := {
  st_once : once w' = once w;
  st_ok : initdbOk w' = initdbOk w;
  st_log : filter P (log w') = filter P (log w);
  st_fs : socks_off w = true -> socks_off w' = true /\ same_on w w'
}.

(** [steps Q m]: every run of [m] is a [step], and what it returns
    satisfies [Q]. *)
Definition steps {A} (Q : A -> Prop) (m : M A) : Prop :=
  forall w, step w (snd (m w)) /\ forall a, fst (m w) = Ok a -> Q a.

End StepDefs.

(** The calls that only [maybeInitdb] issues. *)
Definition run_D (argv : list string) : bool :=
  match argv with
  | _ :: a :: _ => a =? "-D"
  | _ => false
  end.

Definition bodyA (e : event) : bool :=
  match e with
  | EvMkdir _ | EvWrite _ _ => true
  | EvRun argv => run_D argv
  | _ => false
  end.

Definition bodyC (e : event) : bool :=
  match e with
  | EvMkdir _ | EvOutput _ => true
  | EvRun argv => run_D argv
  | _ => false
  end.

(** An environment in which no call fails: initdb writes a configuration
    file, every executable can be launched and the engine listens at once. *)
Definition env0 : Env :=
  {| tmpdir := "/tmp";
     flt := fun _ => false;
     rnd := fun n => Nat.to_uint n;
     execs := fun _ => true;
     initdb_files := [("postgresql.conf", "#unix_socket_directories = '/tmp'" ++ nl);
                      ("PG_VERSION", "9.3" ++ nl)];
     pg_config_out := "/usr/lib/postgresql/bin" ++ nl;
     listen_delay := fun _ => Some 0 |}.

(** [env0], except that the call number [k] fails. *)
Definition fault_at (k : nat) : Env :=
  {| tmpdir := tmpdir env0;
     flt := Nat.eqb k;
     rnd := rnd env0;
     execs := execs env0;
     initdb_files := initdb_files env0;
     pg_config_out := pg_config_out env0;
     listen_delay := listen_delay env0 |}.

(** A process that has not called the package yet; only /tmp exists. *)
Definition world0 : World :=
  {| fs := fun p => if p =? "/tmp" then Some Dir else None;
     procs := []; now := 0; log := []; failed := [];
     once := false; initdbOk := false; postgres := "" |}.

(** The handles the first [Start] returns in [world0] under [env0]. *)
Definition pgA0 : PgtestA.PG :=
  {| PgtestA.t := 1; PgtestA.dir := "/tmp/pgtest5";
     PgtestA.cmd := Some {| Path := "postgres"; Args := ["-D"; "/tmp/pgtest5"];
                            Process := Some 0 |} |}.

Definition cmdC0 : Cmd :=
  {| Path := "/usr/lib/postgresql/bin/postgres";
     Args := ["-D"; "/tmp/pgtest3"]; Process := Some 0 |}.

Definition pgC0 : PgtestC.PG :=
  {| PgtestC.URL := "host=/tmp/pgtest3 dbname=postgres sslmode=disable";
     PgtestC.t := 1; PgtestC.dir := "/tmp/pgtest3";
     PgtestC.cmd := Some cmdC0 |}.

Definition is_RemoveAll (e : event) : bool :=
  match e with EvRemoveAll _ => true | _ => false end.

(** An environment in which the engine never listens. *)
Definition env_deaf : Env :=
  {| tmpdir := tmpdir env0;
     flt := flt env0;
     rnd := rnd env0;
     execs := execs env0;
     initdb_files := initdb_files env0;
     pg_config_out := pg_config_out env0;
     listen_delay := fun _ => None |}.

Definition is_Mkdir (e : event) : bool :=
  match e with EvMkdir _ => true | _ => false end.
Definition is_initdb (e : event) : bool :=
  match e with EvRun argv => run_D argv | _ => false end.
Definition is_Write (e : event) : bool :=
  match e with EvWrite _ _ => true | _ => false end.
Definition is_Output (e : event) : bool :=
  match e with EvOutput _ => true | _ => false end.

(** How many of the calls issued so far [K] selects. *)
Definition tally (K : event -> bool) (l : list event) : nat := length (filter K l).

(** Symbolic execution of a block: the calls are unfolded, and the run
    branches on what the environment and the file system answer. *)
Ltac reduce_world :=
  cbn [fst snd Path Args Process fs procs now log failed once initdbOk postgres
       set_fs set_procs set_now set_log set_failed set_once set_initdbOk set_postgres
       tick orb negb andb Datatypes.length filter tally
       is_Mkdir is_initdb is_Write is_Output is_RemoveAll run_D
       String.eqb Ascii.eqb Bool.eqb] in *.

Ltac run_calls :=
  unfold bind, if_err, t_Fatal, ret, modify, gets, os_Mkdir, Cmd_Run, Cmd_Output,
    os_RemoveAll, os_OpenFile, File_Write, File_Close, ioutil_ReadFile, ioutil_TempDir,
    Cmd_Start, os_IsExist, faulty, exec_Command;
  reduce_world;
  repeat (match goal with
          | |- context [flt ?E ?n] => destruct (flt E n) eqn:?
          | |- context [execs ?E ?p] => destruct (execs E p) eqn:?
          | |- context [match ?x with _ => _ end] =>
              lazymatch type of x with
              | option node => destruct x as [[|? [|] [|]|]|] eqn:?
              end
          end; reduce_world).

Definition nowhere (q : string) : bool := false.

(** The kinds of call that make up the template initialization. *)
Definition kindA (K : event -> bool) : Prop :=
  K = is_Mkdir \/ K = is_initdb \/ K = is_Write.

Definition kindC (K : event -> bool) : Prop :=
  K = is_Output \/ K = is_Mkdir \/ K = is_initdb.

Definition no_event (e : event) : bool := false.

(** An environment in which the engine executable of part_000 is missing. *)
Definition env_noexe : Env :=
  {| tmpdir := tmpdir env0;
     flt := flt env0;
     rnd := rnd env0;
     execs := fun p => negb (p =? "/usr/lib/postgresql/bin/postgres");
     initdb_files := initdb_files env0;
     pg_config_out := pg_config_out env0;
     listen_delay := listen_delay env0 |}.

(** A new process on the same machine: the file system stays, the
    package-level variables are initialized afresh. *)
Definition restart (w : World) : World :=
  {| fs := fs w; procs := procs w; now := now w; log := log w; failed := failed w;
     once := false; initdbOk := false; postgres := "" |}.

(** [env0], except that the calls number 2 and 3 fail. *)
Definition faults_2_3 : Env :=
  {| tmpdir := tmpdir env0;
     flt := fun n => Nat.eqb n 2 || Nat.eqb n 3;
     rnd := rnd env0;
     execs := execs env0;
     initdb_files := initdb_files env0;
     pg_config_out := pg_config_out env0;
     listen_delay := listen_delay env0 |}.

(** An environment in which initdb writes no configuration file. *)
Definition env_noconf : Env :=
  {| tmpdir := tmpdir env0;
     flt := flt env0;
     rnd := rnd env0;
     execs := execs env0;
     initdb_files := [("PG_VERSION", "9.3" ++ nl)];
     pg_config_out := pg_config_out env0;
     listen_delay := listen_delay env0 |}.

(** [env0], except that [ioutil.TempDir] always draws the same digits. *)
Definition env_same : Env :=
  {| tmpdir := tmpdir env0;
     flt := flt env0;
     rnd := fun _ => Nat.to_uint 7;
     execs := execs env0;
     initdb_files := initdb_files env0;
     pg_config_out := pg_config_out env0;
     listen_delay := listen_delay env0 |}.

Definition pgC7 (t : T) : PgtestC.PG :=
  {| PgtestC.URL := "host=/tmp/pgtest7 dbname=postgres sslmode=disable";
     PgtestC.t := t; PgtestC.dir := "/tmp/pgtest7";
     PgtestC.cmd := Some {| Path := "/usr/lib/postgresql/bin/postgres";
                            Args := ["-D"; "/tmp/pgtest7"];
                            Process := Some (t - 1) |} |}.

(** The handles the second [Start] returns after the first, under [env0]. *)
Definition pgA9 : PgtestA.PG :=
  {| PgtestA.t := 2; PgtestA.dir := "/tmp/pgtest9";
     PgtestA.cmd := Some {| Path := "postgres"; Args := ["-D"; "/tmp/pgtest9"];
                            Process := Some 1 |} |}.

Definition pgC11 : PgtestC.PG :=
  {| PgtestC.URL := "host=/tmp/pgtest11 dbname=postgres sslmode=disable";
     PgtestC.t := 2; PgtestC.dir := "/tmp/pgtest11";
     PgtestC.cmd := Some {| Path := "/usr/lib/postgresql/bin/postgres";
                            Args := ["-D"; "/tmp/pgtest11"]; Process := Some 1 |} |}.

(** ** Definitions for the further properties *)

(** What a goroutine running the test [t] did to the failures of the
    process, given how it ended: nothing if it returned, one more failure of
    [t] if it left through [t.Fatal]; it did not panic. *)
Definition reports {A : Type} (t : T) (r : Res A) (w w' : World) : Prop :=
  match r with
  | Ok _ => failed w' = failed w
  | Goexit => exists args, failed w' = (t, args) :: failed w
  | Panic _ => False
  end.

(** Every run of [m] ends that way. *)
Definition tidy {A : Type} (t : T) (m : M A) : Prop :=
  forall w, reports t (fst (m w)) w (snd (m w)).

Ltac tidy_block := intros w; run_calls; simpl; eauto.

(** Launches and interrupts among the calls. *)
Definition is_Start (e : event) : bool :=
  match e with EvStart _ => true | _ => false end.

Definition is_Signal (e : event) : bool :=
  match e with EvSignal _ => true | _ => false end.

(** ** src/pgtest.go, second document (lines 124-248) *)

Module PgtestB.

Record PG := { t : T; dir : string; cmd : option Cmd }.

(** Postgres data directory to copy for new postgres processes. *)
Definition Dir : string := "pgtestdata".

(** Connection URL for [sql.Open]. *)
Definition URL : string := "host=/tmp dbname=postgres sslmode=disable".

(** To poll until postgres fully starts. *)
Definition sock : string := "/tmp/.s.PGSQL.5432".

Definition conf : string :=
  nl ++ "fsync = off" ++ nl ++
  "listen_addresses = ''" ++ nl ++
  "unix_socket_directory = '/tmp'" ++ nl.

Section Package.

Variable E : Env.

(** Lines 223-248. *)
Definition maybeInitdb (t : T) : M unit :=
  err <- os_Mkdir E Dir ;;
  if os_IsExist err then ret tt
  else
    if_err err (fun e => t_Fatal t [AErr e]) ;;
    err <- Cmd_Run E (exec_Command "initdb" ["-D"; Dir]) ;;
    if_err err (fun e => t_Fatal t [AStr "initdb"; AErr e]) ;;
    let path := filepath_Join Dir "postgresql.conf" in
    '(f, err) <- os_OpenFile E path ;;
    if_err err (fun e => t_Fatal t [AErr e]) ;;
    err <- File_Write E f conf ;;
    if_err err (fun e => t_Fatal t [AErr e]) ;;
    err <- File_Close E f ;;
    if_err err (fun e => t_Fatal t [AErr e]).

(** [Start], line 182. *)
Definition Start_once (t : T) : M unit := once_Do (maybeInitdb t).

(** [Start], lines 183-193. *)
Definition Start_copy (t : T) : M PG :=
  '(d, err) <- ioutil_TempDir E "" "pgtest" ;;
  let pg := {| t := t; dir := d; cmd := None |} in
  if_err err (fun e => t_Fatal t [AErr e]) ;;
  err <- Cmd_Run E (exec_Command "cp" ["-a"; Dir ++ "/."; dir pg]) ;;
  if_err err (fun e => t_Fatal t [AStr "copy:"; AErr e]) ;;
  ret pg.

(** [Start], lines 194-198. *)
Definition Start_launch (t : T) (pg : PG) : M PG :=
  '(c, err) <- Cmd_Start E sock (exec_Command "postgres" ["-D"; dir pg]) ;;
  let pg := {| t := PgtestB.t pg; dir := dir pg; cmd := Some c |} in
  if_err err (fun e => t_Fatal t [AStr "starting postgres:"; AErr e]) ;;
  ret pg.

(** [Start], lines 199-206, with [left] iterations of the loop still to
    run. *)
Fixpoint Start_wait (t : T) (pg : PG) (left : nat) : M PG :=
  match left with
  | 0 =>
      t_Fatal (A := unit) t [AStr "timeout waiting for postgres to start"] ;;
      panic "unreached"
  | S left' =>
      err <- os_Stat E sock ;;
      match err with
      | None => ret pg
      | Some _ => time_Sleep 50 ;; Start_wait t pg left'
      end
  end.

(** Lines 181-207. *)
Definition Start (t : T) : M PG :=
  Start_once t ;;
  pg <- Start_copy t ;;
  pg <- Start_launch t pg ;;
  Start_wait t pg 20.

(** Lines 212-221. *)
Definition Stop (pg : PG) : M unit :=
  match cmd pg with
  | None => panic "nil pointer dereference"
  | Some c =>
      match Process c with
      | None => panic "nil pointer dereference"
      | Some p =>
          err <- Process_Signal E p ;;
          if_err err (fun e => t_Fatal (t pg) [AStr "postgres:"; AErr e]) ;;
          err <- os_RemoveAll E (dir pg) ;;
          if_err err (fun e => t_Fatal (t pg) [AErr e])
      end
  end.

End Package.

End PgtestB.

(** The handle of the first document that holds what a handle of the second
    holds. *)
Definition toA (pg : PgtestB.PG) : PgtestA.PG :=
  {| PgtestA.t := PgtestB.t pg; PgtestA.dir := PgtestB.dir pg;
     PgtestA.cmd := PgtestB.cmd pg |}.

(** ** src/pgtest_test.go *)

(** [defer d()] in front of the rest of a function body: [d] runs however
    the body ends.  When [d] returns the function ends as its body did;
    when [d] leaves through [runtime.Goexit] or panics, so does the
    function. *)
Definition defer_ {A : Type} (d : M unit) (body : M A) : M A :=
  fun w =>
    let (r, w1) := body w in
    match d w1 with
    | (Ok _, w2) => (r, w2)
    | (Goexit, w2) => (Goexit, w2)
    | (Panic msg, w2) => (Panic msg, w2)
    end.

(** A [*sql.DB] is known by the arguments of [sql.Open]. *)
Record DB := { driverName : string; dataSourceName : string }.

(** What database/sql and the driver decide: the error of [sql.Open], and
    what [QueryRow(query).Scan(&n)] finds for an [int], which depends on
    the engines of the world. *)
Record Sql := {
  open_err : string -> string -> option error;
  scan_int : DB -> string -> World -> error + Z
}.

(** An [int] among the arguments of [t.Fatal] is recorded as the decimal
    numeral that [fmt] prints for it. *)
Definition itoa (n : Z) : string := NilZero.string_of_int (Z.to_int n).

Section Client.

Variable Q : Sql.

(** [sql.Open(driverName, dataSourceName)]. *)
Definition sql_Open (drv dsn : string) : M (DB * option error) :=
  fun w => (Ok ({| driverName := drv; dataSourceName := dsn |}, open_err Q drv dsn), w).

(** [db.QueryRow(query).Scan(&n)]: [n] keeps its value when the scan
    fails. *)
Definition QueryRow_Scan (db : DB) (query : string) (n : Z) : M (Z * option error) :=
  fun w =>
    match scan_int Q db query w with
    | inl e => (Ok (n, Some e), w)
    | inr v => (Ok (v, None), w)
    end.

(** [TestRun] after its first statement: lines 12-23 of the first document,
    37-48 of the second. *)
Definition TestRun_body (t : T) (url : string) : M unit :=
  '(db, err) <- sql_Open "postgres" url ;;
  if_err err (fun e => t_Fatal t [AStr "open"; AErr e]) ;;
  '(n, err) <- QueryRow_Scan db "SELECT 1" 0%Z ;;
  if_err err (fun e => t_Fatal t [AErr e]) ;;
  if negb (Z.eqb n 1)
  then t_Fatal t [AStr "SELECT 1 = %d"; AStr (itoa n)]
  else ret tt.

End Client.

(** The first document, with the package of src/pgtest.go. *)
Module TestA.

Definition TestRun (E : Env) (Q : Sql) (t : T) : M unit :=
  pg <- PgtestA.Start E t ;;
  defer_ (PgtestA.Stop E pg) (TestRun_body Q t PgtestA.URL).

End TestA.

(** The second document, with the package of src/unnamed/part_000. *)
Module TestC.

Definition TestRun (E : Env) (Q : Sql) (t : T) : M unit :=
  pg <- PgtestC.Start E t ;;
  defer_ (PgtestC.Stop E pg) (TestRun_body Q t (PgtestC.URL pg)).

End TestC.

(** Did the call return? *)
Definition returned {A : Type} (r : Res A) : bool :=
  match r with Ok _ => true | _ => false end.

(** [w'] has the launches, the interrupts and the engines of [w]. *)
Definition quiet (w w' : World) : Prop :=
  tally is_Start (log w') = tally is_Start (log w) /\
  tally is_Signal (log w') = tally is_Signal (log w) /\
  map pid (procs w') = map pid (procs w).

(** A client for which the driver is registered and the query answers 1. *)
Definition sql0 : Sql :=
  {| open_err := fun _ _ => None; scan_int := fun _ _ _ => inr 1%Z |}.

(** [w'] has the files of [w] and more. *)
Definition kept (w w' : World) : Prop :=
  forall q, fs w q <> None -> fs w' q <> None.

Ltac quiet_block := unfold quiet, tally; run_calls; simpl; repeat split.

(** Closes a goal on the launches, interrupts and engines at the end of a
    chain of blocks, from what each block does. *)
Ltac quiet_end :=
  repeat match goal with
         | H : quiet _ _ |- _ =>
             let L := fresh "L" in
             pose proof (proj2 (proj2 H)) as L;
             apply (f_equal (@length nat)) in L; rewrite !length_map in L;
             destruct H as (? & ? & ?)
         end;
  cbn [fst snd returned app] in *;
  repeat split; try congruence; try lia; try (simpl; congruence).

(** Closes [kept w w'] once the calls of a block are run, given the lemmas
    on [settle], [upd], [copy_into] and [populate]. *)
Ltac keep_by settle_k upd_k copy_k populate_k :=
  unfold kept; intros q Hq; reduce_world;
  repeat first [ assumption
               | apply settle_k; reduce_world
               | apply upd_k
               | apply copy_k
               | apply populate_k ].

(** The socket file [sock] is there, or an engine that will start to
    listen on it at time [T] is among the engines. *)
Definition coming (sock : string) (T : nat) (w : World) : Prop :=
  fs w sock <> None \/
  (now w < T /\ exists p, In {| pid := p; psock := sock; up_at := Some T |} (procs w)).

(** The socket file [sock] is not there, and no engine will start to listen
    on it up to time [L]. *)
Definition silent (sock : string) (L : nat) (w : World) : Prop :=
  fs w sock = None /\
  forall pr, In pr (procs w) -> psock pr = sock -> due L pr = false.

(** ** Lemmas on strings and paths *)

Lemma append_assoc (a b c : string) : (a ++ b) ++ c = a ++ (b ++ c).
Proof. induction a as [|x a IH]; simpl; [reflexivity | now rewrite IH]. Qed.

Lemma length_append (a b : string) :
  String.length (a ++ b) = String.length a + String.length b.
Proof. induction a as [|x a IH]; simpl; [reflexivity | now rewrite IH]. Qed.

Lemma append_inv_tail (a b s : string) : a ++ s = b ++ s -> a = b.
Proof.
  revert b; induction a as [|x a IH]; intros [|y b] H; simpl in H.
  - reflexivity.
  - apply (f_equal String.length) in H; simpl in H.
    rewrite length_append in H; lia.
  - apply (f_equal String.length) in H; simpl in H.
    rewrite length_append in H; lia.
  - injection H as -> H. now rewrite (IH _ H).
Qed.

Lemma prefix_nil (s : string) : prefix "" s = true.
Proof. destruct s; reflexivity. Qed.

Lemma prefix_cons (c d : ascii) (a s : string) :
  prefix (String c a) (String d s) = if ascii_dec c d then prefix a s else false.
Proof. reflexivity. Qed.

Lemma prefix_refl (s : string) : prefix s s = true.
Proof.
  induction s as [|c s IH]; [reflexivity|].
  rewrite prefix_cons. destruct (ascii_dec c c); [exact IH | congruence].
Qed.

Lemma prefix_app_cancel (a x y : string) : prefix (a ++ x) (a ++ y) = prefix x y.
Proof.
  induction a as [|c a IH]; [reflexivity|].
  simpl append. rewrite prefix_cons.
  destruct (ascii_dec c c); [exact IH | congruence].
Qed.

Lemma prefix_app (a s : string) : prefix a s = true -> exists r, s = a ++ r.
Proof.
  revert s; induction a as [|c a IH]; intros s H.
  - now exists s.
  - destruct s as [|d s]; [discriminate|].
    rewrite prefix_cons in H. destruct (ascii_dec c d) as [->|]; [|discriminate].
    destruct (IH _ H) as [r ->]. now exists r.
Qed.

Lemma prefix_app_r (a r : string) : prefix a (a ++ r) = true.
Proof.
  induction a as [|c a IH]; [apply prefix_nil|].
  simpl append. rewrite prefix_cons. destruct (ascii_dec c c); [exact IH | congruence].
Qed.

(** Two prefixes of one string are prefixes of one another. *)
Lemma prefix_chain (x y s : string) :
  prefix x s = true -> prefix y s = true -> prefix x y = true \/ prefix y x = true.
Proof.
  revert y s; induction x as [|c x IH]; intros y s Hx Hy.
  - left. apply prefix_nil.
  - destruct y as [|d y]; [right; reflexivity|].
    destruct s as [|e s]; [discriminate|].
    rewrite prefix_cons in Hx, Hy.
    destruct (ascii_dec c e) as [->|]; [|discriminate].
    destruct (ascii_dec d e) as [->|]; [|discriminate].
    rewrite !prefix_cons. destruct (ascii_dec e e); [|congruence].
    eapply IH; eassumption.
Qed.

Lemma bytes_Contains_eq (b sub : string) :
  bytes_Contains b sub =
  if prefix sub b then true
  else match b with
       | EmptyString => false
       | String _ b' => bytes_Contains b' sub
       end.
Proof. destruct b; reflexivity. Qed.

Lemma prefix_app_contains (a b s : string) :
  prefix (a ++ b) s = true -> bytes_Contains s b = true.
Proof.
  revert s; induction a as [|c a IH]; intros s H.
  - simpl in H. rewrite bytes_Contains_eq, H. reflexivity.
  - destruct s as [|d s]; [discriminate|].
    simpl append in H. rewrite prefix_cons in H.
    destruct (ascii_dec c d); [|discriminate].
    rewrite bytes_Contains_eq.
    destruct (prefix b (String d s)); [reflexivity | now apply IH].
Qed.

Lemma under_refl (d : string) : under d d = true.
Proof. apply prefix_refl. Qed.

(** Two directories that hold one path are nested. *)
Lemma under_nested (d1 d2 p : string) :
  under d1 p = true -> under d2 p = true -> under d1 d2 = true \/ under d2 d1 = true.
Proof. unfold under. apply prefix_chain. Qed.

Lemma strip_prefix_app (a s r : string) : strip_prefix a s = Some r -> s = a ++ r.
Proof.
  revert s; induction a as [|c a IH]; intros s H; simpl in H.
  - now injection H as ->.
  - destruct s as [|d s]; [discriminate|].
    destruct (Ascii.eqb_spec c d) as [->|]; [|discriminate].
    simpl. now rewrite (IH _ H).
Qed.

Lemma strip_prefix_under (d q r : string) :
  strip_prefix (d ++ "/") q = Some r -> under d q = true.
Proof.
  intros H. apply strip_prefix_app in H. subst q. unfold under.
  rewrite (append_assoc (d ++ "/")). apply prefix_app_r.
Qed.

Lemma under_child (d name : string) : under d (d ++ "/" ++ name) = true.
Proof.
  unfold under. rewrite <- (append_assoc d "/" name).
  rewrite (append_assoc (d ++ "/")). apply prefix_app_r.
Qed.

Lemma Join_head (a b : string) : filepath_Join a b = join_head a ++ b.
Proof.
  unfold filepath_Join, join_head. destruct (a =? ""); [reflexivity|].
  now rewrite append_assoc.
Qed.

Lemma Join_under (d name : string) :
  d <> "" -> under d (filepath_Join d name) = true.
Proof.
  intros H. unfold filepath_Join.
  destruct (String.eqb_spec d ""); [contradiction|]. apply under_child.
Qed.

Lemma Join_neq (d name : string) : name <> "" -> filepath_Join d name <> d.
Proof.
  intros Hn H. apply (f_equal String.length) in H. unfold filepath_Join in H.
  destruct (String.eqb_spec d "") as [->|].
  - destruct name; [congruence | discriminate].
  - rewrite !length_append in H. simpl in H. lia.
Qed.

Lemma digits_no_slash (u : uint) : no_slash (NilEmpty.string_of_uint u) = true.
Proof. induction u; simpl; auto. Qed.

Lemma prefix_slash_eq (a b r : string) :
  no_slash a = true -> no_slash b = true ->
  prefix (a ++ "/") (b ++ "/" ++ r) = true -> a = b.
Proof.
  revert b; induction a as [|c a IH]; intros [|d b] Ha Hb H;
    simpl append in H; try rewrite prefix_cons in H.
  - reflexivity.
  - destruct (ascii_dec "/" d) as [<-|]; [|discriminate].
    simpl in Hb. discriminate.
  - destruct (ascii_dec c "/") as [->|]; [|discriminate].
    simpl in Ha. discriminate.
  - simpl in Ha, Hb.
    apply andb_prop in Ha as [_ Ha]. apply andb_prop in Hb as [_ Hb].
    destruct (ascii_dec c d) as [->|]; [|discriminate].
    now rewrite (IH b Ha Hb H).
Qed.

(** ** Steps *)

Section Steps.

Variable P : event -> bool.
Variable S : string -> bool.

Lemma step_refl (w : World) : step P S w w.
Proof. split; auto. intros H; split; [exact H | intros q _; reflexivity]. Qed.

Lemma step_trans (a b c : World) : step P S a b -> step P S b c -> step P S a c.
Proof.
  intros [o1 k1 l1 f1] [o2 k2 l2 f2]. split; try congruence.
  intros H. destruct (f1 H) as [H1 F1]. destruct (f2 H1) as [H2 F2].
  split; [exact H2|]. intros q Hq. rewrite (F2 q Hq). apply F1, Hq.
Qed.

Lemma steps_ret {A} (Q : A -> Prop) (a : A) : Q a -> steps P S Q (ret a).
Proof.
  intros H w. split; [apply step_refl|]. simpl. intros b [= <-]. exact H.
Qed.

Lemma steps_bind {A B} (Q : A -> Prop) (Q' : B -> Prop) (m : M A) (k : A -> M B) :
  steps P S Q m -> (forall a, Q a -> steps P S Q' (k a)) -> steps P S Q' (bind m k).
Proof.
  intros Hm Hk w. unfold bind. destruct (Hm w) as [Hs Hq].
  destruct (m w) as [[a| |msg] w1]; simpl in *.
  - destruct (Hk a (Hq a eq_refl) w1) as [Hs' Hq'].
    split; [eapply step_trans; eassumption | exact Hq'].
  - split; [exact Hs | discriminate].
  - split; [exact Hs | discriminate].
Qed.

Lemma steps_weaken {A} (Q Q' : A -> Prop) (m : M A) :
  steps P S Q m -> (forall a, Q a -> Q' a) -> steps P S Q' m.
Proof. intros Hm HQ w. destruct (Hm w) as [Hs Hq]. split; auto. Qed.

Lemma step_failed (w : World) l : step P S w (set_failed l w).
Proof. split; auto. intros H; split; [exact H | intros q _; reflexivity]. Qed.

Lemma steps_Fatal {A} (Q : A -> Prop) (t : T) (args : list arg) :
  steps P S Q (t_Fatal t args).
Proof. intros w. split; [apply step_failed | discriminate]. Qed.


Lemma steps_gets {A} (f : World -> A) : steps P S (fun _ => True) (gets f).
Proof. intros w. split; [apply step_refl | trivial]. Qed.

Lemma steps_if_err (err : option error) (k : error -> M unit) :
  (forall e, steps P S (fun _ => True) (k e)) -> steps P S (fun _ => True) (if_err err k).
Proof. intros H. destruct err; simpl; [apply H | now apply steps_ret]. Qed.

Lemma steps_if_err_Fatal (err : option error) (t : T) (args : error -> list arg) :
  steps P S (fun _ => True) (if_err err (fun e => t_Fatal t (args e))).
Proof. apply steps_if_err. intros e. apply steps_Fatal. Qed.

(** A call that is logged as [e] and turns the file system into [f]. *)
Lemma step_call (w : World) (e : event) (f : FS) :
  P e = false -> (forall q, S q = true -> f q = fs w q) ->
  step P S w (set_fs f (tick e w)).
Proof.
  intros He Hf.
  split; simpl;
    [reflexivity | reflexivity | now rewrite He | intros H; split; [exact H | exact Hf]].
Qed.

Lemma step_tick (w : World) (e : event) : P e = false -> step P S w (tick e w).
Proof.
  intros He.
  split; simpl;
    [reflexivity | reflexivity | now rewrite He
    | intros H; split; [exact H | intros q _; reflexivity]].
Qed.

Lemma upd_other (p q : string) (n : node) (f : FS) :
  S p = false -> S q = true -> upd p n f q = f q.
Proof.
  intros Hp Hq. unfold upd. destruct (String.eqb_spec q p); [congruence | reflexivity].
Qed.

Lemma settle_fs (n : nat) (ps : list proc) (f : FS) (q : string) :
  forallb (fun pr => negb (S (psock pr))) ps = true -> S q = true ->
  fold_right (fun pr g => if due n pr then upd (psock pr) Sock g else g) f ps q = f q.
Proof.
  induction ps as [|pr ps IH]; simpl; intros H Hq; [reflexivity|].
  apply andb_prop in H as [H1 H2]. apply negb_true_iff in H1.
  destruct (due n pr); [rewrite upd_other by assumption|]; now apply IH.
Qed.

Lemma settle_socks (n : nat) (ps : list proc) :
  forallb (fun pr => negb (S (psock pr)))
          (map (fun pr => if due n pr
                          then {| pid := pid pr; psock := psock pr; up_at := None |}
                          else pr) ps)
  = forallb (fun pr => negb (S (psock pr))) ps.
Proof.
  induction ps as [|pr ps IH]; simpl; [reflexivity|].
  rewrite IH. now destruct (due n pr).
Qed.

Lemma step_settle (w : World) : step P S w (settle w).
Proof.
  split; simpl; auto. unfold socks_off; simpl. intros H. split.
  - now rewrite settle_socks.
  - intros q Hq. now apply settle_fs.
Qed.

Lemma step_now (w : World) (n : nat) : step P S w (set_now n w).
Proof. split; auto. intros H; split; [exact H | intros q _; reflexivity]. Qed.

Lemma step_spawn (w : World) (pr : proc) :
  S (psock pr) = false -> step P S w (set_procs (pr :: procs w) w).
Proof.
  intros Hp. split; auto. unfold socks_off; simpl. rewrite Hp. simpl.
  intros H; split; [exact H | intros q _; reflexivity].
Qed.

Variable E : Env.

Lemma steps_TempDir (d pfx : string) :
  (forall n, P (EvTempDir n) = false) ->
  (forall u, S (temp_name E d pfx u) = false) ->
  steps P S (fun r => snd r = None -> exists u, fst r = temp_name E d pfx u)
        (ioutil_TempDir E d pfx).
Proof.
  intros HP HS w. unfold ioutil_TempDir.
  destruct (faulty E w); simpl.
  - split; [now apply step_tick | intros a [= <-]; discriminate].
  - destruct (fs w _) eqn:Hf; simpl.
    + split; [now apply step_tick | intros a [= <-]; discriminate].
    + split.
      * apply step_call; [apply HP|]. intros q Hq. now apply upd_other.
      * intros a [= <-] _. simpl. eauto.
Qed.

Lemma steps_Run_cp (name src dst : string) :
  (forall argv, P (EvRun (name :: "-a" :: argv)) = false) -> off S dst ->
  steps P S (fun _ => True) (Cmd_Run E (exec_Command name ["-a"; src; dst])).
Proof.
  intros HP HS w. split; [|trivial]. unfold Cmd_Run. simpl.
  destruct (faulty E w || negb (execs E name)); simpl; [now apply step_tick|].
  destruct (fs w (drop_dot src)); simpl; [|now apply step_tick].
  apply step_call; [apply HP|]. intros q Hq. unfold copy_into.
  destruct (strip_prefix (dst ++ "/") q) eqn:Hs; [|reflexivity].
  apply strip_prefix_under in Hs. apply HS in Hs. congruence.
Qed.

Lemma steps_OpenFile (p : string) :
  P (EvOpenFile p) = false ->
  steps P S (fun r => fst r = p) (os_OpenFile E p).
Proof.
  intros HP w. unfold os_OpenFile.
  destruct (faulty E w); simpl; [split; [now apply step_tick | now intros a [= <-]]|].
  destruct (fs w p) as [[|? ? [|]|]|]; simpl;
    (split; [now apply step_tick | now intros a [= <-]]).
Qed.

Lemma steps_ReadFile (p : string) :
  P (EvReadFile p) = false ->
  steps P S (fun _ => True) (ioutil_ReadFile E p).
Proof.
  intros HP w. split; [|trivial]. unfold ioutil_ReadFile.
  destruct (faulty E w); simpl; [now apply step_tick|].
  destruct (fs w p) as [[|? [|] ?|]|]; simpl; now apply step_tick.
Qed.

Lemma steps_Write (f data : string) :
  P (EvWrite f data) = false -> S f = false ->
  steps P S (fun _ => True) (File_Write E f data).
Proof.
  intros HP HS w. split; [|trivial]. unfold File_Write.
  destruct (faulty E w); simpl; [now apply step_tick|].
  destruct (fs w f) as [[| |]|]; simpl; try now apply step_tick.
  apply step_call; [exact HP|]. intros q Hq. now apply upd_other.
Qed.

Lemma steps_Close (f : string) :
  P (EvClose f) = false -> steps P S (fun _ => True) (File_Close E f).
Proof.
  intros HP w. split; [|trivial]. unfold File_Close.
  destruct (faulty E w); simpl; now apply step_tick.
Qed.

Lemma steps_Stat (p : string) :
  P (EvStat p) = false -> steps P S (fun _ => True) (os_Stat E p).
Proof.
  intros HP w. split; [|trivial]. unfold os_Stat.
  destruct (faulty E w); simpl; [now apply step_tick|].
  destruct (fs w p); simpl; now apply step_tick.
Qed.

Lemma steps_Sleep (ms : nat) :
  P (EvSleep ms) = false -> steps P S (fun _ => True) (time_Sleep ms).
Proof.
  intros HP w. split; [|trivial]. unfold time_Sleep. simpl.
  eapply step_trans; [|apply step_settle].
  eapply step_trans; [|apply step_now]. now apply step_tick.
Qed.



Lemma steps_Start (sockfile : string) (c : Cmd) :
  P (EvStart (Path c :: Args c)) = false -> S sockfile = false ->
  steps P S (fun _ => True) (Cmd_Start E sockfile c).
Proof.
  intros HP HS w. split; [|trivial]. unfold Cmd_Start.
  destruct (faulty E w || negb (execs E (Path c))); simpl; [now apply step_tick|].
  eapply step_trans; [|apply step_settle].
  eapply step_trans; [apply step_tick, HP|].
  apply (step_spawn (tick _ w)). exact HS.
Qed.

End Steps.

(** ** The names of the instance directories and of the template *)

Lemma temp_name_eq (E : Env) (u : uint) :
  temp_name E "" "pgtest" u = join_head (tmpdir E) ++ "pgtest" ++ digits u.
Proof. unfold temp_name. simpl. apply Join_head. Qed.

Lemma temp_name_nonempty (E : Env) (u : uint) : temp_name E "" "pgtest" u <> "".
Proof.
  rewrite temp_name_eq. intros H. apply (f_equal String.length) in H.
  rewrite length_append in H. simpl in H. lia.
Qed.

Lemma under_head (h a b : string) : under (h ++ a) (h ++ b) = under a b.
Proof. unfold under. rewrite !append_assoc. apply prefix_app_cancel. Qed.

Lemma under_pgtest (x y : string) :
  no_slash x = true -> no_slash y = true ->
  under ("pgtest" ++ x) ("pgtest" ++ y) = true -> x = y.
Proof.
  intros Hx Hy H. unfold under in H.
  rewrite !append_assoc in H. rewrite prefix_app_cancel in H.
  apply (prefix_slash_eq x y "" Hx Hy). exact H.
Qed.

Lemma digits_not_data (u : uint) : digits u <> "data".
Proof. destruct u; discriminate. Qed.

Lemma digits_not_data1 (u : uint) : digits u <> "data1".
Proof. destruct u; discriminate. Qed.

(** No instance directory holds, or is held by, a directory named
    [pgtest] followed by something that is not a run of digits. *)
Lemma temp_off_template (E : Env) (x : string) (u : uint) (q : string) :
  no_slash x = true -> (forall v, digits v <> x) ->
  under (temp_name E "" "pgtest" u) q = true ->
  under (join_head (tmpdir E) ++ "pgtest" ++ x) q = false.
Proof.
  intros Hx Hd Hq.
  destruct (under (join_head (tmpdir E) ++ "pgtest" ++ x) q) eqn:Ht; [|reflexivity].
  exfalso. rewrite temp_name_eq in Hq.
  destruct (under_nested _ _ _ Hq Ht) as [H|H]; rewrite under_head in H;
    apply under_pgtest in H; auto using digits_no_slash;
    apply (Hd u); congruence.
Qed.

(** Two instance directories with different names hold no common path. *)
Lemma temp_off_temp (E : Env) (u v : uint) (q : string) :
  temp_name E "" "pgtest" u <> temp_name E "" "pgtest" v ->
  under (temp_name E "" "pgtest" u) q = true ->
  under (temp_name E "" "pgtest" v) q = false.
Proof.
  intros Hne Hq.
  destruct (under (temp_name E "" "pgtest" v) q) eqn:Ht; [|reflexivity].
  exfalso. apply Hne. rewrite !temp_name_eq in *.
  destruct (under_nested _ _ _ Hq Ht) as [H|H]; rewrite under_head in H;
    apply under_pgtest in H; auto using digits_no_slash; congruence.
Qed.

Lemma pgtestdataA_eq (E : Env) :
  PgtestA.pgtestdata E = join_head (tmpdir E) ++ "pgtest" ++ "data".
Proof. apply Join_head. Qed.

Lemma pgtestdataC_eq (E : Env) :
  PgtestC.pgtestdata E = join_head (tmpdir E) ++ "pgtest" ++ "data1".
Proof. apply Join_head. Qed.

(** The socket of src/pgtest.go is not inside its template. *)
Lemma sock_off_templateA (E : Env) : under (PgtestA.pgtestdata E) PgtestA.sock = false.
Proof.
  destruct (under (PgtestA.pgtestdata E) PgtestA.sock) eqn:H; [|reflexivity].
  unfold under in H. rewrite pgtestdataA_eq, append_assoc in H.
  apply prefix_app_contains in H. vm_compute in H. discriminate.
Qed.

(** ** The blocks of [Start] and [Stop] as steps *)

Lemma steps_seq P S {A B} (Q : B -> Prop) (m : M A) (k : M B) :
  steps P S (fun _ => True) m -> steps P S Q k -> steps P S Q (m ;; k).
Proof. intros Hm Hk. eapply steps_bind; [exact Hm | intros _ _; exact Hk]. Qed.

Lemma steps_Fatal_seq P S {A B} (Q : B -> Prop) (t : T) (args : list arg) (k : A -> M B) :
  steps P S Q (bind (t_Fatal t args) k).
Proof.
  eapply steps_bind; [apply (steps_Fatal P S (fun _ => False)) | intros _ []].
Qed.

Section BlocksC.

Variable P : event -> bool.
Variable S : string -> bool.
Variable E : Env.

Hypothesis HP : forall e, P e = true -> bodyC e = true.
Hypothesis HS : forall u, off S (temp_name E "" "pgtest" u).

Lemma P_offC (e : event) : bodyC e = false -> P e = false.
Proof. intros H. destruct (P e) eqn:Hp; [|reflexivity]. apply HP in Hp. congruence. Qed.

Lemma S_off_Join (u : uint) (name : string) :
  S (filepath_Join (temp_name E "" "pgtest" u) name) = false.
Proof. apply (HS u). apply Join_under. apply temp_name_nonempty. Qed.

Lemma Start_copy_stepsC (t : T) :
  steps P S (fun pg => exists u, PgtestC.dir pg = temp_name E "" "pgtest" u)
        (PgtestC.Start_copy E t).
Proof.
  unfold PgtestC.Start_copy. eapply steps_bind.
  - apply steps_TempDir.
    + intros n. now apply P_offC.
    + intros u. apply (HS u), under_refl.
  - intros [d [e|]] Hq; simpl in *; [apply steps_Fatal_seq|].
    destruct (Hq eq_refl) as [u ->].
    apply steps_seq; [now apply steps_ret|].
    eapply steps_bind.
    + apply steps_Run_cp; [intros argv; now apply P_offC | apply HS].
    + intros err _.
      apply steps_seq; [apply steps_if_err_Fatal|]. apply steps_ret. eauto.
Qed.

Lemma contains_steps (substr name : string) :
  steps P S (fun _ => True) (PgtestC.contains E substr name).
Proof.
  unfold PgtestC.contains. eapply steps_bind.
  - apply steps_ReadFile. now apply P_offC.
  - intros [b err] _. now apply steps_ret.
Qed.

Lemma Start_conf_stepsC (t : T) (pg : PgtestC.PG) :
  (exists u, PgtestC.dir pg = temp_name E "" "pgtest" u) ->
  steps P S (fun _ => True) (PgtestC.Start_conf E t pg).
Proof.
  intros [u Hu]. unfold PgtestC.Start_conf. rewrite Hu. eapply steps_bind.
  - apply steps_OpenFile. now apply P_offC.
  - intros [f err] Hf; simpl in Hf; subst f.
    apply steps_seq; [apply steps_if_err_Fatal|].
    eapply steps_bind; [apply contains_steps|]. intros found _.
    eapply steps_bind.
    + apply steps_Write; [now apply P_offC | apply S_off_Join].
    + intros err' _.
      apply steps_seq; [apply steps_if_err_Fatal|].
      eapply steps_bind; [apply steps_Close; now apply P_offC|].
      intros err'' _. apply steps_if_err_Fatal.
Qed.

Lemma Start_launch_stepsC (t : T) (pg : PgtestC.PG) :
  (exists u, PgtestC.dir pg = temp_name E "" "pgtest" u) ->
  steps P S (fun pg' => PgtestC.dir pg' = PgtestC.dir pg /\ PgtestC.t pg' = PgtestC.t pg)
        (PgtestC.Start_launch E t pg).
Proof.
  intros [u Hu]. unfold PgtestC.Start_launch.
  eapply steps_bind; [apply steps_gets|]. intros exe _.
  eapply steps_bind.
  - apply steps_Start; [now apply P_offC | rewrite Hu; apply S_off_Join].
  - intros [c err] _.
    apply steps_seq; [apply steps_if_err_Fatal|]. now apply steps_ret.
Qed.

Lemma Start_wait_stepsC (t : T) (pg : PgtestC.PG) (sock : string) (n : nat) :
  steps P S (fun pg' => pg' = pg) (PgtestC.Start_wait E t pg sock n).
Proof.
  induction n as [|n IH]; simpl.
  - apply steps_Fatal_seq.
  - eapply steps_bind; [apply steps_Stat; now apply P_offC|].
    intros [e|] _; [|now apply steps_ret].
    apply steps_seq; [apply steps_Sleep; now apply P_offC | exact IH].
Qed.

(** [Start] after its first block. *)
Lemma Start_rest_stepsC (t : T) :
  steps P S (fun pg => exists u, PgtestC.dir pg = temp_name E "" "pgtest" u)
        (PgtestC.Start_rest E t).
Proof.
  unfold PgtestC.Start_rest.
  eapply steps_bind; [apply Start_copy_stepsC|]. intros pg Hpg.
  apply steps_seq; [now apply Start_conf_stepsC|].
  eapply steps_bind; [now apply Start_launch_stepsC|]. intros pg' [Hd _].
  eapply steps_weaken; [apply Start_wait_stepsC|].
  intros pg'' ->. now rewrite Hd.
Qed.


End BlocksC.

Section BlocksA.

Variable P : event -> bool.
Variable S : string -> bool.
Variable E : Env.

Hypothesis HP : forall e, P e = true -> bodyA e = true.
Hypothesis HS : forall u, off S (temp_name E "" "pgtest" u).
Hypothesis Hsock : S PgtestA.sock = false.

Lemma P_offA (e : event) : bodyA e = false -> P e = false.
Proof. intros H. destruct (P e) eqn:Hp; [|reflexivity]. apply HP in Hp. congruence. Qed.

Lemma Start_copy_stepsA (t : T) :
  steps P S (fun pg => exists u, PgtestA.dir pg = temp_name E "" "pgtest" u)
        (PgtestA.Start_copy E t).
Proof.
  unfold PgtestA.Start_copy. eapply steps_bind.
  - apply steps_TempDir.
    + intros n. now apply P_offA.
    + intros u. apply (HS u), under_refl.
  - intros [d [e|]] Hq; simpl in *; [apply steps_Fatal_seq|].
    destruct (Hq eq_refl) as [u ->].
    apply steps_seq; [now apply steps_ret|].
    eapply steps_bind.
    + apply steps_Run_cp; [intros argv; now apply P_offA | apply HS].
    + intros err _.
      apply steps_seq; [apply steps_if_err_Fatal|]. apply steps_ret. eauto.
Qed.

Lemma Start_launch_stepsA (t : T) (pg : PgtestA.PG) :
  steps P S (fun pg' => PgtestA.dir pg' = PgtestA.dir pg /\ PgtestA.t pg' = PgtestA.t pg)
        (PgtestA.Start_launch E t pg).
Proof.
  unfold PgtestA.Start_launch. eapply steps_bind.
  - apply steps_Start; [now apply P_offA | exact Hsock].
  - intros [c err] _.
    apply steps_seq; [apply steps_if_err_Fatal|]. now apply steps_ret.
Qed.

Lemma Start_wait_stepsA (t : T) (pg : PgtestA.PG) (n : nat) :
  steps P S (fun pg' => pg' = pg) (PgtestA.Start_wait E t pg n).
Proof.
  induction n as [|n IH]; simpl.
  - apply steps_Fatal_seq.
  - eapply steps_bind; [apply steps_Stat; now apply P_offA|].
    intros [e|] _; [|now apply steps_ret].
    apply steps_seq; [apply steps_Sleep; now apply P_offA | exact IH].
Qed.

(** [Start] after its first block. *)
Lemma Start_rest_stepsA (t : T) :
  steps P S (fun pg => exists u, PgtestA.dir pg = temp_name E "" "pgtest" u)
        (PgtestA.Start_rest E t).
Proof.
  unfold PgtestA.Start_rest.
  eapply steps_bind; [apply Start_copy_stepsA|]. intros pg Hpg.
  eapply steps_bind; [apply Start_launch_stepsA|]. intros pg' [Hd _].
  eapply steps_weaken; [apply Start_wait_stepsA|].
  intros pg'' ->. now rewrite Hd.
Qed.


End BlocksA.

(** ** Stop *)

(** [Stop] on a handle whose engine was launched: the three ways it ends. *)
Lemma Stop_eqA (E : Env) (pg : PgtestA.PG) (c : Cmd) (p : nat) (w : World) :
  PgtestA.cmd pg = Some c -> Process c = Some p ->
  PgtestA.Stop E pg w =
  let w1 := tick (EvSignal p) w in
  let w2 := tick (EvRemoveAll (PgtestA.dir pg)) w1 in
  if flt E (length (log w))
  then (Goexit, set_failed ((PgtestA.t pg, [AStr "postgres:"; AErr EIO]) :: failed w) w1)
  else if flt E (Datatypes.S (length (log w)))
       then (Goexit, set_failed ((PgtestA.t pg, [AErr EIO]) :: failed w) w2)
       else (Ok tt, set_fs (remove_all (PgtestA.dir pg) (fs w)) w2).
Proof.
  intros Hc Hp. unfold PgtestA.Stop. rewrite Hc, Hp.
  unfold bind, Process_Signal, os_RemoveAll, faulty. simpl.
  destruct (flt E (length (log w))); simpl; [reflexivity|].
  destruct (flt E (Datatypes.S (length (log w)))); reflexivity.
Qed.

Lemma Stop_eqC (E : Env) (pg : PgtestC.PG) (c : Cmd) (p : nat) (w : World) :
  PgtestC.cmd pg = Some c -> Process c = Some p ->
  PgtestC.Stop E pg w =
  let w1 := tick (EvSignal p) w in
  let w2 := tick (EvRemoveAll (PgtestC.dir pg)) w1 in
  if flt E (length (log w))
  then (Goexit, set_failed ((PgtestC.t pg, [AStr "postgres:"; AErr EIO]) :: failed w) w1)
  else if flt E (Datatypes.S (length (log w)))
       then (Goexit, set_failed ((PgtestC.t pg, [AErr EIO]) :: failed w) w2)
       else (Ok tt, set_fs (remove_all (PgtestC.dir pg) (fs w)) w2).
Proof.
  intros Hc Hp. unfold PgtestC.Stop. rewrite Hc, Hp.
  unfold bind, Process_Signal, os_RemoveAll, faulty. simpl.
  destruct (flt E (length (log w))); simpl; [reflexivity|].
  destruct (flt E (Datatypes.S (length (log w)))); reflexivity.
Qed.

(** [Stop] returns only on a handle whose engine was launched. *)
Lemma Stop_Ok_launchedA (E : Env) (pg : PgtestA.PG) (w : World) :
  fst (PgtestA.Stop E pg w) = Ok tt ->
  exists c p, PgtestA.cmd pg = Some c /\ Process c = Some p.
Proof.
  unfold PgtestA.Stop. destruct (PgtestA.cmd pg) as [c|]; [|discriminate].
  destruct (Process c) as [p|] eqn:Hp; [|discriminate].
  intros _. exists c, p. split; [reflexivity | exact Hp].
Qed.

Lemma Stop_Ok_launchedC (E : Env) (pg : PgtestC.PG) (w : World) :
  fst (PgtestC.Stop E pg w) = Ok tt ->
  exists c p, PgtestC.cmd pg = Some c /\ Process c = Some p.
Proof.
  unfold PgtestC.Stop. destruct (PgtestC.cmd pg) as [c|]; [|discriminate].
  destruct (Process c) as [p|] eqn:Hp; [|discriminate].
  intros _. exists c, p. split; [reflexivity | exact Hp].
Qed.

(** ** Concrete worlds *)

Example Start_world0_A : fst (PgtestA.Start env0 1 world0) = Ok pgA0.
Proof. vm_compute. reflexivity. Qed.

Example Start_world0_C : fst (PgtestC.Start env0 1 world0) = Ok pgC0.
Proof. vm_compute. reflexivity. Qed.

(** The key [Start] looks for is in the sample configuration of an engine
    that knows the singular name, and not in one that knows the plural. *)
Example contains_singular :
  bytes_Contains "#unix_socket_directory = ''" "unix_socket_directory" = true /\
  bytes_Contains "#unix_socket_directories = '/tmp'" "unix_socket_directory" = false.
Proof. vm_compute. split; reflexivity. Qed.

Example TrimSpace_bindir :
  bytes_TrimSpace (pg_config_out env0) = "/usr/lib/postgresql/bin".
Proof. vm_compute. reflexivity. Qed.

(** The calls of that first [Start], in the order they are issued. *)
Example Start_trace_A :
  List.rev (log (snd (PgtestA.Start env0 1 world0))) =
  [EvMkdir "/tmp/pgtestdata";
   EvRun ["initdb"; "-D"; "/tmp/pgtestdata"];
   EvOpenFile "/tmp/pgtestdata/postgresql.conf";
   EvWrite "/tmp/pgtestdata/postgresql.conf" PgtestA.conf;
   EvClose "/tmp/pgtestdata/postgresql.conf";
   EvTempDir "/tmp/pgtest5";
   EvRun ["cp"; "-a"; "/tmp/pgtestdata/."; "/tmp/pgtest5"];
   EvStart ["postgres"; "-D"; "/tmp/pgtest5"];
   EvStat "/tmp/.s.PGSQL.5432"].
Proof. vm_compute. reflexivity. Qed.

Example Start_trace_C :
  List.rev (log (snd (PgtestC.Start env0 1 world0))) =
  [EvOutput ["pg_config"; "--bindir"];
   EvMkdir "/tmp/pgtestdata1";
   EvRun ["/usr/lib/postgresql/bin/initdb"; "-D"; "/tmp/pgtestdata1"];
   EvTempDir "/tmp/pgtest3";
   EvRun ["cp"; "-a"; "/tmp/pgtestdata1/."; "/tmp/pgtest3"];
   EvOpenFile "/tmp/pgtest3/postgresql.conf";
   EvReadFile "/tmp/pgtest3/postgresql.conf";
   EvWrite "/tmp/pgtest3/postgresql.conf" (PgtestC.conf "/tmp/pgtest3" true);
   EvClose "/tmp/pgtest3/postgresql.conf";
   EvStart ["/usr/lib/postgresql/bin/postgres"; "-D"; "/tmp/pgtest3"];
   EvStat "/tmp/pgtest3/.s.PGSQL.5432"].
Proof. vm_compute. reflexivity. Qed.

(** The files of the first instance of part_000. *)
Example Start_files_C :
  let w := snd (PgtestC.Start env0 1 world0) in
  fs w "/tmp/pgtest3" = Some Dir /\
  fs w "/tmp/pgtest3/PG_VERSION" = fs w "/tmp/pgtestdata1/PG_VERSION" /\
  fs w "/tmp/pgtestdata1/postgresql.conf"
    = Some (File ("#unix_socket_directories = '/tmp'" ++ nl) true true) /\
  fs w "/tmp/pgtest3/postgresql.conf"
    = Some (File ("#unix_socket_directories = '/tmp'" ++ nl
                  ++ PgtestC.conf "/tmp/pgtest3" true) true true) /\
  fs w "/tmp/pgtest3/.s.PGSQL.5432" = Some Sock.
Proof. vm_compute. repeat split. Qed.

(** ** C1 *)

(** C1, as stated, fails: in part_000 the instance of [world0] is started
    and the interrupt then fails (call 11).  [Stop] ends in [t.Fatal]
    without having called [os.RemoveAll], and the working directory is still
    there. *)
Lemma C1_counterexample :
  let E := fault_at 11 in
  let w1 := snd (PgtestC.Start E 1 world0) in
  fst (PgtestC.Start E 1 world0) = Ok pgC0 /\
  fst (PgtestC.Stop E pgC0 w1) = Goexit /\
  existsb is_RemoveAll (log (snd (PgtestC.Stop E pgC0 w1))) = false /\
  fs (snd (PgtestC.Stop E pgC0 w1)) "/tmp/pgtest3" = Some Dir.
Proof. vm_compute. repeat split. Qed.

(** C1, amended: when signalling the owned process with an interrupt returns
    an error, [Stop] reports that process-termination error through
    [t.Fatal] and ends there: the only call it has issued is the signal, no
    removal of the working directory is attempted and the file system is as
    it was.  Both revisions. *)
Theorem C1_Stop_signal_error_ends_Stop
  (E : Env) (w : World) (pgA : PgtestA.PG) (pgC : PgtestC.PG) (c : Cmd) (p : nat) :
  PgtestA.cmd pgA = Some c -> PgtestC.cmd pgC = Some c -> Process c = Some p ->
  fst (Process_Signal E p w) = Ok (Some EIO) ->
  (fst (PgtestA.Stop E pgA w) = Goexit /\
   failed (snd (PgtestA.Stop E pgA w))
     = (PgtestA.t pgA, [AStr "postgres:"; AErr EIO]) :: failed w /\
   log (snd (PgtestA.Stop E pgA w)) = EvSignal p :: log w /\
   fs (snd (PgtestA.Stop E pgA w)) = fs w) /\
  (fst (PgtestC.Stop E pgC w) = Goexit /\
   failed (snd (PgtestC.Stop E pgC w))
     = (PgtestC.t pgC, [AStr "postgres:"; AErr EIO]) :: failed w /\
   log (snd (PgtestC.Stop E pgC w)) = EvSignal p :: log w /\
   fs (snd (PgtestC.Stop E pgC w)) = fs w).
Proof.
  intros HA HC Hp Hsig.
  assert (Hf : flt E (length (log w)) = true).
  { unfold Process_Signal, faulty in Hsig.
    destruct (flt E (length (log w))); [reflexivity | discriminate]. }
  rewrite (Stop_eqA E pgA c p w HA Hp), (Stop_eqC E pgC c p w HC Hp).
  simpl. rewrite Hf. simpl. repeat split.
Qed.

Lemma C1_witness :
  fst (PgtestC.Stop (fault_at 11) pgC0 (snd (PgtestC.Start (fault_at 11) 1 world0)))
  = Goexit.
Proof.
  refine (proj1 (proj2 (C1_Stop_signal_error_ends_Stop
           (fault_at 11) (snd (PgtestC.Start (fault_at 11) 1 world0))
           {| PgtestA.t := 1; PgtestA.dir := "/tmp/pgtest3";
              PgtestA.cmd := Some cmdC0 |}
           pgC0 cmdC0 0 _ _ _ _))); reflexivity.
Defined.

(** ** C7 *)

(** C7: whenever [Stop] returns without reporting an error, nothing is left
    of the instance's working directory: neither the directory nor any path
    inside it.  Both revisions. *)
Theorem C7_Stop_ok_removes_dir (E : Env) (w : World) :
  (forall pg, fst (PgtestA.Stop E pg w) = Ok tt ->
     failed (snd (PgtestA.Stop E pg w)) = failed w /\
     fs (snd (PgtestA.Stop E pg w)) (PgtestA.dir pg) = None /\
     forall q, under (PgtestA.dir pg) q = true ->
               fs (snd (PgtestA.Stop E pg w)) q = None) /\
  (forall pg, fst (PgtestC.Stop E pg w) = Ok tt ->
     failed (snd (PgtestC.Stop E pg w)) = failed w /\
     fs (snd (PgtestC.Stop E pg w)) (PgtestC.dir pg) = None /\
     forall q, under (PgtestC.dir pg) q = true ->
               fs (snd (PgtestC.Stop E pg w)) q = None).
Proof.
  split; intros pg Hok.
  - destruct (Stop_Ok_launchedA E pg w Hok) as (c & p & Hc & Hp).
    rewrite (Stop_eqA E pg c p w Hc Hp) in *. simpl in *.
    destruct (flt E (length (log w))); [discriminate|].
    destruct (flt E (Datatypes.S (length (log w)))); [discriminate|]. simpl.
    unfold remove_all. split; [reflexivity|]. split.
    + now rewrite under_refl.
    + intros q Hq. now rewrite Hq.
  - destruct (Stop_Ok_launchedC E pg w Hok) as (c & p & Hc & Hp).
    rewrite (Stop_eqC E pg c p w Hc Hp) in *. simpl in *.
    destruct (flt E (length (log w))); [discriminate|].
    destruct (flt E (Datatypes.S (length (log w)))); [discriminate|]. simpl.
    unfold remove_all. split; [reflexivity|]. split.
    + now rewrite under_refl.
    + intros q Hq. now rewrite Hq.
Qed.

Lemma C7_witness :
  fs (snd (PgtestC.Stop env0 pgC0 (snd (PgtestC.Start env0 1 world0))))
     "/tmp/pgtest3/postgresql.conf" = None.
Proof.
  apply (proj2 (C7_Stop_ok_removes_dir env0 (snd (PgtestC.Start env0 1 world0))) pgC0);
    reflexivity.
Defined.

(** ** C9 *)

(** C9, as stated, fails: in part_000 the instance of [world0] is started
    and stopped twice.  The second [Stop] returns like the first, and no
    failure has been reported. *)
Lemma C9_counterexample :
  let w1 := snd (PgtestC.Start env0 1 world0) in
  let w2 := snd (PgtestC.Stop env0 pgC0 w1) in
  let w3 := snd (PgtestC.Stop env0 pgC0 w2) in
  fst (PgtestC.Start env0 1 world0) = Ok pgC0 /\
  fst (PgtestC.Stop env0 pgC0 w1) = Ok tt /\
  fst (PgtestC.Stop env0 pgC0 w2) = Ok tt /\
  failed w3 = [].
Proof. vm_compute. repeat split. Qed.

(** C9, amended: [Stop] keeps no record of having been called.  A second
    call on an instance whose first [Stop] returned signals the same
    process again and, when that signal is delivered, calls [os.RemoveAll]
    on the directory again; it returns without reporting anything exactly
    when neither of these two calls fails, and reports an error otherwise.
    When it returns, the directory and everything under it are absent, as
    the first [Stop] left them.  Both revisions. *)
Theorem C9_second_Stop_repeats (E : Env) (w : World) :
  (forall pg, fst (PgtestA.Stop E pg w) = Ok tt ->
     let w1 := snd (PgtestA.Stop E pg w) in
     let n := length (log w1) in
     (fst (PgtestA.Stop E pg w1) = Ok tt <->
      flt E n = false /\ flt E (Datatypes.S n) = false) /\
     (fst (PgtestA.Stop E pg w1) = Ok tt ->
      failed (snd (PgtestA.Stop E pg w1)) = failed w1) /\
     (fst (PgtestA.Stop E pg w1) <> Ok tt ->
      fst (PgtestA.Stop E pg w1) = Goexit /\
      exists r, failed (snd (PgtestA.Stop E pg w1)) = (PgtestA.t pg, r) :: failed w1) /\
     (exists p,
        log w1 = EvRemoveAll (PgtestA.dir pg) :: EvSignal p :: log w /\
        log (snd (PgtestA.Stop E pg w1))
        = ((if flt E n then [EvSignal p]
            else [EvRemoveAll (PgtestA.dir pg); EvSignal p]) ++ log w1)%list) /\
     (fst (PgtestA.Stop E pg w1) = Ok tt ->
      fs (snd (PgtestA.Stop E pg w1)) = remove_all (PgtestA.dir pg) (fs w1) /\
      forall q, under (PgtestA.dir pg) q = true ->
                fs w1 q = None /\ fs (snd (PgtestA.Stop E pg w1)) q = None)) /\
  (forall pg, fst (PgtestC.Stop E pg w) = Ok tt ->
     let w1 := snd (PgtestC.Stop E pg w) in
     let n := length (log w1) in
     (fst (PgtestC.Stop E pg w1) = Ok tt <->
      flt E n = false /\ flt E (Datatypes.S n) = false) /\
     (fst (PgtestC.Stop E pg w1) = Ok tt ->
      failed (snd (PgtestC.Stop E pg w1)) = failed w1) /\
     (fst (PgtestC.Stop E pg w1) <> Ok tt ->
      fst (PgtestC.Stop E pg w1) = Goexit /\
      exists r, failed (snd (PgtestC.Stop E pg w1)) = (PgtestC.t pg, r) :: failed w1) /\
     (exists p,
        log w1 = EvRemoveAll (PgtestC.dir pg) :: EvSignal p :: log w /\
        log (snd (PgtestC.Stop E pg w1))
        = ((if flt E n then [EvSignal p]
            else [EvRemoveAll (PgtestC.dir pg); EvSignal p]) ++ log w1)%list) /\
     (fst (PgtestC.Stop E pg w1) = Ok tt ->
      fs (snd (PgtestC.Stop E pg w1)) = remove_all (PgtestC.dir pg) (fs w1) /\
      forall q, under (PgtestC.dir pg) q = true ->
                fs w1 q = None /\ fs (snd (PgtestC.Stop E pg w1)) q = None)).
Proof.
  split; intros pg Hok w1 n.
  - destruct (Stop_Ok_launchedA E pg w Hok) as (c & p & Hc & Hp).
    assert (Hw1 : log w1 = EvRemoveAll (PgtestA.dir pg) :: EvSignal p :: log w /\
                  fs w1 = remove_all (PgtestA.dir pg) (fs w)).
    { unfold w1. revert Hok. rewrite (Stop_eqA E pg c p w Hc Hp). cbv zeta.
      destruct (flt E (length (log w))); [discriminate|].
      destruct (flt E (Datatypes.S (length (log w)))); [discriminate|].
      intros _. split; reflexivity. }
    destruct Hw1 as [Hl1 Hf1].
    assert (Hgone : forall q, under (PgtestA.dir pg) q = true -> fs w1 q = None).
    { intros q Hq. rewrite Hf1. unfold remove_all. now rewrite Hq. }
    rewrite (Stop_eqA E pg c p w1 Hc Hp). fold n. cbv zeta.
    destruct (flt E n); [|destruct (flt E (Datatypes.S n))]; cbn [fst snd].
    + split; [split; [discriminate | intros [H _]; discriminate]|].
      split; [discriminate|].
      split; [intros _; split; [reflexivity | eexists; reflexivity]|].
      split; [exists p; split; [exact Hl1 | reflexivity] | discriminate].
    + split; [split; [discriminate | intros [_ H]; discriminate]|].
      split; [discriminate|].
      split; [intros _; split; [reflexivity | eexists; reflexivity]|].
      split; [exists p; split; [exact Hl1 | reflexivity] | discriminate].
    + split; [split; [intros _; split; reflexivity | reflexivity]|].
      split; [reflexivity|].
      split; [intros H; now elim H|].
      split; [exists p; split; [exact Hl1 | reflexivity]|].
      intros _. split; [reflexivity|].
      intros q Hq. split; [now apply Hgone|].
      cbn [fs set_fs tick set_log]. unfold remove_all. now rewrite Hq.
  - destruct (Stop_Ok_launchedC E pg w Hok) as (c & p & Hc & Hp).
    assert (Hw1 : log w1 = EvRemoveAll (PgtestC.dir pg) :: EvSignal p :: log w /\
                  fs w1 = remove_all (PgtestC.dir pg) (fs w)).
    { unfold w1. revert Hok. rewrite (Stop_eqC E pg c p w Hc Hp). cbv zeta.
      destruct (flt E (length (log w))); [discriminate|].
      destruct (flt E (Datatypes.S (length (log w)))); [discriminate|].
      intros _. split; reflexivity. }
    destruct Hw1 as [Hl1 Hf1].
    assert (Hgone : forall q, under (PgtestC.dir pg) q = true -> fs w1 q = None).
    { intros q Hq. rewrite Hf1. unfold remove_all. now rewrite Hq. }
    rewrite (Stop_eqC E pg c p w1 Hc Hp). fold n. cbv zeta.
    destruct (flt E n); [|destruct (flt E (Datatypes.S n))]; cbn [fst snd].
    + split; [split; [discriminate | intros [H _]; discriminate]|].
      split; [discriminate|].
      split; [intros _; split; [reflexivity | eexists; reflexivity]|].
      split; [exists p; split; [exact Hl1 | reflexivity] | discriminate].
    + split; [split; [discriminate | intros [_ H]; discriminate]|].
      split; [discriminate|].
      split; [intros _; split; [reflexivity | eexists; reflexivity]|].
      split; [exists p; split; [exact Hl1 | reflexivity] | discriminate].
    + split; [split; [intros _; split; reflexivity | reflexivity]|].
      split; [reflexivity|].
      split; [intros H; now elim H|].
      split; [exists p; split; [exact Hl1 | reflexivity]|].
      intros _. split; [reflexivity|].
      intros q Hq. split; [now apply Hgone|].
      cbn [fs set_fs tick set_log]. unfold remove_all. now rewrite Hq.
Qed.

Lemma C9_witness :
  let w1 := snd (PgtestC.Stop env0 pgC0 (snd (PgtestC.Start env0 1 world0))) in
  fst (PgtestC.Stop env0 pgC0 w1) = Ok tt.
Proof.
  intros w1.
  apply (proj1 (proj2 (C9_second_Stop_repeats env0 (snd (PgtestC.Start env0 1 world0)))
                      pgC0 eq_refl));
    split; reflexivity.
Defined.

(** ** The readiness wait *)

Lemma miss_facts (E : Env) (sock : string) (w : World) :
  log (miss E sock w) = EvSleep 50 :: EvStat sock :: log w /\
  now (miss E sock w) = now w + 50 /\
  failed (miss E sock w) = failed w.
Proof.
  unfold miss, os_Stat, time_Sleep.
  destruct (faulty E w); simpl; [repeat split|].
  destruct (fs w sock); simpl; repeat split.
Qed.

Lemma misses_facts (E : Env) (sock : string) (k : nat) (w : World) :
  log (misses E sock k w) = (wait_log sock k ++ log w)%list /\
  now (misses E sock k w) = now w + 50 * k /\
  failed (misses E sock k w) = failed w.
Proof.
  induction k as [|k (IHl & IHn & IHf)].
  - simpl. repeat split. lia.
  - destruct (miss_facts E sock (misses E sock k w)) as (Hl & Hn & Hf).
    change (misses E sock (Datatypes.S k) w) with (miss E sock (misses E sock k w)).
    rewrite Hl, Hn, Hf, IHl, IHn, IHf. repeat split. lia.
Qed.

Lemma wait_missC (E : Env) (t : T) (pg : PgtestC.PG) (sock : string) (n : nat) (w : World) :
  stat_ok E sock w = false ->
  PgtestC.Start_wait E t pg sock (Datatypes.S n) w
  = PgtestC.Start_wait E t pg sock n (miss E sock w).
Proof.
  unfold stat_ok, miss. simpl. unfold bind.
  destruct (os_Stat E sock w) as [[[e|]| |] w1] eqn:Hs; simpl; try discriminate;
    try reflexivity.
  - unfold os_Stat in Hs. destruct (faulty E w); [discriminate|].
    destruct (fs w sock); discriminate.
  - unfold os_Stat in Hs. destruct (faulty E w); [discriminate|].
    destruct (fs w sock); discriminate.
Qed.

Lemma wait_hitC (E : Env) (t : T) (pg : PgtestC.PG) (sock : string) (n : nat) (w : World) :
  stat_ok E sock w = true ->
  PgtestC.Start_wait E t pg sock (Datatypes.S n) w = (Ok pg, tick (EvStat sock) w).
Proof.
  unfold stat_ok. simpl. unfold bind, os_Stat.
  destruct (faulty E w); simpl; [discriminate|].
  destruct (fs w sock); simpl; [reflexivity | discriminate].
Qed.

Lemma wait_missesC (E : Env) (t : T) (pg : PgtestC.PG) (sock : string) (k n : nat) (w : World) :
  (forall j, j < k -> stat_ok E sock (misses E sock j w) = false) ->
  PgtestC.Start_wait E t pg sock (k + n) w
  = PgtestC.Start_wait E t pg sock n (misses E sock k w).
Proof.
  revert n; induction k as [|k IH]; intros n H; [reflexivity|].
  replace (Datatypes.S k + n) with (k + Datatypes.S n) by lia.
  rewrite IH by (intros j Hj; apply H; lia).
  change (misses E sock (Datatypes.S k) w) with (miss E sock (misses E sock k w)).
  apply wait_missC. apply H. lia.
Qed.

Lemma wait_missA (E : Env) (t : T) (pg : PgtestA.PG) (n : nat) (w : World) :
  stat_ok E PgtestA.sock w = false ->
  PgtestA.Start_wait E t pg (Datatypes.S n) w
  = PgtestA.Start_wait E t pg n (miss E PgtestA.sock w).
Proof.
  unfold stat_ok, miss. simpl. unfold bind.
  destruct (os_Stat E PgtestA.sock w) as [[[e|]| |] w1] eqn:Hs; simpl;
    try discriminate; try reflexivity.
  - unfold os_Stat in Hs. destruct (faulty E w); [discriminate|].
    destruct (fs w PgtestA.sock); discriminate.
  - unfold os_Stat in Hs. destruct (faulty E w); [discriminate|].
    destruct (fs w PgtestA.sock); discriminate.
Qed.

Lemma wait_hitA (E : Env) (t : T) (pg : PgtestA.PG) (n : nat) (w : World) :
  stat_ok E PgtestA.sock w = true ->
  PgtestA.Start_wait E t pg (Datatypes.S n) w = (Ok pg, tick (EvStat PgtestA.sock) w).
Proof.
  unfold stat_ok. simpl. unfold bind, os_Stat.
  destruct (faulty E w); simpl; [discriminate|].
  destruct (fs w PgtestA.sock); simpl; [reflexivity | discriminate].
Qed.

Lemma wait_missesA (E : Env) (t : T) (pg : PgtestA.PG) (k n : nat) (w : World) :
  (forall j, j < k -> stat_ok E PgtestA.sock (misses E PgtestA.sock j w) = false) ->
  PgtestA.Start_wait E t pg (k + n) w
  = PgtestA.Start_wait E t pg n (misses E PgtestA.sock k w).
Proof.
  revert n; induction k as [|k IH]; intros n H; [reflexivity|].
  replace (Datatypes.S k + n) with (k + Datatypes.S n) by lia.
  rewrite IH by (intros j Hj; apply H; lia).
  change (misses E PgtestA.sock (Datatypes.S k) w)
    with (miss E PgtestA.sock (misses E PgtestA.sock k w)).
  apply wait_missA. apply H. lia.
Qed.

Lemma wait_zeroA (E : Env) (t : T) (pg : PgtestA.PG) (w : World) :
  PgtestA.Start_wait E t pg 0 w
  = (Goexit,
     set_failed ((t, [AStr "timeout waiting for postgres to start"]) :: failed w) w).
Proof. reflexivity. Qed.

Lemma wait_zeroC (E : Env) (t : T) (pg : PgtestC.PG) (sock : string) (w : World) :
  PgtestC.Start_wait E t pg sock 0 w
  = (Goexit,
     set_failed ((t, [AStr "timeout waiting for postgres to start"]) :: failed w) w).
Proof. reflexivity. Qed.

Lemma Start_eq_waitA (E : Env) (t : T) (w : World) (pg : PgtestA.PG) (w1 : World) :
  PgtestA.Start_launched E t w = (Ok pg, w1) ->
  PgtestA.Start E t w = PgtestA.Start_wait E t pg 20 w1.
Proof.
  unfold PgtestA.Start, PgtestA.Start_launched, bind.
  destruct (PgtestA.Start_once E t w) as [[[]| |] wa]; try discriminate.
  destruct (PgtestA.Start_copy E t wa) as [[pg1| |] wb]; try discriminate.
  intros ->. reflexivity.
Qed.

Lemma Start_eq_waitC (E : Env) (t : T) (w : World) (pg : PgtestC.PG) (w1 : World) :
  PgtestC.Start_launched E t w = (Ok pg, w1) ->
  PgtestC.Start E t w
  = PgtestC.Start_wait E t pg (filepath_Join (PgtestC.dir pg) ".s.PGSQL.5432") 20 w1.
Proof.
  unfold PgtestC.Start, PgtestC.Start_launched, bind.
  destruct (PgtestC.Start_once E t w) as [[[]| |] wa]; try discriminate.
  destruct (PgtestC.Start_copy E t wa) as [[pg1| |] wb]; try discriminate.
  destruct (PgtestC.Start_conf E t pg1 wb) as [[[]| |] wc]; try discriminate.
  intros ->. reflexivity.
Qed.

(** C6: once the engine is launched, [Start] is the readiness wait.  If none
    of the first 20 checks finds the socket file, [Start] ends in the
    timeout failure after exactly 20 checks, each followed by a sleep of
    50ms, 1000ms in all: not before the 20th check, and there is no 21st.
    If the check number [k] is the first to find it, [Start] returns the
    handle at that check, after [k] sleeps.  Both revisions. *)
Theorem C6_readiness_wait_bounded (E : Env) (t : T) (w : World) :
  (forall pg w1, PgtestA.Start_launched E t w = (Ok pg, w1) ->
     PgtestA.Start E t w = PgtestA.Start_wait E t pg 20 w1 /\
     readiness_wait E (PgtestA.Start_wait E t pg) t pg PgtestA.sock w1) /\
  (forall pg w1, PgtestC.Start_launched E t w = (Ok pg, w1) ->
     let sock := filepath_Join (PgtestC.dir pg) ".s.PGSQL.5432" in
     PgtestC.Start E t w = PgtestC.Start_wait E t pg sock 20 w1 /\
     readiness_wait E (PgtestC.Start_wait E t pg sock) t pg sock w1) /\
  (forall sock k w1,
     log (misses E sock k w1) = (wait_log sock k ++ log w1)%list /\
     length (wait_log sock k) = 2 * k /\
     now (misses E sock k w1) = now w1 + 50 * k /\
     failed (misses E sock k w1) = failed w1).
Proof.
  split; [|split].
  - intros pg w1 H. split; [now apply Start_eq_waitA|]. split.
    + intros Hk. pose proof (wait_missesA E t pg 20 0 w1 Hk) as Hw.
      change (20 + 0) with 20 in Hw. rewrite Hw, wait_zeroA.
      now destruct (misses_facts E PgtestA.sock 20 w1) as (_ & _ & ->).
    + intros k Hlt Hj Hk.
      replace 20 with (k + Datatypes.S (19 - k)) by lia.
      rewrite (wait_missesA E t pg k _ w1 Hj). now apply wait_hitA.
  - intros pg w1 H sock. split; [now apply Start_eq_waitC|]. split.
    + intros Hk. pose proof (wait_missesC E t pg sock 20 0 w1 Hk) as Hw.
      change (20 + 0) with 20 in Hw. rewrite Hw, wait_zeroC.
      now destruct (misses_facts E sock 20 w1) as (_ & _ & ->).
    + intros k Hlt Hj Hk.
      replace 20 with (k + Datatypes.S (19 - k)) by lia.
      rewrite (wait_missesC E t pg sock k _ w1 Hj). now apply wait_hitC.
  - intros sock k w1.
    destruct (misses_facts E sock k w1) as (Hl & Hn & Hf).
    repeat split; try assumption.
    unfold wait_log. clear. induction k as [|k IH]; simpl; [reflexivity|].
    rewrite IH. lia.
Qed.

Lemma C6_witness : fst (PgtestC.Start env_deaf 1 world0) = Goexit.
Proof.
  pose proof (surjective_pairing (PgtestC.Start_launched env_deaf 1 world0)) as H.
  assert (Hf : fst (PgtestC.Start_launched env_deaf 1 world0) = Ok pgC0)
    by (vm_compute; reflexivity).
  rewrite Hf in H.
  destruct (proj1 (proj2 (C6_readiness_wait_bounded env_deaf 1 world0)) _ _ H)
    as [Heq [Hnever _]].
  rewrite Heq, Hnever; [reflexivity|].
  intros k Hk.
  do 20 (destruct k as [|k]; [vm_compute; reflexivity|]). lia.
Defined.

(** ** The template block *)



(** [Start] is its template block followed by the rest. *)
Lemma Start_unfoldA (E : Env) (t : T) (w : World) :
  PgtestA.Start E t w =
  match PgtestA.Start_once E t w with
  | (Ok _, w1) => PgtestA.Start_rest E t w1
  | (Goexit, w1) => (Goexit, w1)
  | (Panic msg, w1) => (Panic msg, w1)
  end.
Proof. reflexivity. Qed.

Lemma Start_unfoldC (E : Env) (t : T) (w : World) :
  PgtestC.Start E t w =
  match PgtestC.Start_once E t w with
  | (Ok _, w1) => PgtestC.Start_rest E t w1
  | (Goexit, w1) => (Goexit, w1)
  | (Panic msg, w1) => (Panic msg, w1)
  end.
Proof. reflexivity. Qed.

(** Once [once.Do] has run, the template block of [Start] does nothing in
    src/pgtest.go, and only consults [initdbOk] in part_000. *)
Lemma Start_once_doneA (E : Env) (t : T) (w : World) :
  once w = true -> PgtestA.Start_once E t w = (Ok tt, w).
Proof. intros H. unfold PgtestA.Start_once, once_Do. now rewrite H. Qed.

Lemma Start_once_doneC (E : Env) (t : T) (w : World) :
  once w = true ->
  PgtestC.Start_once E t w =
  if initdbOk w then (Ok tt, w)
  else (Goexit, set_failed ((t, [AStr "prior initdb attempt failed"]) :: failed w) w).
Proof.
  intros H. unfold PgtestC.Start_once, once_Do, bind, gets. rewrite H.
  now destruct (initdbOk w).
Qed.

(** The first time, it runs [maybeInitdb] and marks [once]. *)
Lemma Start_once_firstA (E : Env) (t : T) (w : World) :
  once w = false ->
  PgtestA.Start_once E t w =
  (fst (PgtestA.maybeInitdb E t w), set_once true (snd (PgtestA.maybeInitdb E t w))).
Proof.
  intros H. unfold PgtestA.Start_once, once_Do. rewrite H.
  now destruct (PgtestA.maybeInitdb E t w).
Qed.

Lemma Start_once_firstC (E : Env) (t : T) (w : World) :
  once w = false ->
  PgtestC.Start_once E t w =
  let w1 := set_once true (snd (PgtestC.maybeInitdb E t w)) in
  match fst (PgtestC.maybeInitdb E t w) with
  | Ok _ =>
      if initdbOk w1 then (Ok tt, w1)
      else (Goexit, set_failed ((t, [AStr "prior initdb attempt failed"]) :: failed w1) w1)
  | Goexit => (Goexit, w1)
  | Panic msg => (Panic msg, w1)
  end.
Proof.
  intros H. unfold PgtestC.Start_once, once_Do, bind, gets. rewrite H.
  destruct (PgtestC.maybeInitdb E t w) as [[[]| |] w1]; simpl; try reflexivity.
  now destruct (initdbOk w1).
Qed.

Lemma off_nowhere (d : string) : off nowhere d.
Proof. intros q _. reflexivity. Qed.

Lemma kindA_body (K : event -> bool) :
  kindA K -> forall e, K e = true -> bodyA e = true.
Proof. intros [->|[->| ->]] [] H; simpl in *; congruence. Qed.

Lemma kindC_body (K : event -> bool) :
  kindC K -> forall e, K e = true -> bodyC e = true.
Proof. intros [->|[->| ->]] [] H; simpl in *; congruence. Qed.

Lemma step_tally (K : event -> bool) S (w w' : World) :
  step K S w w' -> tally K (log w') = tally K (log w).
Proof. intros H. unfold tally. now rewrite (st_log _ _ _ _ H). Qed.









(** ** C2 *)




(** ** C8 *)

Lemma no_event_body (body : event -> bool) (e : event) :
  no_event e = true -> body e = true.
Proof. discriminate. Qed.

(** When the template directory exists, the template block of [Start]
    leaves the file system and the engines as they are. *)
Lemma Start_once_existsA (E : Env) (t : T) (w : World) :
  fs w (PgtestA.pgtestdata E) <> None ->
  fs (snd (PgtestA.Start_once E t w)) = fs w /\
  procs (snd (PgtestA.Start_once E t w)) = procs w.
Proof.
  intros H. destruct (once w) eqn:Hw.
  - rewrite (Start_once_doneA E t w Hw). split; reflexivity.
  - rewrite (Start_once_firstA E t w Hw). unfold PgtestA.maybeInitdb.
    run_calls; try congruence; split; reflexivity.
Qed.

Lemma Start_once_existsC (E : Env) (t : T) (w : World) :
  fs w (PgtestC.pgtestdata E) <> None ->
  fs (snd (PgtestC.Start_once E t w)) = fs w /\
  procs (snd (PgtestC.Start_once E t w)) = procs w.
Proof.
  intros H. destruct (once w) eqn:Hw.
  - rewrite (Start_once_doneC E t w Hw). destruct (initdbOk w); split; reflexivity.
  - rewrite (Start_once_firstC E t w Hw). unfold PgtestC.maybeInitdb.
    run_calls; try congruence; split; reflexivity.
Qed.

(** The instance directories hold nothing of the template. *)
Lemma temp_off_pgtestdataA (E : Env) (u : uint) :
  off (under (PgtestA.pgtestdata E)) (temp_name E "" "pgtest" u).
Proof.
  intros q Hq. rewrite pgtestdataA_eq.
  apply (temp_off_template E "data" u q eq_refl digits_not_data Hq).
Qed.

Lemma temp_off_pgtestdataC (E : Env) (u : uint) :
  off (under (PgtestC.pgtestdata E)) (temp_name E "" "pgtest" u).
Proof.
  intros q Hq. rewrite pgtestdataC_eq.
  apply (temp_off_template E "data1" u q eq_refl digits_not_data1 Hq).
Qed.

(** The handle [Start] returns owns a directory that [ioutil.TempDir]
    named. *)
Lemma Start_Ok_dirA (E : Env) (t : T) (w : World) (pg : PgtestA.PG) :
  fst (PgtestA.Start E t w) = Ok pg ->
  exists u, PgtestA.dir pg = temp_name E "" "pgtest" u.
Proof.
  rewrite Start_unfoldA.
  destruct (PgtestA.Start_once E t w) as [[[]| |] w1]; try discriminate.
  apply (Start_rest_stepsA no_event nowhere E (no_event_body bodyA)
           (fun u => off_nowhere _) eq_refl t w1).
Qed.

Lemma Start_Ok_dirC (E : Env) (t : T) (w : World) (pg : PgtestC.PG) :
  fst (PgtestC.Start E t w) = Ok pg ->
  exists u, PgtestC.dir pg = temp_name E "" "pgtest" u.
Proof.
  rewrite Start_unfoldC.
  destruct (PgtestC.Start_once E t w) as [[[]| |] w1]; try discriminate.
  apply (Start_rest_stepsC no_event nowhere E (no_event_body bodyC)
           (fun u => off_nowhere _) t w1).
Qed.

(** [Stop] changes nothing outside the directory of its handle. *)
Lemma Stop_frameA (E : Env) (pg : PgtestA.PG) (w : World) (q : string) :
  under (PgtestA.dir pg) q = false -> fs (snd (PgtestA.Stop E pg w)) q = fs w q.
Proof.
  intros Hq. unfold PgtestA.Stop.
  destruct (PgtestA.cmd pg) as [c|]; [|reflexivity].
  destruct (Process c) as [p|] eqn:Hp; [|reflexivity].
  unfold bind, Process_Signal, os_RemoveAll, if_err, t_Fatal, ret, faulty; simpl.
  destruct (flt E (length (log w))); simpl; [reflexivity|].
  destruct (flt E (Datatypes.S (length (log w)))); simpl; [reflexivity|].
  unfold remove_all. now rewrite Hq.
Qed.

Lemma Stop_frameC (E : Env) (pg : PgtestC.PG) (w : World) (q : string) :
  under (PgtestC.dir pg) q = false -> fs (snd (PgtestC.Stop E pg w)) q = fs w q.
Proof.
  intros Hq. unfold PgtestC.Stop.
  destruct (PgtestC.cmd pg) as [c|]; [|reflexivity].
  destruct (Process c) as [p|] eqn:Hp; [|reflexivity].
  unfold bind, Process_Signal, os_RemoveAll, if_err, t_Fatal, ret, faulty; simpl.
  destruct (flt E (length (log w))); simpl; [reflexivity|].
  destruct (flt E (Datatypes.S (length (log w)))); simpl; [reflexivity|].
  unfold remove_all. now rewrite Hq.
Qed.

Lemma off_false (S : string -> bool) (d q : string) :
  off S d -> S q = true -> under d q = false.
Proof.
  intros Hd Hq. destruct (under d q) eqn:Hu; [|reflexivity].
  apply Hd in Hu. congruence.
Qed.

(** The template block of [Start] and [Stop] launch no engine. *)
Lemma Start_once_procsA (E : Env) (t : T) (w : World) :
  procs (snd (PgtestA.Start_once E t w)) = procs w.
Proof.
  destruct (once w) eqn:Hw.
  - now rewrite (Start_once_doneA E t w Hw).
  - rewrite (Start_once_firstA E t w Hw). unfold PgtestA.maybeInitdb.
    run_calls; reflexivity.
Qed.

Lemma Start_once_procsC (E : Env) (t : T) (w : World) :
  procs (snd (PgtestC.Start_once E t w)) = procs w.
Proof.
  destruct (once w) eqn:Hw.
  - rewrite (Start_once_doneC E t w Hw). now destruct (initdbOk w).
  - rewrite (Start_once_firstC E t w Hw). unfold PgtestC.maybeInitdb.
    run_calls; reflexivity.
Qed.

Lemma Stop_procsA (E : Env) (pg : PgtestA.PG) (w : World) :
  procs (snd (PgtestA.Stop E pg w)) = procs w.
Proof.
  unfold PgtestA.Stop.
  destruct (PgtestA.cmd pg) as [c|]; [|reflexivity].
  destruct (Process c) as [p|]; [|reflexivity].
  unfold Process_Signal. run_calls; reflexivity.
Qed.

Lemma Stop_procsC (E : Env) (pg : PgtestC.PG) (w : World) :
  procs (snd (PgtestC.Stop E pg w)) = procs w.
Proof.
  unfold PgtestC.Stop.
  destruct (PgtestC.cmd pg) as [c|]; [|reflexivity].
  destruct (Process c) as [p|]; [|reflexivity].
  unfold Process_Signal. run_calls; reflexivity.
Qed.

(** Every engine the package launches listens outside the template. *)
Lemma do_call_socks_offA (E : Env) (c : PgtestA.call) (w : World) :
  socks_off (under (PgtestA.pgtestdata E)) w = true ->
  socks_off (under (PgtestA.pgtestdata E)) (PgtestA.do_call E c w) = true.
Proof.
  intros Hsk. destruct c as [t|pg]; simpl.
  - rewrite Start_unfoldA. pose proof (Start_once_procsA E t w) as Hp.
    destruct (PgtestA.Start_once E t w) as [[[]| |] w1]; simpl in Hp;
      try (unfold socks_off; simpl; rewrite Hp; exact Hsk).
    pose proof (proj1 (Start_rest_stepsA no_event (under (PgtestA.pgtestdata E)) E
                         (no_event_body bodyA) (temp_off_pgtestdataA E)
                         (sock_off_templateA E) t w1)) as Hs.
    apply (st_fs _ _ _ _ Hs). unfold socks_off. rewrite Hp. exact Hsk.
  - unfold socks_off. rewrite Stop_procsA. exact Hsk.
Qed.

Lemma do_call_socks_offC (E : Env) (c : PgtestC.call) (w : World) :
  socks_off (under (PgtestC.pgtestdata E)) w = true ->
  socks_off (under (PgtestC.pgtestdata E)) (PgtestC.do_call E c w) = true.
Proof.
  intros Hsk. destruct c as [t|pg]; simpl.
  - rewrite Start_unfoldC. pose proof (Start_once_procsC E t w) as Hp.
    destruct (PgtestC.Start_once E t w) as [[[]| |] w1]; simpl in Hp;
      try (unfold socks_off; simpl; rewrite Hp; exact Hsk).
    pose proof (proj1 (Start_rest_stepsC no_event (under (PgtestC.pgtestdata E)) E
                         (no_event_body bodyC) (temp_off_pgtestdataC E) t w1)) as Hs.
    apply (st_fs _ _ _ _ Hs). unfold socks_off. rewrite Hp. exact Hsk.
  - unfold socks_off. rewrite Stop_procsC. exact Hsk.
Qed.

Lemma run_socks_offA (E : Env) (cs : list PgtestA.call) (w : World) :
  socks_off (under (PgtestA.pgtestdata E)) w = true ->
  socks_off (under (PgtestA.pgtestdata E)) (PgtestA.run E cs w) = true.
Proof.
  revert w; induction cs as [|c cs IH]; intros w H; [exact H|].
  apply IH. now apply do_call_socks_offA.
Qed.

Lemma run_socks_offC (E : Env) (cs : list PgtestC.call) (w : World) :
  socks_off (under (PgtestC.pgtestdata E)) w = true ->
  socks_off (under (PgtestC.pgtestdata E)) (PgtestC.run E cs w) = true.
Proof.
  revert w; induction cs as [|c cs IH]; intros w H; [exact H|].
  apply IH. now apply do_call_socks_offC.
Qed.

(** C8: no operation on an instance changes the template.  [Start] after
    its template block (provisioning of the copy, configuration overrides,
    launch, readiness wait) changes no path of the template directory,
    whatever its outcome; once the template directory exists, neither does
    [Start] as a whole; and neither does [Stop] on a handle that [Start]
    returned, in whatever world it is called.  The overrides of part_000 go
    to the copy.  This is for a world whose engines listen outside the
    template: such is every world that calls of [Start] and [Stop] reach
    from a process that has launched no engine.  Both revisions. *)
Theorem C8_template_untouched (E : Env) (t : T) (w : World) :
  (socks_off (under (PgtestA.pgtestdata E)) w = true ->
   (forall q, under (PgtestA.pgtestdata E) q = true ->
              fs (snd (PgtestA.Start_rest E t w)) q = fs w q) /\
   (fs w (PgtestA.pgtestdata E) <> None ->
    (forall q, under (PgtestA.pgtestdata E) q = true ->
               fs (snd (PgtestA.Start E t w)) q = fs w q) /\
    socks_off (under (PgtestA.pgtestdata E)) (snd (PgtestA.Start E t w)) = true) /\
   (forall pg, fst (PgtestA.Start E t w) = Ok pg ->
      forall w' q, under (PgtestA.pgtestdata E) q = true ->
                   fs (snd (PgtestA.Stop E pg w')) q = fs w' q)) /\
  (socks_off (under (PgtestC.pgtestdata E)) w = true ->
   (forall q, under (PgtestC.pgtestdata E) q = true ->
              fs (snd (PgtestC.Start_rest E t w)) q = fs w q) /\
   (fs w (PgtestC.pgtestdata E) <> None ->
    (forall q, under (PgtestC.pgtestdata E) q = true ->
               fs (snd (PgtestC.Start E t w)) q = fs w q) /\
    socks_off (under (PgtestC.pgtestdata E)) (snd (PgtestC.Start E t w)) = true) /\
   (forall pg, fst (PgtestC.Start E t w) = Ok pg ->
      forall w' q, under (PgtestC.pgtestdata E) q = true ->
                   fs (snd (PgtestC.Stop E pg w')) q = fs w' q)) /\
  (procs w = [] ->
   (forall cs, socks_off (under (PgtestA.pgtestdata E)) (PgtestA.run E cs w) = true) /\
   (forall cs, socks_off (under (PgtestC.pgtestdata E)) (PgtestC.run E cs w) = true)).
Proof.
  split; [|split]; [| |intros Hp; split; intros cs;
                       [apply run_socks_offA | apply run_socks_offC];
                       unfold socks_off; rewrite Hp; reflexivity];
    intros Hsk; (split; [|split]).
  - pose proof (proj1 (Start_rest_stepsA no_event (under (PgtestA.pgtestdata E)) E
                         (no_event_body bodyA) (temp_off_pgtestdataA E)
                         (sock_off_templateA E) t w)) as Hs.
    exact (proj2 (st_fs _ _ _ _ Hs Hsk)).
  - intros Hex.
    assert (Hst : socks_off (under (PgtestA.pgtestdata E)) (snd (PgtestA.Start E t w)) = true
                  /\ same_on (under (PgtestA.pgtestdata E)) w (snd (PgtestA.Start E t w))).
    { destruct (Start_once_existsA E t w Hex) as [Hf Hp].
      rewrite Start_unfoldA.
      destruct (PgtestA.Start_once E t w) as [[[]| |] w1]; simpl in Hf, Hp.
      - pose proof (proj1 (Start_rest_stepsA no_event (under (PgtestA.pgtestdata E)) E
                             (no_event_body bodyA) (temp_off_pgtestdataA E)
                             (sock_off_templateA E) t w1)) as Hs.
        destruct (st_fs _ _ _ _ Hs) as [Hs1 Hs2].
        + unfold socks_off. rewrite Hp. exact Hsk.
        + split; [exact Hs1|]. intros q Hq. rewrite (Hs2 q Hq), Hf. reflexivity.
      - split; [unfold socks_off; simpl; rewrite Hp; exact Hsk|].
        intros q _. simpl. now rewrite Hf.
      - split; [unfold socks_off; simpl; rewrite Hp; exact Hsk|].
        intros q _. simpl. now rewrite Hf. }
    destruct Hst as [Hs1 Hs2]. split; [exact Hs2 | exact Hs1].
  - intros pg Hpg w' q Hq. destruct (Start_Ok_dirA E t w pg Hpg) as [u Hu].
    apply Stop_frameA. rewrite Hu.
    apply (off_false _ _ _ (temp_off_pgtestdataA E u) Hq).
  - pose proof (proj1 (Start_rest_stepsC no_event (under (PgtestC.pgtestdata E)) E
                         (no_event_body bodyC) (temp_off_pgtestdataC E) t w)) as Hs.
    exact (proj2 (st_fs _ _ _ _ Hs Hsk)).
  - intros Hex.
    assert (Hst : socks_off (under (PgtestC.pgtestdata E)) (snd (PgtestC.Start E t w)) = true
                  /\ same_on (under (PgtestC.pgtestdata E)) w (snd (PgtestC.Start E t w))).
    { destruct (Start_once_existsC E t w Hex) as [Hf Hp].
      rewrite Start_unfoldC.
      destruct (PgtestC.Start_once E t w) as [[[]| |] w1]; simpl in Hf, Hp.
      - pose proof (proj1 (Start_rest_stepsC no_event (under (PgtestC.pgtestdata E)) E
                             (no_event_body bodyC) (temp_off_pgtestdataC E) t w1)) as Hs.
        destruct (st_fs _ _ _ _ Hs) as [Hs1 Hs2].
        + unfold socks_off. rewrite Hp. exact Hsk.
        + split; [exact Hs1|]. intros q Hq. rewrite (Hs2 q Hq), Hf. reflexivity.
      - split; [unfold socks_off; simpl; rewrite Hp; exact Hsk|].
        intros q _. simpl. now rewrite Hf.
      - split; [unfold socks_off; simpl; rewrite Hp; exact Hsk|].
        intros q _. simpl. now rewrite Hf. }
    destruct Hst as [Hs1 Hs2]. split; [exact Hs2 | exact Hs1].
  - intros pg Hpg w' q Hq. destruct (Start_Ok_dirC E t w pg Hpg) as [u Hu].
    apply Stop_frameC. rewrite Hu.
    apply (off_false _ _ _ (temp_off_pgtestdataC E u) Hq).
Qed.

Lemma C8_witness :
  let w1 := snd (PgtestC.Start env0 1 world0) in
  fs (snd (PgtestC.Start env0 2 w1)) "/tmp/pgtestdata1/postgresql.conf"
  = fs w1 "/tmp/pgtestdata1/postgresql.conf".
Proof.
  intros w1.
  refine (proj1 (proj1 (proj2 (proj1 (proj2 (C8_template_untouched env0 2 w1)) _)) _) _ _).
  - vm_compute. reflexivity.
  - vm_compute. discriminate.
  - vm_compute. reflexivity.
Defined.

(** ** C3 *)

Lemma strip_prefix_longer (d : string) : strip_prefix (d ++ "/") d = None.
Proof.
  destruct (strip_prefix (d ++ "/") d) as [r|] eqn:H; [|reflexivity].
  apply strip_prefix_app in H. apply (f_equal String.length) in H.
  rewrite !length_append in H. simpl in H. lia.
Qed.

(** What [Start] has when the copy is made: a directory that did not exist
    before, named by [ioutil.TempDir], and no command yet. *)
Lemma Start_copy_OkA (E : Env) (t : T) (w w1 : World) (pg : PgtestA.PG) :
  PgtestA.Start_copy E t w = (Ok pg, w1) ->
  PgtestA.dir pg = temp_name E "" "pgtest" (rnd E (length (log w))) /\
  fs w (PgtestA.dir pg) = None /\ fs w1 (PgtestA.dir pg) = Some Dir.
Proof.
  unfold PgtestA.Start_copy. run_calls; intros [= <- <-]; simpl.
  all: repeat split; try assumption.
  all: unfold copy_into; rewrite strip_prefix_longer; unfold upd.
  all: now rewrite String.eqb_refl.
Qed.

Lemma Start_copy_OkC (E : Env) (t : T) (w w1 : World) (pg : PgtestC.PG) :
  PgtestC.Start_copy E t w = (Ok pg, w1) ->
  PgtestC.dir pg = temp_name E "" "pgtest" (rnd E (length (log w))) /\
  fs w (PgtestC.dir pg) = None /\ fs w1 (PgtestC.dir pg) = Some Dir.
Proof.
  unfold PgtestC.Start_copy. run_calls; intros [= <- <-]; simpl.
  all: repeat split; try assumption.
  all: unfold copy_into; rewrite strip_prefix_longer; unfold upd.
  all: now rewrite String.eqb_refl.
Qed.

(** Appending the overrides leaves the directory itself as it is. *)
Lemma Start_conf_dirC (E : Env) (t : T) (pg : PgtestC.PG) (w : World) :
  fs (snd (PgtestC.Start_conf E t pg w)) (PgtestC.dir pg) = fs w (PgtestC.dir pg).
Proof.
  assert (Hne : (PgtestC.dir pg =? filepath_Join (PgtestC.dir pg) "postgresql.conf") = false).
  { apply String.eqb_neq. intros H. symmetry in H. revert H.
    apply Join_neq. discriminate. }
  unfold PgtestC.Start_conf, PgtestC.contains, PgtestC.conf_Execute.
  run_calls; try reflexivity; unfold upd; now rewrite Hne.
Qed.

Lemma Start_provisioned_dirA (E : Env) (t : T) (w w1 : World) (pg : PgtestA.PG) :
  PgtestA.Start_provisioned E t w = (Ok pg, w1) ->
  fs w1 (PgtestA.dir pg) = Some Dir.
Proof.
  unfold PgtestA.Start_provisioned, bind.
  destruct (PgtestA.Start_once E t w) as [[[]| |] wa]; try discriminate.
  intros H. now destruct (Start_copy_OkA E t wa w1 pg H) as (_ & _ & ?).
Qed.

Lemma Start_provisioned_dirC (E : Env) (t : T) (w w1 : World) (pg : PgtestC.PG) :
  PgtestC.Start_provisioned E t w = (Ok pg, w1) ->
  fs w1 (PgtestC.dir pg) = Some Dir.
Proof.
  unfold PgtestC.Start_provisioned, bind.
  destruct (PgtestC.Start_once E t w) as [[[]| |] wa]; try discriminate.
  destruct (PgtestC.Start_copy E t wa) as [[pg0| |] wb] eqn:Hc; try discriminate.
  pose proof (Start_conf_dirC E t pg0 wb) as Hd.
  destruct (PgtestC.Start_conf E t pg0 wb) as [[[]| |] wc]; try discriminate.
  unfold ret. intros [= <- <-]. simpl in Hd. rewrite Hd.
  now destruct (Start_copy_OkC E t wa wb pg0 Hc) as (_ & _ & ?).
Qed.

Lemma Start_eq_launchA (E : Env) (t : T) (w w1 : World) (pg : PgtestA.PG) :
  PgtestA.Start_provisioned E t w = (Ok pg, w1) ->
  PgtestA.Start E t w
  = (pg' <- PgtestA.Start_launch E t pg ;; PgtestA.Start_wait E t pg' 20) w1.
Proof.
  unfold PgtestA.Start, PgtestA.Start_provisioned, bind.
  destruct (PgtestA.Start_once E t w) as [[[]| |] wa]; try discriminate.
  intros ->. reflexivity.
Qed.

Lemma Start_eq_launchC (E : Env) (t : T) (w w1 : World) (pg : PgtestC.PG) :
  PgtestC.Start_provisioned E t w = (Ok pg, w1) ->
  PgtestC.Start E t w
  = (pg' <- PgtestC.Start_launch E t pg ;;
     PgtestC.Start_wait E t pg' (filepath_Join (PgtestC.dir pg') ".s.PGSQL.5432") 20) w1.
Proof.
  unfold PgtestC.Start, PgtestC.Start_provisioned, bind.
  destruct (PgtestC.Start_once E t w) as [[[]| |] wa]; try discriminate.
  destruct (PgtestC.Start_copy E t wa) as [[pg0| |] wb]; try discriminate.
  destruct (PgtestC.Start_conf E t pg0 wb) as [[[]| |] wc]; try discriminate.
  unfold ret. intros [= <- <-]. reflexivity.
Qed.

(** C3, as stated, fails: in part_000, in [world0], the engine executable
    does not exist.  [Start] reports the launch error, and the working
    directory it created, with the copied configuration, is still on the
    file system; no removal was attempted. *)
Lemma C3_counterexample :
  let r := PgtestC.Start env_noexe 1 world0 in
  fst r = Goexit /\
  failed (snd r) = [(1, [AStr "starting postgres:"; AErr EIO])] /\
  fs (snd r) "/tmp/pgtest3" = Some Dir /\
  fs (snd r) "/tmp/pgtest3/postgresql.conf" <> None /\
  existsb is_RemoveAll (log (snd r)) = false.
Proof. vm_compute. repeat split. discriminate. Qed.

(** C3, amended: if the engine executable cannot be started, [Start]
    reports the fatal launch error (starting postgres:) and ends there; the
    working directory created for the instance is left on the file system:
    the launch is the last call issued and the file system is as it was
    before the launch.  Both revisions. *)
Theorem C3_launch_failure_is_fatal_dir_stays (E : Env) (t : T) (w : World) :
  (forall pg w1,
     PgtestA.Start_provisioned E t w = (Ok pg, w1) ->
     flt E (length (log w1)) || negb (execs E "postgres") = true ->
     let r := PgtestA.Start E t w in
     fst r = Goexit /\
     failed (snd r) = (t, [AStr "starting postgres:"; AErr EIO]) :: failed w1 /\
     log (snd r) = EvStart ["postgres"; "-D"; PgtestA.dir pg] :: log w1 /\
     fs (snd r) = fs w1 /\
     fs (snd r) (PgtestA.dir pg) = Some Dir) /\
  (forall pg w1,
     PgtestC.Start_provisioned E t w = (Ok pg, w1) ->
     flt E (length (log w1)) || negb (execs E (postgres w1)) = true ->
     let r := PgtestC.Start E t w in
     fst r = Goexit /\
     failed (snd r) = (t, [AStr "starting postgres:"; AErr EIO]) :: failed w1 /\
     log (snd r) = EvStart [postgres w1; "-D"; PgtestC.dir pg] :: log w1 /\
     fs (snd r) = fs w1 /\
     fs (snd r) (PgtestC.dir pg) = Some Dir).
Proof.
  split; intros pg w1 Hp Hx r; subst r.
  - rewrite (Start_eq_launchA E t w w1 pg Hp).
    pose proof (Start_provisioned_dirA E t w w1 pg Hp) as Hd.
    unfold PgtestA.Start_launch, bind, Cmd_Start, faulty, exec_Command. simpl.
    rewrite Hx. simpl. repeat split. exact Hd.
  - rewrite (Start_eq_launchC E t w w1 pg Hp).
    pose proof (Start_provisioned_dirC E t w w1 pg Hp) as Hd.
    unfold PgtestC.Start_launch, bind, gets, Cmd_Start, faulty, exec_Command. simpl.
    rewrite Hx. simpl. repeat split. exact Hd.
Qed.

Lemma C3_witness : fst (PgtestC.Start env_noexe 1 world0) = Goexit.
Proof.
  pose proof (surjective_pairing (PgtestC.Start_provisioned env_noexe 1 world0)) as H.
  assert (Hf : fst (PgtestC.Start_provisioned env_noexe 1 world0)
               = Ok {| PgtestC.URL := ""; PgtestC.t := 1; PgtestC.dir := "/tmp/pgtest3";
                       PgtestC.cmd := None |})
    by (vm_compute; reflexivity).
  rewrite Hf in H.
  refine (proj1 (proj2 (C3_launch_failure_is_fatal_dir_stays env_noexe 1 world0) _ _ H _)).
  vm_compute. reflexivity.
Defined.

(** ** C5 *)

(** C5, as stated, fails.  In src/pgtest.go, in [world0], initdb fails
    (call 1): [Start] reports it without any removal, the template directory
    stays, and the [Start] of a later process takes it for a finished
    template (it holds no postgresql.conf): its template block succeeds
    without running initdb and the copy is made from it.  In part_000,
    initdb fails (call 2) and the removal fails too (call 3): the error of
    [os.RemoveAll] is dropped and the template directory stays. *)
Lemma C5_counterexample :
  (let r := PgtestA.Start (fault_at 1) 1 world0 in
   let later := PgtestA.Start_provisioned (fault_at 1) 2 (restart (snd r)) in
   fst r = Goexit /\
   failed (snd r) = [(1, [AStr "initdb"; AErr EIO])] /\
   existsb is_RemoveAll (log (snd r)) = false /\
   fs (snd r) "/tmp/pgtestdata" = Some Dir /\
   fs (snd r) "/tmp/pgtestdata/postgresql.conf" = None /\
   fst later = Ok {| PgtestA.t := 2; PgtestA.dir := "/tmp/pgtest3";
                     PgtestA.cmd := None |} /\
   tally is_initdb (log (snd later)) = tally is_initdb (log (snd r)) /\
   failed (snd later) = failed (snd r)) /\
  (let r := PgtestC.Start faults_2_3 1 world0 in
   fst r = Goexit /\
   failed (snd r) = [(1, [AStr "initdb"; AErr EIO])] /\
   fs (snd r) "/tmp/pgtestdata1" = Some Dir).
Proof. vm_compute. repeat split. Qed.

(** C5, amended: in part_000, whenever [maybeInitdb] reports the failure of
    the initdb step, it has called [os.RemoveAll] on the template directory
    right after initdb and before the report, and [initdbOk] is unchanged, so
    that, [initdbOk] being false, every later [Start] of the process ends in
    [t.Fatal].  When that removal does not fail, no path of the template
    directory is left.  (The configuration append is not part of the
    template initialization of part_000.) *)
Theorem C5_initdb_failure_removes_template (E : Env) (t : T) (w : World) (e : error) :
  let r := PgtestC.maybeInitdb E t w in
  failed (snd r) = (t, [AStr "initdb"; AErr e]) :: failed w ->
  fst r = Goexit /\
  initdbOk (snd r) = initdbOk w /\
  (initdbOk w = false ->
   forall t2, fst (PgtestC.Start E t2 (set_once true (snd r))) = Goexit) /\
  exists exe l,
    log (snd r)
    = EvRemoveAll (PgtestC.pgtestdata E)
        :: EvRun [exe; "-D"; PgtestC.pgtestdata E] :: l /\
    (flt E (Datatypes.S (length l)) = false ->
     forall q, under (PgtestC.pgtestdata E) q = true -> fs (snd r) q = None).
Proof.
  intros r Hf.
  assert (H : fst r = Goexit /\ initdbOk (snd r) = initdbOk w /\
              exists exe l,
                log (snd r)
                = EvRemoveAll (PgtestC.pgtestdata E)
                    :: EvRun [exe; "-D"; PgtestC.pgtestdata E] :: l /\
                (flt E (Datatypes.S (length l)) = false ->
                 forall q, under (PgtestC.pgtestdata E) q = true -> fs (snd r) q = None)).
  { revert Hf. subst r. unfold PgtestC.maybeInitdb. run_calls.
    all: intros Hf.
    all: try (apply (f_equal (@length _)) in Hf; simpl in Hf; lia).
    all: try (injection Hf; intros; discriminate).
    all: split; [reflexivity|]; split; [reflexivity|].
    all: eexists; eexists; split; [reflexivity|].
    all: simpl; intros Hx; try congruence.
    all: intros q Hq; unfold remove_all; now rewrite Hq. }
  destruct H as (H1 & H2 & H3). repeat split; try assumption.
  intros Hok t2. rewrite Start_unfoldC, Start_once_doneC by reflexivity.
  simpl. rewrite H2, Hok. reflexivity.
Qed.

Lemma C5_witness :
  fst (PgtestC.maybeInitdb (fault_at 2) 1 world0) = Goexit.
Proof.
  refine (proj1 (C5_initdb_failure_removes_template (fault_at 2) 1 world0 EIO _)).
  vm_compute. reflexivity.
Defined.

(** ** C10 *)

(** C10, as stated, fails: in [world0] the copy holds no postgresql.conf.
    [Start] fails at [os.OpenFile], which does not create the file, before
    [contains] is reached: nothing is read and nothing is appended. *)
Lemma C10_counterexample :
  let r := PgtestC.Start env_noconf 1 world0 in
  fs (snd r) "/tmp/pgtest3" = Some Dir /\
  fs (snd r) "/tmp/pgtest3/postgresql.conf" = None /\
  fst r = Goexit /\
  failed (snd r) = [(1, [AErr ENOENT])] /\
  hd_error (log (snd r)) = Some (EvOpenFile "/tmp/pgtest3/postgresql.conf") /\
  tally is_Write (log (snd r)) = 0.
Proof. vm_compute. repeat split. Qed.

(** C10, amended: [contains] returns false whenever the named file cannot be
    read.  Consequently, if the copied postgresql.conf can be opened for
    appending but cannot be read (it is not readable, or the read fails),
    [Start] appends the plural override key unix_socket_directories and goes
    on.  If the copied postgresql.conf is missing, [Start] fails at
    [os.OpenFile], before [contains] is called, and appends nothing. *)
Theorem C10_unreadable_conf_gets_plural_key (E : Env) :
  (forall substr name w b e,
     fst (ioutil_ReadFile E name w) = Ok (b, Some e) ->
     fst (PgtestC.contains E substr name w) = Ok false) /\
  (forall t pg w old r,
     let path := filepath_Join (PgtestC.dir pg) "postgresql.conf" in
     let n := length (log w) in
     fs w path = Some (File old r true) ->
     flt E n = false ->
     r = false \/ flt E (Datatypes.S n) = true ->
     flt E (Datatypes.S (Datatypes.S n)) = false ->
     flt E (Datatypes.S (Datatypes.S (Datatypes.S n))) = false ->
     fst (PgtestC.Start_conf E t pg w) = Ok tt /\
     fs (snd (PgtestC.Start_conf E t pg w)) path
       = Some (File (old ++ PgtestC.conf (PgtestC.dir pg) true) r true) /\
     failed (snd (PgtestC.Start_conf E t pg w)) = failed w) /\
  (forall t pg w,
     let path := filepath_Join (PgtestC.dir pg) "postgresql.conf" in
     fs w path = None ->
     fst (PgtestC.Start_conf E t pg w) = Goexit /\
     log (snd (PgtestC.Start_conf E t pg w)) = EvOpenFile path :: log w /\
     fs (snd (PgtestC.Start_conf E t pg w)) = fs w /\
     exists e, failed (snd (PgtestC.Start_conf E t pg w)) = (t, [AErr e]) :: failed w).
Proof.
  split; [|split].
  - intros substr name w b e. unfold PgtestC.contains. run_calls; congruence.
  - intros t pg w old r path n Hfs H0 H1 H2 H3. subst path n.
    unfold PgtestC.Start_conf, PgtestC.contains, PgtestC.conf_Execute.
    run_calls.
    all: try congruence.
    all: try (destruct H1; congruence).
    all: unfold upd; rewrite ?String.eqb_refl.
    all: repeat split; congruence.
  - intros t pg w path Hfs. subst path.
    unfold PgtestC.Start_conf, bind, os_OpenFile, if_err, t_Fatal, faulty. simpl.
    destruct (flt E (length (log w))); simpl; [repeat split; eauto|].
    rewrite Hfs. simpl. repeat split; eauto.
Qed.

Lemma C10_witness :
  let w := {| fs := upd "/tmp/pgtest3/postgresql.conf" (File "#" false true) (fs world0);
              procs := []; now := 0; log := []; failed := [];
              once := true; initdbOk := true; postgres := "postgres" |} in
  fs (snd (PgtestC.Start_conf env0 1 pgC0 w)) "/tmp/pgtest3/postgresql.conf"
  = Some (File ("#" ++ PgtestC.conf "/tmp/pgtest3" true) false true).
Proof.
  intros w.
  refine (proj1 (proj2 (proj1 (proj2 (C10_unreadable_conf_gets_plural_key env0))
                              1 pgC0 w "#" false _ _ _ _ _)));
    try reflexivity.
  left. reflexivity.
Defined.

(** ** C4 *)

Lemma upd_out (d p q : string) (n : node) (f : FS) :
  under d p = true -> under d q = false -> upd p n f q = f q.
Proof.
  intros Hp Hq. unfold upd. destruct (String.eqb_spec q p) as [->|]; [congruence | reflexivity].
Qed.

Lemma populate_out (d q : string) (files : list (string * string)) (f : FS) :
  under d q = false -> populate d files f q = f q.
Proof.
  intros Hq. induction files as [|[name data] files IH]; [reflexivity|].
  cbn [populate]. rewrite (upd_out d _ _ _ _ (under_child d name) Hq). exact IH.
Qed.

Lemma remove_all_out (d q : string) (f : FS) :
  under d q = false -> remove_all d f q = f q.
Proof. intros Hq. unfold remove_all. now rewrite Hq. Qed.

Lemma pgtestdataA_nonempty (E : Env) : PgtestA.pgtestdata E <> "".
Proof.
  rewrite pgtestdataA_eq. intros H. apply (f_equal String.length) in H.
  rewrite length_append in H. simpl in H. lia.
Qed.

(** The template block of [Start] changes nothing outside the template
    directory. *)
Lemma Start_once_outsideA (E : Env) (t : T) (w : World) (q : string) :
  under (PgtestA.pgtestdata E) q = false ->
  fs (snd (PgtestA.Start_once E t w)) q = fs w q.
Proof.
  intros Hq. destruct (once w) eqn:Hw.
  - now rewrite (Start_once_doneA E t w Hw).
  - rewrite (Start_once_firstA E t w Hw).
    pose proof (Join_under _ "postgresql.conf" (pgtestdataA_nonempty E)) as Hc.
    unfold PgtestA.maybeInitdb. run_calls.
    all: rewrite ?(upd_out _ _ _ _ _ Hc Hq), ?(populate_out _ _ _ _ Hq),
           ?(upd_out _ _ _ _ _ (under_refl _) Hq); reflexivity.
Qed.

Lemma Start_once_outsideC (E : Env) (t : T) (w : World) (q : string) :
  under (PgtestC.pgtestdata E) q = false ->
  fs (snd (PgtestC.Start_once E t w)) q = fs w q.
Proof.
  intros Hq. destruct (once w) eqn:Hw.
  - rewrite (Start_once_doneC E t w Hw). now destruct (initdbOk w).
  - rewrite (Start_once_firstC E t w Hw).
    unfold PgtestC.maybeInitdb. run_calls.
    all: rewrite ?(remove_all_out _ _ _ Hq), ?(populate_out _ _ _ _ Hq),
           ?(upd_out _ _ _ _ _ (under_refl _) Hq); reflexivity.
Qed.

Lemma Start_launch_OkC (E : Env) (t : T) (pg pg' : PgtestC.PG) (w w' : World) :
  PgtestC.Start_launch E t pg w = (Ok pg', w') ->
  PgtestC.dir pg' = PgtestC.dir pg /\
  PgtestC.URL pg' = "host=" ++ PgtestC.dir pg ++ " dbname=postgres sslmode=disable".
Proof.
  unfold PgtestC.Start_launch. run_calls; intros [= <- <-]; split; reflexivity.
Qed.

Lemma Start_launch_OkA (E : Env) (t : T) (pg pg' : PgtestA.PG) (w w' : World) :
  PgtestA.Start_launch E t pg w = (Ok pg', w') ->
  PgtestA.dir pg' = PgtestA.dir pg.
Proof.
  unfold PgtestA.Start_launch. run_calls; intros [= <- <-]; reflexivity.
Qed.

(** The handle [Start] returns: its directory was named by
    [ioutil.TempDir] and did not exist when the template block was over. *)
Lemma Start_Ok_factsA (E : Env) (t : T) (w : World) (pg : PgtestA.PG) :
  fst (PgtestA.Start E t w) = Ok pg ->
  (exists u, PgtestA.dir pg = temp_name E "" "pgtest" u) /\
  fs (snd (PgtestA.Start_once E t w)) (PgtestA.dir pg) = None.
Proof.
  intros H. split; [now apply (Start_Ok_dirA E t w)|]. revert H.
  rewrite Start_unfoldA.
  destruct (PgtestA.Start_once E t w) as [[[]| |] w1]; try discriminate.
  unfold PgtestA.Start_rest, bind. simpl snd.
  destruct (PgtestA.Start_copy E t w1) as [[pg0| |] w2] eqn:Hc; try discriminate.
  destruct (PgtestA.Start_launch E t pg0 w2) as [[pg1| |] w3] eqn:Hl; try discriminate.
  intros H.
  pose proof (proj2 (Start_wait_stepsA no_event nowhere E (no_event_body bodyA) t pg1 20 w3)
                    pg H) as ->.
  rewrite (Start_launch_OkA E t pg0 pg1 w2 w3 Hl).
  now destruct (Start_copy_OkA E t w1 w2 pg0 Hc) as (_ & ? & _).
Qed.

Lemma Start_Ok_factsC (E : Env) (t : T) (w : World) (pg : PgtestC.PG) :
  fst (PgtestC.Start E t w) = Ok pg ->
  (exists u, PgtestC.dir pg = temp_name E "" "pgtest" u) /\
  fs (snd (PgtestC.Start_once E t w)) (PgtestC.dir pg) = None /\
  PgtestC.URL pg = "host=" ++ PgtestC.dir pg ++ " dbname=postgres sslmode=disable".
Proof.
  intros H. split; [now apply (Start_Ok_dirC E t w)|]. revert H.
  rewrite Start_unfoldC.
  destruct (PgtestC.Start_once E t w) as [[[]| |] w1]; try discriminate.
  unfold PgtestC.Start_rest, bind. simpl snd.
  destruct (PgtestC.Start_copy E t w1) as [[pg0| |] w2] eqn:Hc; try discriminate.
  destruct (PgtestC.Start_conf E t pg0 w2) as [[[]| |] w3]; try discriminate.
  destruct (PgtestC.Start_launch E t pg0 w3) as [[pg1| |] w4] eqn:Hl; try discriminate.
  intros H.
  pose proof (proj2 (Start_wait_stepsC no_event nowhere E (no_event_body bodyC) t pg1 _ 20 w4)
                    pg H) as ->.
  destruct (Start_launch_OkC E t pg0 pg1 w3 w4 Hl) as [Hd Hu].
  rewrite Hu, Hd.
  now destruct (Start_copy_OkC E t w1 w2 pg0 Hc) as (_ & ? & _).
Qed.

Lemma temp_not_in_template (E : Env) (x : string) (u : uint) :
  no_slash x = true -> (forall v, digits v <> x) ->
  under (join_head (tmpdir E) ++ "pgtest" ++ x) (temp_name E "" "pgtest" u) = false.
Proof. intros Hx Hd. apply (temp_off_template E x u _ Hx Hd), under_refl. Qed.

(** C4, as stated, fails.  In src/pgtest.go two instances that run at the
    same time have different directories but one endpoint: both engines
    listen at the package's socket path, and [URL] is a constant.  In
    part_000 an instance provisioned after another one was stopped can get
    the directory, and so the endpoint, the first one had. *)
Lemma C4_counterexample :
  (let w1 := snd (PgtestA.Start env0 1 world0) in
   let w2 := snd (PgtestA.Start env0 2 w1) in
   fst (PgtestA.Start env0 1 world0) = Ok pgA0 /\
   fst (PgtestA.Start env0 2 w1) = Ok pgA9 /\
   PgtestA.dir pgA0 <> PgtestA.dir pgA9 /\
   fs w2 (PgtestA.dir pgA0) = Some Dir /\
   fs w2 (PgtestA.dir pgA9) = Some Dir /\
   map psock (procs w2) = [PgtestA.sock; PgtestA.sock]) /\
  (let w1 := snd (PgtestC.Start env_same 1 world0) in
   let w2 := snd (PgtestC.Stop env_same (pgC7 1) w1) in
   fst (PgtestC.Start env_same 1 world0) = Ok (pgC7 1) /\
   fst (PgtestC.Stop env_same (pgC7 1) w1) = Ok tt /\
   fst (PgtestC.Start env_same 2 w2) = Ok (pgC7 2) /\
   PgtestC.dir (pgC7 1) = PgtestC.dir (pgC7 2) /\
   PgtestC.URL (pgC7 1) = PgtestC.URL (pgC7 2)).
Proof. vm_compute. repeat split. discriminate. Qed.

(** C4, amended: if the working directory of an instance still exists when
    a second instance is provisioned in the same process, the two have
    distinct working directories, and [Stop] on either one, in whatever
    world, changes no path inside the directory of the other.  In part_000
    they also have distinct endpoints: distinct [URL]s and distinct socket
    paths. *)
Theorem C4_live_instances_are_apart (E : Env) (t1 t2 : T) (w w' : World) :
  (forall pg1 pg2,
     fst (PgtestA.Start E t1 w) = Ok pg1 ->
     fs w' (PgtestA.dir pg1) <> None ->
     fst (PgtestA.Start E t2 w') = Ok pg2 ->
     PgtestA.dir pg1 <> PgtestA.dir pg2 /\
     (forall w3 q, under (PgtestA.dir pg2) q = true ->
                   fs (snd (PgtestA.Stop E pg1 w3)) q = fs w3 q) /\
     (forall w3 q, under (PgtestA.dir pg1) q = true ->
                   fs (snd (PgtestA.Stop E pg2 w3)) q = fs w3 q)) /\
  (forall pg1 pg2,
     fst (PgtestC.Start E t1 w) = Ok pg1 ->
     fs w' (PgtestC.dir pg1) <> None ->
     fst (PgtestC.Start E t2 w') = Ok pg2 ->
     PgtestC.dir pg1 <> PgtestC.dir pg2 /\
     PgtestC.URL pg1 <> PgtestC.URL pg2 /\
     filepath_Join (PgtestC.dir pg1) ".s.PGSQL.5432"
       <> filepath_Join (PgtestC.dir pg2) ".s.PGSQL.5432" /\
     (forall w3 q, under (PgtestC.dir pg2) q = true ->
                   fs (snd (PgtestC.Stop E pg1 w3)) q = fs w3 q) /\
     (forall w3 q, under (PgtestC.dir pg1) q = true ->
                   fs (snd (PgtestC.Stop E pg2 w3)) q = fs w3 q)).
Proof.
  split; intros pg1 pg2 H1 Hlive H2.
  - destruct (Start_Ok_factsA E t1 w pg1 H1) as [[u1 Hu1] _].
    destruct (Start_Ok_factsA E t2 w' pg2 H2) as [[u2 Hu2] Hfresh].
    assert (Hne : PgtestA.dir pg1 <> PgtestA.dir pg2).
    { intros Heq. apply Hlive. rewrite Heq.
      rewrite <- (Start_once_outsideA E t2 w'); [exact Hfresh|].
      rewrite Hu2, pgtestdataA_eq.
      apply (temp_not_in_template E "data" u2 eq_refl digits_not_data). }
    split; [exact Hne|]. split; intros w3 q Hq.
    + apply Stop_frameA. rewrite Hu1. rewrite Hu2 in Hq.
      apply (temp_off_temp E u2 u1 q); [congruence | exact Hq].
    + apply Stop_frameA. rewrite Hu2. rewrite Hu1 in Hq.
      apply (temp_off_temp E u1 u2 q); [congruence | exact Hq].
  - destruct (Start_Ok_factsC E t1 w pg1 H1) as ([u1 Hu1] & _ & Hurl1).
    destruct (Start_Ok_factsC E t2 w' pg2 H2) as ([u2 Hu2] & Hfresh & Hurl2).
    assert (Hne : PgtestC.dir pg1 <> PgtestC.dir pg2).
    { intros Heq. apply Hlive. rewrite Heq.
      rewrite <- (Start_once_outsideC E t2 w'); [exact Hfresh|].
      rewrite Hu2, pgtestdataC_eq.
      apply (temp_not_in_template E "data1" u2 eq_refl digits_not_data1). }
    split; [exact Hne|]. split; [|split; [|split]].
    + rewrite Hurl1, Hurl2. intros Heq. apply Hne.
      injection Heq as Heq. exact (append_inv_tail _ _ _ Heq).
    + intros Heq. apply Hne. rewrite !Join_head in Heq.
      unfold join_head in Heq.
      destruct (String.eqb_spec (PgtestC.dir pg1) "") as [He|_];
        [rewrite Hu1 in He; now apply temp_name_nonempty in He|].
      destruct (String.eqb_spec (PgtestC.dir pg2) "") as [He|_];
        [rewrite Hu2 in He; now apply temp_name_nonempty in He|].
      rewrite !append_assoc in Heq. exact (append_inv_tail _ _ _ Heq).
    + intros w3 q Hq. apply Stop_frameC. rewrite Hu1. rewrite Hu2 in Hq.
      apply (temp_off_temp E u2 u1 q); [congruence | exact Hq].
    + intros w3 q Hq. apply Stop_frameC. rewrite Hu2. rewrite Hu1 in Hq.
      apply (temp_off_temp E u1 u2 q); [congruence | exact Hq].
Qed.

Lemma C4_witness :
  let w1 := snd (PgtestC.Start env0 1 world0) in
  PgtestC.URL pgC0 <> PgtestC.URL pgC11.
Proof.
  intros w1.
  refine (proj1 (proj2 (proj2 (C4_live_instances_are_apart env0 1 2 world0 w1) _ _ _ _ _))).
  - vm_compute. reflexivity.
  - vm_compute. discriminate.
  - vm_compute. reflexivity.
Defined.


(** * Further properties *)

(** ** How [Start] ends *)

Lemma tidy_ret {A : Type} (t : T) (a : A) : tidy t (ret a).
Proof. intros w. reflexivity. Qed.

Lemma tidy_bind {A B : Type} (t : T) (m : M A) (k : A -> M B) :
  tidy t m -> (forall a, tidy t (k a)) -> tidy t (bind m k).
Proof.
  intros Hm Hk w. unfold bind. specialize (Hm w).
  destruct (m w) as [[a| |msg] w1]; simpl in *; try assumption.
  specialize (Hk a w1). destruct (k a w1) as [[b| |msg] w2]; simpl in *.
  - congruence.
  - destruct Hk as [args Hk]. exists args. congruence.
  - assumption.
Qed.

Lemma tidy_Fatal {A : Type} (t : T) (args : list arg) : tidy t (t_Fatal (A := A) t args).
Proof. intros w. simpl. eauto. Qed.

Lemma tidy_Stat (E : Env) (t : T) (p : string) : tidy t (os_Stat E p).
Proof. unfold os_Stat. tidy_block. Qed.

Lemma tidy_Sleep (t : T) (ms : nat) : tidy t (time_Sleep ms).
Proof. intros w. reflexivity. Qed.

Lemma tidy_once_Do (t : T) (f : M unit) : tidy t f -> tidy t (once_Do f).
Proof.
  intros Hf w. unfold once_Do. destruct (once w); [reflexivity|].
  specialize (Hf w). destruct (f w) as [[[]| |] w1]; exact Hf.
Qed.

Lemma tidy_maybeInitdbA (E : Env) (t : T) : tidy t (PgtestA.maybeInitdb E t).
Proof. unfold PgtestA.maybeInitdb. tidy_block. Qed.

Lemma tidy_maybeInitdbC (E : Env) (t : T) : tidy t (PgtestC.maybeInitdb E t).
Proof. unfold PgtestC.maybeInitdb. tidy_block. Qed.

Lemma tidy_Start_onceA (E : Env) (t : T) : tidy t (PgtestA.Start_once E t).
Proof. apply tidy_once_Do, tidy_maybeInitdbA. Qed.

Lemma tidy_Start_onceC (E : Env) (t : T) : tidy t (PgtestC.Start_once E t).
Proof.
  unfold PgtestC.Start_once. apply tidy_bind; [apply tidy_once_Do, tidy_maybeInitdbC|].
  intros _. apply tidy_bind; [intros w; reflexivity|].
  intros [|]; simpl; [apply tidy_ret | apply tidy_Fatal].
Qed.

Lemma tidy_Start_copyA (E : Env) (t : T) : tidy t (PgtestA.Start_copy E t).
Proof. unfold PgtestA.Start_copy. tidy_block. Qed.

Lemma tidy_Start_copyC (E : Env) (t : T) : tidy t (PgtestC.Start_copy E t).
Proof. unfold PgtestC.Start_copy. tidy_block. Qed.

Lemma tidy_Start_confC (E : Env) (t : T) (pg : PgtestC.PG) :
  tidy t (PgtestC.Start_conf E t pg).
Proof.
  unfold PgtestC.Start_conf, PgtestC.contains, PgtestC.conf_Execute. tidy_block.
Qed.

Lemma tidy_Start_launchA (E : Env) (t : T) (pg : PgtestA.PG) :
  tidy t (PgtestA.Start_launch E t pg).
Proof. unfold PgtestA.Start_launch. tidy_block. Qed.

Lemma tidy_Start_launchC (E : Env) (t : T) (pg : PgtestC.PG) :
  tidy t (PgtestC.Start_launch E t pg).
Proof. unfold PgtestC.Start_launch. tidy_block. Qed.

Lemma tidy_Start_waitA (E : Env) (t : T) (pg : PgtestA.PG) (n : nat) :
  tidy t (PgtestA.Start_wait E t pg n).
Proof.
  induction n as [|n IH]; simpl.
  - intros w. simpl. eauto.
  - apply tidy_bind; [apply tidy_Stat|]. intros [e|]; [|apply tidy_ret].
    apply tidy_bind; [apply tidy_Sleep | intros _; exact IH].
Qed.

Lemma tidy_Start_waitC (E : Env) (t : T) (pg : PgtestC.PG) (sock : string) (n : nat) :
  tidy t (PgtestC.Start_wait E t pg sock n).
Proof.
  induction n as [|n IH]; simpl.
  - intros w. simpl. eauto.
  - apply tidy_bind; [apply tidy_Stat|]. intros [e|]; [|apply tidy_ret].
    apply tidy_bind; [apply tidy_Sleep | intros _; exact IH].
Qed.

Lemma tidy_StartA (E : Env) (t : T) : tidy t (PgtestA.Start E t).
Proof.
  unfold PgtestA.Start.
  apply tidy_bind; [apply tidy_Start_onceA | intros _].
  apply tidy_bind; [apply tidy_Start_copyA | intros pg].
  apply tidy_bind; [apply tidy_Start_launchA | intros pg'].
  apply tidy_Start_waitA.
Qed.

Lemma tidy_StartC (E : Env) (t : T) : tidy t (PgtestC.Start E t).
Proof.
  unfold PgtestC.Start.
  apply tidy_bind; [apply tidy_Start_onceC | intros _].
  apply tidy_bind; [apply tidy_Start_copyC | intros pg].
  apply tidy_bind; [apply tidy_Start_confC | intros _].
  apply tidy_bind; [apply tidy_Start_launchC | intros pg'].
  apply tidy_Start_waitC.
Qed.

(** X1: however the environment answers, [Start] ends in one of two ways:
    it returns a handle and has reported no failure, or it leaves through
    [t.Fatal] having reported exactly one failure, on its own test.  It
    never panics: the statement [panic("unreached")] after the loop is
    indeed not reached.  Both revisions. *)
Theorem X1_Start_returns_or_reports_once (E : Env) (t : T) (w : World) :
  reports t (fst (PgtestA.Start E t w)) w (snd (PgtestA.Start E t w)) /\
  reports t (fst (PgtestC.Start E t w)) w (snd (PgtestC.Start E t w)).
Proof. split; [apply tidy_StartA | apply tidy_StartC]. Qed.

(** ** What [Start] returns *)

(** [Start] that returns has gone through all its blocks. *)
Lemma Start_Ok_splitA (E : Env) (t : T) (w : World) (pg : PgtestA.PG) :
  fst (PgtestA.Start E t w) = Ok pg ->
  exists w1 pg0 w2 w3,
    PgtestA.Start_once E t w = (Ok tt, w1) /\
    PgtestA.Start_copy E t w1 = (Ok pg0, w2) /\
    PgtestA.Start_launch E t pg0 w2 = (Ok pg, w3) /\
    PgtestA.Start E t w = PgtestA.Start_wait E t pg 20 w3.
Proof.
  unfold PgtestA.Start, bind.
  destruct (PgtestA.Start_once E t w) as [[[]| |] w1] eqn:H1; try discriminate.
  destruct (PgtestA.Start_copy E t w1) as [[pg0| |] w2] eqn:H2; try discriminate.
  destruct (PgtestA.Start_launch E t pg0 w2) as [[pg1| |] w3] eqn:H3; try discriminate.
  intros H.
  pose proof (proj2 (Start_wait_stepsA no_event nowhere E (no_event_body bodyA) t pg1 20 w3)
                    pg H) as ->.
  exists w1, pg0, w2, w3. rewrite H2, H3. repeat split; reflexivity.
Qed.

Lemma Start_Ok_splitC (E : Env) (t : T) (w : World) (pg : PgtestC.PG) :
  fst (PgtestC.Start E t w) = Ok pg ->
  exists w1 pg0 w2 w3 w4,
    PgtestC.Start_once E t w = (Ok tt, w1) /\
    PgtestC.Start_copy E t w1 = (Ok pg0, w2) /\
    PgtestC.Start_conf E t pg0 w2 = (Ok tt, w3) /\
    PgtestC.Start_launch E t pg0 w3 = (Ok pg, w4) /\
    PgtestC.Start E t w
    = PgtestC.Start_wait E t pg (filepath_Join (PgtestC.dir pg) ".s.PGSQL.5432") 20 w4.
Proof.
  unfold PgtestC.Start, bind.
  destruct (PgtestC.Start_once E t w) as [[[]| |] w1] eqn:H1; try discriminate.
  destruct (PgtestC.Start_copy E t w1) as [[pg0| |] w2] eqn:H2; try discriminate.
  destruct (PgtestC.Start_conf E t pg0 w2) as [[[]| |] w3] eqn:H3; try discriminate.
  destruct (PgtestC.Start_launch E t pg0 w3) as [[pg1| |] w4] eqn:H4; try discriminate.
  intros H.
  pose proof (proj2 (Start_wait_stepsC no_event nowhere E (no_event_body bodyC) t pg1 _ 20 w4)
                    pg H) as ->.
  exists w1, pg0, w2, w3, w4. rewrite H2, H3, H4. repeat split; reflexivity.
Qed.

Lemma Start_copy_handleA (E : Env) (t : T) (w w1 : World) (pg : PgtestA.PG) :
  PgtestA.Start_copy E t w = (Ok pg, w1) -> PgtestA.t pg = t.
Proof. unfold PgtestA.Start_copy. run_calls; intros [= <- <-]; reflexivity. Qed.

Lemma Start_copy_handleC (E : Env) (t : T) (w w1 : World) (pg : PgtestC.PG) :
  PgtestC.Start_copy E t w = (Ok pg, w1) -> PgtestC.t pg = t.
Proof. unfold PgtestC.Start_copy. run_calls; intros [= <- <-]; reflexivity. Qed.

Lemma Start_launch_handleA (E : Env) (t : T) (pg pg' : PgtestA.PG) (w w' : World) :
  PgtestA.Start_launch E t pg w = (Ok pg', w') ->
  pg' = {| PgtestA.t := PgtestA.t pg; PgtestA.dir := PgtestA.dir pg;
           PgtestA.cmd := Some {| Path := "postgres"; Args := ["-D"; PgtestA.dir pg];
                                  Process := Some (length (procs w)) |} |} /\
  In (length (procs w)) (map pid (procs w')).
Proof.
  unfold PgtestA.Start_launch. run_calls; intros [= <- <-].
  all: split; [reflexivity|]. all: unfold settle; simpl; rewrite map_map; simpl.
  all: destruct (due _ _); simpl; auto.
Qed.

Lemma Start_launch_handleC (E : Env) (t : T) (pg pg' : PgtestC.PG) (w w' : World) :
  PgtestC.Start_launch E t pg w = (Ok pg', w') ->
  pg' = {| PgtestC.URL := "host=" ++ PgtestC.dir pg ++ " dbname=postgres sslmode=disable";
           PgtestC.t := PgtestC.t pg; PgtestC.dir := PgtestC.dir pg;
           PgtestC.cmd := Some {| Path := postgres w; Args := ["-D"; PgtestC.dir pg];
                                  Process := Some (length (procs w)) |} |} /\
  In (length (procs w)) (map pid (procs w')).
Proof.
  unfold PgtestC.Start_launch. run_calls; intros [= <- <-].
  all: split; [reflexivity|]. all: unfold settle; simpl; rewrite map_map; simpl.
  all: destruct (due _ _); simpl; auto.
Qed.

Lemma settle_pids (w : World) : map pid (procs (settle w)) = map pid (procs w).
Proof.
  unfold settle; simpl. rewrite map_map. apply map_ext.
  intros pr. now destruct (due _ _).
Qed.

(** A wait that returns has just found the socket file; the engines are
    the same. *)
Lemma Start_wait_OkA (E : Env) (t : T) (pg pg' : PgtestA.PG) (n : nat) (w w' : World) :
  PgtestA.Start_wait E t pg n w = (Ok pg', w') ->
  fs w' PgtestA.sock <> None /\
  map pid (procs w') = map pid (procs w) /\
  exists l, log w' = EvStat PgtestA.sock :: l.
Proof.
  revert w; induction n as [|n IH]; intros w; simpl; [discriminate|].
  unfold bind at 1. unfold os_Stat at 1.
  assert (Hmiss : forall e,
            PgtestA.Start_wait E t pg n
              (snd (time_Sleep 50 (tick e w))) = (Ok pg', w') ->
            fs w' PgtestA.sock <> None /\
            map pid (procs w') = map pid (procs w) /\
            exists l, log w' = EvStat PgtestA.sock :: l).
  { intros e H. destruct (IH _ H) as (H1 & H2 & H3).
    repeat split; try assumption. rewrite H2. unfold time_Sleep. simpl snd.
    now rewrite settle_pids. }
  destruct (faulty E w); simpl.
  - unfold bind. simpl. apply Hmiss.
  - destruct (fs w PgtestA.sock) eqn:Hs; simpl.
    + intros [= <- <-]. simpl. rewrite Hs. repeat split; [discriminate | eauto].
    + unfold bind. simpl. apply Hmiss.
Qed.

Lemma Start_wait_OkC (E : Env) (t : T) (pg pg' : PgtestC.PG) (sock : string)
      (n : nat) (w w' : World) :
  PgtestC.Start_wait E t pg sock n w = (Ok pg', w') ->
  fs w' sock <> None /\
  map pid (procs w') = map pid (procs w) /\
  exists l, log w' = EvStat sock :: l.
Proof.
  revert w; induction n as [|n IH]; intros w; simpl; [discriminate|].
  unfold bind at 1. unfold os_Stat at 1.
  assert (Hmiss : forall e,
            PgtestC.Start_wait E t pg sock n
              (snd (time_Sleep 50 (tick e w))) = (Ok pg', w') ->
            fs w' sock <> None /\
            map pid (procs w') = map pid (procs w) /\
            exists l, log w' = EvStat sock :: l).
  { intros e H. destruct (IH _ H) as (H1 & H2 & H3).
    repeat split; try assumption. rewrite H2. unfold time_Sleep. simpl snd.
    now rewrite settle_pids. }
  destruct (faulty E w); simpl.
  - unfold bind. simpl. apply Hmiss.
  - destruct (fs w sock) eqn:Hs; simpl.
    + intros [= <- <-]. simpl. rewrite Hs. repeat split; [discriminate | eauto].
    + unfold bind. simpl. apply Hmiss.
Qed.

(** X2: a handle that [Start] returns carries the test it was started for,
    a directory named by [ioutil.TempDir], the command postgres -D dir with
    its process, which is among the engines of the process, and, in
    part_000, the [URL] host=dir dbname=postgres sslmode=disable.  So [Stop]
    on it, in whatever world, dereferences no nil pointer: it returns or
    ends in [t.Fatal].  Both revisions. *)
Theorem X2_Start_handle_is_complete (E : Env) (t : T) (w : World) :
  (forall pg, fst (PgtestA.Start E t w) = Ok pg ->
     PgtestA.t pg = t /\
     (exists u, PgtestA.dir pg = temp_name E "" "pgtest" u) /\
     (exists p,
        PgtestA.cmd pg = Some {| Path := "postgres"; Args := ["-D"; PgtestA.dir pg];
                                 Process := Some p |} /\
        In p (map pid (procs (snd (PgtestA.Start E t w))))) /\
     forall w', fst (PgtestA.Stop E pg w') = Ok tt \/
                fst (PgtestA.Stop E pg w') = Goexit) /\
  (forall pg, fst (PgtestC.Start E t w) = Ok pg ->
     PgtestC.t pg = t /\
     (exists u, PgtestC.dir pg = temp_name E "" "pgtest" u) /\
     PgtestC.URL pg = "host=" ++ PgtestC.dir pg ++ " dbname=postgres sslmode=disable" /\
     (exists exe p,
        PgtestC.cmd pg = Some {| Path := exe; Args := ["-D"; PgtestC.dir pg];
                                 Process := Some p |} /\
        In p (map pid (procs (snd (PgtestC.Start E t w))))) /\
     forall w', fst (PgtestC.Stop E pg w') = Ok tt \/
                fst (PgtestC.Stop E pg w') = Goexit).
Proof.
  split; intros pg Hpg.
  - destruct (Start_Ok_splitA E t w pg Hpg) as (w1 & pg0 & w2 & w3 & H1 & H2 & H3 & H4).
    destruct (Start_launch_handleA E t pg0 pg w2 w3 H3) as [Hh Hin].
    pose proof (Start_copy_handleA E t w1 w2 pg0 H2) as Ht.
    assert (Hw : PgtestA.Start_wait E t pg 20 w3 = (Ok pg, snd (PgtestA.Start E t w))).
    { rewrite <- H4. rewrite <- Hpg. apply surjective_pairing. }
    destruct (Start_wait_OkA E t pg pg 20 w3 _ Hw) as (_ & Hpid & _).
    split; [subst pg; exact Ht|].
    split; [now apply (Start_Ok_dirA E t w)|].
    split.
    + exists (length (procs w2)). rewrite Hpid. split; [|exact Hin].
      rewrite Hh. reflexivity.
    + intros w'.
      rewrite (Stop_eqA E pg _ (length (procs w2)) w'
                 (f_equal PgtestA.cmd Hh) eq_refl).
      simpl. destruct (flt E (length (log w'))); [now right|].
      destruct (flt E (Datatypes.S (length (log w')))); [now right | now left].
  - destruct (Start_Ok_splitC E t w pg Hpg)
      as (w1 & pg0 & w2 & w3 & w4 & H1 & H2 & H3 & H4 & H5).
    destruct (Start_launch_handleC E t pg0 pg w3 w4 H4) as [Hh Hin].
    pose proof (Start_copy_handleC E t w1 w2 pg0 H2) as Ht.
    assert (Hw : PgtestC.Start_wait E t pg (filepath_Join (PgtestC.dir pg) ".s.PGSQL.5432")
                   20 w4 = (Ok pg, snd (PgtestC.Start E t w))).
    { rewrite <- H5. rewrite <- Hpg. apply surjective_pairing. }
    destruct (Start_wait_OkC E t pg pg _ 20 w4 _ Hw) as (_ & Hpid & _).
    split; [subst pg; exact Ht|].
    split; [now apply (Start_Ok_dirC E t w)|].
    split; [rewrite Hh; reflexivity|].
    split.
    + exists (postgres w3), (length (procs w3)). rewrite Hpid. split; [|exact Hin].
      rewrite Hh. reflexivity.
    + intros w'.
      rewrite (Stop_eqC E pg _ (length (procs w3)) w'
                 (f_equal PgtestC.cmd Hh) eq_refl).
      simpl. destruct (flt E (length (log w'))); [now right|].
      destruct (flt E (Datatypes.S (length (log w')))); [now right | now left].
Qed.

Lemma X2_witness :
  let w' := snd (PgtestC.Start env0 1 world0) in
  fst (PgtestC.Stop env0 pgC0 w') = Ok tt \/
  fst (PgtestC.Stop env0 pgC0 w') = Goexit.
Proof.
  intros w'.
  refine (proj2 (proj2 (proj2 (proj2
            (proj2 (X2_Start_handle_is_complete env0 1 world0) pgC0 _)))) w').
  vm_compute. reflexivity.
Defined.

(** X3: [Start] returns only from a check that found the socket file: when
    it returns, its last call is that [os.Stat] and the socket file exists
    (in src/pgtest.go the package's socket path, in part_000 the one inside
    the directory of the handle).  Both revisions. *)
Theorem X3_Start_returns_when_socket_exists (E : Env) (t : T) (w : World) :
  (forall pg, fst (PgtestA.Start E t w) = Ok pg ->
     fs (snd (PgtestA.Start E t w)) PgtestA.sock <> None /\
     exists l, log (snd (PgtestA.Start E t w)) = EvStat PgtestA.sock :: l) /\
  (forall pg, fst (PgtestC.Start E t w) = Ok pg ->
     let sock := filepath_Join (PgtestC.dir pg) ".s.PGSQL.5432" in
     fs (snd (PgtestC.Start E t w)) sock <> None /\
     exists l, log (snd (PgtestC.Start E t w)) = EvStat sock :: l).
Proof.
  split; intros pg Hpg.
  - destruct (Start_Ok_splitA E t w pg Hpg) as (w1 & pg0 & w2 & w3 & H1 & H2 & H3 & H4).
    assert (Hw : PgtestA.Start_wait E t pg 20 w3 = (Ok pg, snd (PgtestA.Start E t w))).
    { rewrite <- H4. rewrite <- Hpg. apply surjective_pairing. }
    destruct (Start_wait_OkA E t pg pg 20 w3 _ Hw) as (Hs & _ & Hl). now split.
  - destruct (Start_Ok_splitC E t w pg Hpg)
      as (w1 & pg0 & w2 & w3 & w4 & H1 & H2 & H3 & H4 & H5).
    assert (Hw : PgtestC.Start_wait E t pg (filepath_Join (PgtestC.dir pg) ".s.PGSQL.5432")
                   20 w4 = (Ok pg, snd (PgtestC.Start E t w))).
    { rewrite <- H5. rewrite <- Hpg. apply surjective_pairing. }
    destruct (Start_wait_OkC E t pg pg _ 20 w4 _ Hw) as (Hs & _ & Hl). now split.
Qed.

Lemma X3_witness :
  fs (snd (PgtestC.Start env0 1 world0)) "/tmp/pgtest3/.s.PGSQL.5432" <> None.
Proof.
  refine (proj1 (proj2 (X3_Start_returns_when_socket_exists env0 1 world0) pgC0 _)).
  vm_compute. reflexivity.
Defined.

(** ** The copy of the template *)

Lemma drop_dot_app (s : string) : s <> "" -> drop_dot (s ++ "/.") = s.
Proof.
  induction s as [|c s IH]; [congruence|]. intros _. simpl.
  destruct s as [|d s].
  - reflexivity.
  - replace ((String d s ++ "/.") =? "/.") with false.
    + f_equal. apply IH. discriminate.
    + symmetry. apply String.eqb_neq. intros H.
      apply (f_equal String.length) in H. simpl in H.
      rewrite length_append in H. simpl in H. lia.
Qed.

Lemma strip_prefix_app_eq (a r : string) : strip_prefix a (a ++ r) = Some r.
Proof.
  induction a as [|c a IH]; simpl; [reflexivity|].
  now rewrite Ascii.eqb_refl.
Qed.

Lemma pgtestdataC_nonempty (E : Env) : PgtestC.pgtestdata E <> "".
Proof.
  rewrite pgtestdataC_eq. intros H. apply (f_equal String.length) in H.
  rewrite length_append in H. simpl in H. lia.
Qed.

(** [cp -a src/. dst] into a directory [dst] just created. *)
Lemma copy_into_child (src dst r : string) (n : node) (f : FS) :
  f dst = None -> f (src ++ "/" ++ r) = Some n ->
  copy_into src dst (upd dst Dir f) (dst ++ "/" ++ r) = Some n.
Proof.
  intros Hd Hs. unfold copy_into.
  rewrite <- (append_assoc dst "/" r), strip_prefix_app_eq.
  unfold upd at 1.
  destruct (String.eqb_spec (src ++ "/" ++ r) dst) as [He|_]; [congruence|].
  now rewrite Hs.
Qed.

(** X4: when the copy block of [Start] succeeds, every entry of the
    template directory, at whatever depth, is in the new instance directory
    under the same relative name and with the same contents and
    permissions.  Both revisions. *)
Theorem X4_copy_holds_every_template_entry
  (E : Env) (t : T) (w : World) (r : string) (n : node) :
  (forall pg w1,
     PgtestA.Start_copy E t w = (Ok pg, w1) ->
     fs w (PgtestA.pgtestdata E ++ "/" ++ r) = Some n ->
     fs w1 (PgtestA.dir pg ++ "/" ++ r) = Some n) /\
  (forall pg w1,
     PgtestC.Start_copy E t w = (Ok pg, w1) ->
     fs w (PgtestC.pgtestdata E ++ "/" ++ r) = Some n ->
     fs w1 (PgtestC.dir pg ++ "/" ++ r) = Some n).
Proof.
  split; intros pg w1.
  - unfold PgtestA.Start_copy.
    run_calls; intros [= <- <-] Hn; simpl.
    all: rewrite (drop_dot_app _ (pgtestdataA_nonempty E)) in *.
    all: now apply copy_into_child.
  - unfold PgtestC.Start_copy.
    run_calls; intros [= <- <-] Hn; simpl.
    all: rewrite (drop_dot_app _ (pgtestdataC_nonempty E)) in *.
    all: now apply copy_into_child.
Qed.

Lemma X4_witness :
  let w0 := snd (PgtestC.Start_once env0 1 world0) in
  fs (snd (PgtestC.Start_copy env0 1 w0)) ("/tmp/pgtest3" ++ "/" ++ "PG_VERSION")
  = Some (File ("9.3" ++ nl) true true).
Proof.
  intros w0.
  pose proof (surjective_pairing (PgtestC.Start_copy env0 1 w0)) as H.
  assert (Hf : fst (PgtestC.Start_copy env0 1 w0)
               = Ok {| PgtestC.URL := ""; PgtestC.t := 1; PgtestC.dir := "/tmp/pgtest3";
                       PgtestC.cmd := None |})
    by (vm_compute; reflexivity).
  rewrite Hf in H.
  refine (proj2 (X4_copy_holds_every_template_entry env0 1 w0 "PG_VERSION" _) _ _ H _).
  vm_compute. reflexivity.
Defined.

(** ** The overrides of part_000 *)

Lemma bytes_Contains_spec (b sub : string) :
  bytes_Contains b sub = true <-> exists pre post, b = pre ++ sub ++ post.
Proof.
  split.
  - induction b as [|c b IH]; rewrite bytes_Contains_eq.
    + destruct (prefix sub "") eqn:Hp; [|discriminate]. intros _.
      destruct (prefix_app _ _ Hp) as [r Hr]. exists "", r. exact Hr.
    + destruct (prefix sub (String c b)) eqn:Hp.
      * intros _. destruct (prefix_app _ _ Hp) as [r Hr]. exists "", r. exact Hr.
      * intros H. destruct (IH H) as (pre & post & ->).
        exists (String c pre), post. reflexivity.
  - intros (pre & post & ->). induction pre as [|c pre IH].
    + change ("" ++ sub ++ post) with (sub ++ post).
      rewrite bytes_Contains_eq, prefix_app_r. reflexivity.
    + change (String c pre ++ sub ++ post) with (String c (pre ++ sub ++ post)).
      rewrite bytes_Contains_eq, IH.
      destruct (prefix sub _); reflexivity.
Qed.

(** X5: [contains] reports true exactly when the read does not fail, the
    named file is a readable file and the substring occurs in its contents.
    It always returns, with one [ioutil.ReadFile] as its only call, and it
    changes no file and reports no failure. *)
Theorem X5_contains_finds_substring (E : Env) (substr name : string) (w : World) :
  let r := PgtestC.contains E substr name w in
  (exists b, fst r = Ok b) /\
  fs (snd r) = fs w /\ failed (snd r) = failed w /\
  log (snd r) = EvReadFile name :: log w /\
  (fst r = Ok true <->
   flt E (length (log w)) = false /\
   exists pre post writable,
     fs w name = Some (File (pre ++ substr ++ post) true writable)).
Proof.
  unfold PgtestC.contains. run_calls.
  all: (split; [eauto|]; split; [reflexivity|]; split; [reflexivity|];
        split; [reflexivity|]).
  all: split.
  all: try (intros H; discriminate H).
  all: try (intros [H _]; discriminate H).
  all: try (intros (_ & pre & post & wr & H); discriminate H).
  all: try (intros H; injection H as H; apply bytes_Contains_spec in H;
            destruct H as (pre & post & ->); split; [reflexivity | eauto]).
  all: intros (_ & pre & post & wr & Hx); injection Hx as -> _; f_equal;
       apply bytes_Contains_spec; eauto.
Qed.

Lemma X5_witness :
  let w := set_fs (upd "/tmp/postgresql.conf"
                       (File "#unix_socket_directory = ''" true true) (fs world0)) world0 in
  fst (PgtestC.contains env0 "unix_socket_directory" "/tmp/postgresql.conf" w) = Ok true.
Proof.
  intros w.
  refine (proj2 (proj2 (proj2 (proj2 (proj2
            (X5_contains_finds_substring env0 "unix_socket_directory"
               "/tmp/postgresql.conf" w))))) _).
  split; [reflexivity|]. exists "#", " = ''", true. reflexivity.
Defined.

(** X6: when the copied postgresql.conf can be opened and read and the
    append and the close do not fail, the overrides block of [Start]
    appends to it, after what it held, the rendered template with the
    directory of the instance as socket directory; the key is the singular
    unix_socket_directory exactly when the file, as copied, mentions
    unix_socket_directory, and the plural otherwise.  No other path
    changes. *)
Theorem X6_overrides_key_follows_the_copied_conf
  (E : Env) (t : T) (pg : PgtestC.PG) (w : World) (old : string) :
  let path := filepath_Join (PgtestC.dir pg) "postgresql.conf" in
  let n := length (log w) in
  let r := PgtestC.Start_conf E t pg w in
  fs w path = Some (File old true true) ->
  flt E n = false -> flt E (1 + n) = false -> flt E (2 + n) = false ->
  flt E (3 + n) = false ->
  fst r = Ok tt /\
  fs (snd r) path
    = Some (File (old ++ PgtestC.conf (PgtestC.dir pg)
                           (negb (bytes_Contains old "unix_socket_directory")))
                 true true) /\
  (forall q, q <> path -> fs (snd r) q = fs w q) /\
  log (snd r)
    = EvClose path
        :: EvWrite path (PgtestC.conf (PgtestC.dir pg)
                           (negb (bytes_Contains old "unix_socket_directory")))
        :: EvReadFile path :: EvOpenFile path :: log w.
Proof.
  intros path n r Hfs H0 H1 H2 H3. subst path n r. simpl in H1, H2, H3.
  unfold PgtestC.Start_conf, PgtestC.contains, PgtestC.conf_Execute.
  run_calls.
  all: try congruence.
  all: repeat match goal with
              | H : Some _ = Some _ |- _ => injection H as H; try subst
              end.
  all: unfold upd; rewrite String.eqb_refl; repeat split.
  all: intros q Hq; apply String.eqb_neq in Hq; now rewrite Hq.
Qed.

Lemma X6_witness :
  let w := {| fs := upd "/tmp/pgtest3/postgresql.conf"
                        (File "#unix_socket_directory = ''" true true) (fs world0);
              procs := []; now := 0; log := []; failed := [];
              once := true; initdbOk := true; postgres := "postgres" |} in
  fs (snd (PgtestC.Start_conf env0 1 pgC0 w)) "/tmp/pgtest3/postgresql.conf"
  = Some (File ("#unix_socket_directory = ''" ++ PgtestC.conf "/tmp/pgtest3" false)
               true true).
Proof.
  intros w.
  refine (proj1 (proj2 (X6_overrides_key_follows_the_copied_conf
                          env0 1 pgC0 w "#unix_socket_directory = ''" _ _ _ _ _)));
    reflexivity.
Defined.

(** ** The template, found or made *)

Lemma maybeInitdb_existsA (E : Env) (t : T) (w : World) :
  fs w (PgtestA.pgtestdata E) <> None ->
  log (snd (PgtestA.maybeInitdb E t w)) = EvMkdir (PgtestA.pgtestdata E) :: log w /\
  (flt E (length (log w)) = false -> fst (PgtestA.maybeInitdb E t w) = Ok tt).
Proof.
  intros H. unfold PgtestA.maybeInitdb. run_calls; try congruence; split; auto.
  all: discriminate.
Qed.

Lemma maybeInitdb_existsC (E : Env) (t : T) (w : World) :
  fs w (PgtestC.pgtestdata E) <> None ->
  tally is_initdb (log (snd (PgtestC.maybeInitdb E t w))) = tally is_initdb (log w) /\
  tally is_RemoveAll (log (snd (PgtestC.maybeInitdb E t w)))
    = tally is_RemoveAll (log w) /\
  (flt E (length (log w)) = false -> execs E "pg_config" = true ->
   flt E (S (length (log w))) = false ->
   fst (PgtestC.maybeInitdb E t w) = Ok tt /\
   initdbOk (snd (PgtestC.maybeInitdb E t w)) = true).
Proof.
  intros H. unfold PgtestC.maybeInitdb. run_calls; try congruence.
  all: repeat split; auto; try discriminate; try (intros; congruence).
Qed.

(** X7: [Start] in a process that finds the template directory in place
    never runs initdb, whatever its outcome and whatever fails; in
    src/pgtest.go it appends nothing to a configuration file either.  When
    the calls of the template block do not fail, that block succeeds: the
    directory is taken for a finished template as it is. *)
Theorem X7_existing_template_is_reused (E : Env) (t : T) (w : World) :
  (fs w (PgtestA.pgtestdata E) <> None ->
   tally is_initdb (log (snd (PgtestA.Start E t w))) = tally is_initdb (log w) /\
   tally is_Write (log (snd (PgtestA.Start E t w))) = tally is_Write (log w) /\
   (once w = false -> flt E (length (log w)) = false ->
    PgtestA.Start_once E t w = (Ok tt, set_once true (tick (EvMkdir (PgtestA.pgtestdata E)) w)))) /\
  (fs w (PgtestC.pgtestdata E) <> None ->
   tally is_initdb (log (snd (PgtestC.Start E t w))) = tally is_initdb (log w) /\
   (once w = false -> flt E (length (log w)) = false -> execs E "pg_config" = true ->
    flt E (S (length (log w))) = false ->
    fst (PgtestC.Start_once E t w) = Ok tt /\
    initdbOk (snd (PgtestC.Start_once E t w)) = true)).
Proof.
  split; intros Hex.
  - assert (Hk : forall K, K = is_initdb \/ K = is_Write ->
               tally K (log (snd (PgtestA.Start E t w))) = tally K (log w)).
    { intros K HK.
      assert (HkA : kindA K) by (destruct HK; [right; left | right; right]; assumption).
      rewrite Start_unfoldA. destruct (once w) eqn:Hw.
      - rewrite (Start_once_doneA E t w Hw).
        apply (step_tally K nowhere).
        apply (Start_rest_stepsA K nowhere E (kindA_body K HkA)
                 (fun u => off_nowhere _) eq_refl t w).
      - rewrite (Start_once_firstA E t w Hw).
        destruct (maybeInitdb_existsA E t w Hex) as [Hl _].
        assert (Hb : tally K (log (snd (PgtestA.maybeInitdb E t w))) = tally K (log w))
          by (rewrite Hl; destruct HK as [-> | ->]; reflexivity).
        destruct (PgtestA.maybeInitdb E t w) as [[[]| |] w1]; simpl in *; try exact Hb.
        rewrite <- Hb.
        apply (step_tally K nowhere _ _
                 (proj1 (Start_rest_stepsA K nowhere E (kindA_body K HkA)
                           (fun u => off_nowhere _) eq_refl t (set_once true w1)))). }
    split; [apply Hk; now left|]. split; [apply Hk; now right|].
    intros Hw Hf. rewrite (Start_once_firstA E t w Hw).
    unfold PgtestA.maybeInitdb. run_calls; congruence.
  - split.
    + assert (HkC : kindC is_initdb) by (right; right; reflexivity).
      rewrite Start_unfoldC. destruct (once w) eqn:Hw.
      * rewrite (Start_once_doneC E t w Hw).
        destruct (initdbOk w); [|reflexivity].
        apply (step_tally is_initdb nowhere).
        apply (Start_rest_stepsC is_initdb nowhere E (kindC_body _ HkC)
                 (fun u => off_nowhere _) t w).
      * rewrite (Start_once_firstC E t w Hw).
        destruct (maybeInitdb_existsC E t w Hex) as (Hb & _ & _).
        destruct (PgtestC.maybeInitdb E t w) as [[[]| |] w1]; simpl in *; try exact Hb.
        destruct (initdbOk w1); simpl; [|exact Hb].
        rewrite <- Hb.
        apply (step_tally is_initdb nowhere _ _
                 (proj1 (Start_rest_stepsC is_initdb nowhere E (kindC_body _ HkC)
                           (fun u => off_nowhere _) t (set_once true w1)))).
    + intros Hw H0 Hx H1. rewrite (Start_once_firstC E t w Hw).
      destruct (maybeInitdb_existsC E t w Hex) as (_ & _ & Hok).
      destruct (Hok H0 Hx H1) as [Hr Hi].
      destruct (PgtestC.maybeInitdb E t w) as [[[]| |] w1]; simpl in *; try discriminate.
      cbn [set_once initdbOk]. rewrite Hi. split; [reflexivity | exact Hi].
Qed.

Lemma X7_witness :
  let w := restart (snd (PgtestC.Start env0 1 world0)) in
  tally is_initdb (log (snd (PgtestC.Start env0 2 w))) = 1.
Proof.
  intros w.
  refine (proj1 (proj2 (X7_existing_template_is_reused env0 2 w) _)).
  vm_compute. discriminate.
Defined.

(** X8: the template a successful first initialization leaves.  In
    src/pgtest.go the template directory holds what initdb wrote, except
    that postgresql.conf has the package's overrides appended after what
    initdb put there.  In part_000 it holds exactly what initdb wrote,
    [initdbOk] is set and [postgres] is the engine beside pg_config. *)
Theorem X8_template_after_first_initialization (E : Env) (t : T) (w : World) :
  (forall w',
     PgtestA.maybeInitdb E t w = (Ok tt, w') ->
     fs w (PgtestA.pgtestdata E) = None ->
     let d := PgtestA.pgtestdata E in
     let path := filepath_Join d "postgresql.conf" in
     let initdb_fs := populate d (initdb_files E) (upd d Dir (fs w)) in
     (exists old r,
        initdb_fs path = Some (File old r true) /\
        fs w' path = Some (File (old ++ PgtestA.conf) r true)) /\
     (forall q, q <> path -> fs w' q = initdb_fs q)) /\
  (forall w',
     PgtestC.maybeInitdb E t w = (Ok tt, w') ->
     fs w (PgtestC.pgtestdata E) = None ->
     let d := PgtestC.pgtestdata E in
     fs w' = populate d (initdb_files E) (upd d Dir (fs w)) /\
     initdbOk w' = true /\
     postgres w' = filepath_Join (bytes_TrimSpace (pg_config_out E)) "postgres").
Proof.
  split; intros w'.
  - unfold PgtestA.maybeInitdb. run_calls; intros [= <-] Hn; try congruence;
      cbv zeta; simpl.
    all: repeat match goal with
                | H : Some _ = Some _ |- _ => injection H as H; try subst
                end.
    all: split; [eexists; eexists; split; [reflexivity|];
                 unfold upd at 1; now rewrite String.eqb_refl|].
    all: intros q Hq; apply String.eqb_neq in Hq; unfold upd at 1; now rewrite Hq.
  - unfold PgtestC.maybeInitdb. run_calls; intros [= <-] Hn; try congruence; simpl.
    all: repeat split.
Qed.

Lemma X8_witness :
  postgres (snd (PgtestC.maybeInitdb env0 1 world0)) = "/usr/lib/postgresql/bin/postgres".
Proof.
  pose proof (surjective_pairing (PgtestC.maybeInitdb env0 1 world0)) as H.
  assert (Hf : fst (PgtestC.maybeInitdb env0 1 world0) = Ok tt)
    by (vm_compute; reflexivity).
  rewrite Hf in H.
  refine (proj2 (proj2 (proj2 (X8_template_after_first_initialization env0 1 world0)
                              _ H _))).
  vm_compute. reflexivity.
Defined.

(** ** The engines *)

Lemma quiet_refl (w : World) : quiet w w.
Proof. repeat split. Qed.

Lemma quiet_trans (w1 w2 w3 : World) : quiet w1 w2 -> quiet w2 w3 -> quiet w1 w3.
Proof.
  intros (a & b & c) (a' & b' & c'). repeat split; congruence.
Qed.

Lemma quiet_maybeInitdbA (E : Env) (t : T) (w : World) :
  quiet w (snd (PgtestA.maybeInitdb E t w)).
Proof. unfold PgtestA.maybeInitdb. quiet_block. Qed.

Lemma quiet_maybeInitdbC (E : Env) (t : T) (w : World) :
  quiet w (snd (PgtestC.maybeInitdb E t w)).
Proof. unfold PgtestC.maybeInitdb. quiet_block. Qed.

Lemma quiet_Start_onceA (E : Env) (t : T) (w : World) :
  quiet w (snd (PgtestA.Start_once E t w)).
Proof.
  destruct (once w) eqn:Hw.
  - rewrite (Start_once_doneA E t w Hw). apply quiet_refl.
  - rewrite (Start_once_firstA E t w Hw). apply (quiet_maybeInitdbA E t w).
Qed.

Lemma quiet_Start_onceC (E : Env) (t : T) (w : World) :
  quiet w (snd (PgtestC.Start_once E t w)).
Proof.
  destruct (once w) eqn:Hw.
  - rewrite (Start_once_doneC E t w Hw). destruct (initdbOk w); repeat split.
  - rewrite (Start_once_firstC E t w Hw).
    pose proof (quiet_maybeInitdbC E t w) as H.
    destruct (PgtestC.maybeInitdb E t w) as [[[]| |] w1]; cbn [fst snd] in *;
      try exact H.
    destruct (initdbOk (set_once true w1)); exact H.
Qed.

Lemma quiet_Start_copyA (E : Env) (t : T) (w : World) :
  quiet w (snd (PgtestA.Start_copy E t w)).
Proof. unfold PgtestA.Start_copy. quiet_block. Qed.

Lemma quiet_Start_copyC (E : Env) (t : T) (w : World) :
  quiet w (snd (PgtestC.Start_copy E t w)).
Proof. unfold PgtestC.Start_copy. quiet_block. Qed.

Lemma quiet_Start_confC (E : Env) (t : T) (pg : PgtestC.PG) (w : World) :
  quiet w (snd (PgtestC.Start_conf E t pg w)).
Proof.
  unfold PgtestC.Start_conf, PgtestC.contains, PgtestC.conf_Execute. quiet_block.
Qed.

Lemma quiet_miss (E : Env) (sock : string) (w : World) : quiet w (miss E sock w).
Proof.
  unfold miss, time_Sleep, os_Stat, faulty, quiet, tally.
  split; [|split].
  1-2: destruct (flt E _); [|destruct (fs w sock)]; reflexivity.
  cbn [snd]. rewrite settle_pids.
  destruct (flt E _); [|destruct (fs w sock)]; reflexivity.
Qed.

Lemma quiet_Start_waitA (E : Env) (t : T) (pg : PgtestA.PG) (n : nat) (w : World) :
  quiet w (snd (PgtestA.Start_wait E t pg n w)).
Proof.
  revert w. induction n as [|n IH]; intros w.
  - repeat split.
  - destruct (stat_ok E PgtestA.sock w) eqn:Hs.
    + rewrite (wait_hitA E t pg n w Hs). repeat split.
    + rewrite (wait_missA E t pg n w Hs).
      eapply quiet_trans; [apply quiet_miss | apply IH].
Qed.

Lemma quiet_Start_waitC (E : Env) (t : T) (pg : PgtestC.PG) (sock : string) (n : nat)
    (w : World) :
  quiet w (snd (PgtestC.Start_wait E t pg sock n w)).
Proof.
  revert w. induction n as [|n IH]; intros w.
  - repeat split.
  - destruct (stat_ok E sock w) eqn:Hs.
    + rewrite (wait_hitC E t pg sock n w Hs). repeat split.
    + rewrite (wait_missC E t pg sock n w Hs).
      eapply quiet_trans; [apply quiet_miss | apply IH].
Qed.

(** The launch: one more launch among the calls, and the new engine in
    front of the others when the launch succeeds. *)
Lemma Start_launch_engineA (E : Env) (t : T) (pg : PgtestA.PG) (w : World) :
  let r := PgtestA.Start_launch E t pg w in
  tally is_Start (log (snd r)) = S (tally is_Start (log w)) /\
  tally is_Signal (log (snd r)) = tally is_Signal (log w) /\
  map pid (procs (snd r))
  = ((if returned (fst r) then [length (procs w)] else []) ++ map pid (procs w))%list.
Proof.
  unfold PgtestA.Start_launch, tally. run_calls; cbn [snd fst returned];
    rewrite ?settle_pids; simpl; repeat split.
Qed.

Lemma Start_launch_engineC (E : Env) (t : T) (pg : PgtestC.PG) (w : World) :
  let r := PgtestC.Start_launch E t pg w in
  tally is_Start (log (snd r)) = S (tally is_Start (log w)) /\
  tally is_Signal (log (snd r)) = tally is_Signal (log w) /\
  map pid (procs (snd r))
  = ((if returned (fst r) then [length (procs w)] else []) ++ map pid (procs w))%list.
Proof.
  unfold PgtestC.Start_launch, tally. run_calls; cbn [snd fst returned];
    rewrite ?settle_pids; simpl; repeat split.
Qed.

(** The launches, the interrupts and the engines over a whole [Start]. *)
Lemma Start_enginesA (E : Env) (t : T) (w : World) :
  let w' := snd (PgtestA.Start E t w) in
  tally is_Start (log w')
  = tally is_Start (log w)
    + (if returned (fst (PgtestA.Start_provisioned E t w)) then 1 else 0) /\
  tally is_Signal (log w') = tally is_Signal (log w) /\
  map pid (procs w')
  = ((if returned (fst (PgtestA.Start_launched E t w)) then [length (procs w)] else [])
     ++ map pid (procs w))%list.
Proof.
  cbv zeta.
  pose proof (quiet_Start_onceA E t w) as H1.
  unfold PgtestA.Start, PgtestA.Start_provisioned, PgtestA.Start_launched, bind.
  destruct (PgtestA.Start_once E t w) as [[[]| |] w1]; cbn [snd] in H1;
    [|quiet_end..].
  pose proof (quiet_Start_copyA E t w1) as H2.
  destruct (PgtestA.Start_copy E t w1) as [[pg0| |] w2]; cbn [snd] in H2;
    [|quiet_end..].
  pose proof (Start_launch_engineA E t pg0 w2) as (H3 & H3' & H3'').
  destruct (PgtestA.Start_launch E t pg0 w2) as [[pg1| |] w3];
    cbn [fst snd returned app] in H3, H3', H3''; [|quiet_end..].
  pose proof (quiet_Start_waitA E t pg1 20 w3) as H4.
  quiet_end.
Qed.

Lemma Start_enginesC (E : Env) (t : T) (w : World) :
  let w' := snd (PgtestC.Start E t w) in
  tally is_Start (log w')
  = tally is_Start (log w)
    + (if returned (fst (PgtestC.Start_provisioned E t w)) then 1 else 0) /\
  tally is_Signal (log w') = tally is_Signal (log w) /\
  map pid (procs w')
  = ((if returned (fst (PgtestC.Start_launched E t w)) then [length (procs w)] else [])
     ++ map pid (procs w))%list.
Proof.
  cbv zeta.
  pose proof (quiet_Start_onceC E t w) as H1.
  unfold PgtestC.Start, PgtestC.Start_provisioned, PgtestC.Start_launched, bind, ret.
  destruct (PgtestC.Start_once E t w) as [[[]| |] w1]; cbn [snd] in H1;
    [|quiet_end..].
  pose proof (quiet_Start_copyC E t w1) as H2.
  destruct (PgtestC.Start_copy E t w1) as [[pg0| |] w2]; cbn [snd] in H2;
    [|quiet_end..].
  pose proof (quiet_Start_confC E t pg0 w2) as H2'.
  destruct (PgtestC.Start_conf E t pg0 w2) as [[[]| |] w2']; cbn [snd] in H2';
    [|quiet_end..].
  pose proof (Start_launch_engineC E t pg0 w2') as (H3 & H3' & H3'').
  destruct (PgtestC.Start_launch E t pg0 w2') as [[pg1| |] w3];
    cbn [fst snd returned app] in H3, H3', H3''; [|quiet_end..].
  pose proof (quiet_Start_waitC E t pg1
                (filepath_Join (PgtestC.dir pg1) ".s.PGSQL.5432") 20 w3) as H4.
  quiet_end.
Qed.

(** X11: [Start] launches an engine exactly when its instance directory was
    provisioned (the template block and the copy, and in part_000 the
    overrides, all succeeded), and then launches one; it never sends a
    signal.  The engines of the process are those it found, with the new
    one in front of them when the launch succeeded: a [Start] that fails
    later, in the wait, leaves its engine among them.  Both revisions. *)
Theorem X11_Start_launches_one_engine_once_provisioned (E : Env) (t : T) (w : World) :
  (let w' := snd (PgtestA.Start E t w) in
   tally is_Start (log w')
   = tally is_Start (log w)
     + (if returned (fst (PgtestA.Start_provisioned E t w)) then 1 else 0) /\
   tally is_Signal (log w') = tally is_Signal (log w) /\
   map pid (procs w')
   = ((if returned (fst (PgtestA.Start_launched E t w)) then [length (procs w)] else [])
      ++ map pid (procs w))%list) /\
  (let w' := snd (PgtestC.Start E t w) in
   tally is_Start (log w')
   = tally is_Start (log w)
     + (if returned (fst (PgtestC.Start_provisioned E t w)) then 1 else 0) /\
   tally is_Signal (log w') = tally is_Signal (log w) /\
   map pid (procs w')
   = ((if returned (fst (PgtestC.Start_launched E t w)) then [length (procs w)] else [])
      ++ map pid (procs w))%list).
Proof. split; [apply Start_enginesA | apply Start_enginesC]. Qed.

(** ** What [Start] keeps *)

Lemma kept_refl (w : World) : kept w w.
Proof. intros q H. exact H. Qed.

Lemma kept_trans (w1 w2 w3 : World) : kept w1 w2 -> kept w2 w3 -> kept w1 w3.
Proof. intros H1 H2 q H. apply H2, H1, H. Qed.

Lemma upd_keeps (p : string) (n : node) (f : FS) (q : string) :
  f q <> None -> upd p n f q <> None.
Proof. intros H. unfold upd. destruct (q =? p); [congruence | exact H]. Qed.

Lemma copy_into_keeps (src dst : string) (f : FS) (q : string) :
  f q <> None -> copy_into src dst f q <> None.
Proof.
  intros H. unfold copy_into. destruct (strip_prefix _ q) as [r|]; [|exact H].
  destruct (f (src ++ "/" ++ r)); [congruence | exact H].
Qed.

Lemma populate_keeps (d : string) (files : list (string * string)) (f : FS) (q : string) :
  f q <> None -> populate d files f q <> None.
Proof.
  intros H. induction files as [|[name data] rest IH]; [exact H|].
  cbn [populate]. now apply upd_keeps.
Qed.

Lemma settle_keeps (w : World) (q : string) : fs w q <> None -> fs (settle w) q <> None.
Proof.
  intros H. unfold settle. cbn [fs set_procs set_fs].
  induction (procs w) as [|pr ps IH]; [exact H|].
  cbn [fold_right]. destruct (due _ pr); [now apply upd_keeps | exact IH].
Qed.

Lemma kept_maybeInitdbA (E : Env) (t : T) (w : World) :
  kept w (snd (PgtestA.maybeInitdb E t w)).
Proof. unfold PgtestA.maybeInitdb. run_calls; keep_by settle_keeps upd_keeps copy_into_keeps populate_keeps. Qed.

Lemma kept_Start_onceA (E : Env) (t : T) (w : World) :
  kept w (snd (PgtestA.Start_once E t w)).
Proof.
  destruct (once w) eqn:Hw.
  - rewrite (Start_once_doneA E t w Hw). apply kept_refl.
  - rewrite (Start_once_firstA E t w Hw). apply (kept_maybeInitdbA E t w).
Qed.

Lemma kept_Start_copyA (E : Env) (t : T) (w : World) :
  kept w (snd (PgtestA.Start_copy E t w)).
Proof. unfold PgtestA.Start_copy. run_calls; keep_by settle_keeps upd_keeps copy_into_keeps populate_keeps. Qed.

Lemma kept_Start_copyC (E : Env) (t : T) (w : World) :
  kept w (snd (PgtestC.Start_copy E t w)).
Proof. unfold PgtestC.Start_copy. run_calls; keep_by settle_keeps upd_keeps copy_into_keeps populate_keeps. Qed.

Lemma kept_Start_confC (E : Env) (t : T) (pg : PgtestC.PG) (w : World) :
  kept w (snd (PgtestC.Start_conf E t pg w)).
Proof.
  unfold PgtestC.Start_conf, PgtestC.contains, PgtestC.conf_Execute. run_calls; keep_by settle_keeps upd_keeps copy_into_keeps populate_keeps.
Qed.

Lemma kept_Start_launchA (E : Env) (t : T) (pg : PgtestA.PG) (w : World) :
  kept w (snd (PgtestA.Start_launch E t pg w)).
Proof. unfold PgtestA.Start_launch. run_calls; keep_by settle_keeps upd_keeps copy_into_keeps populate_keeps. Qed.

Lemma kept_Start_launchC (E : Env) (t : T) (pg : PgtestC.PG) (w : World) :
  kept w (snd (PgtestC.Start_launch E t pg w)).
Proof. unfold PgtestC.Start_launch. run_calls; keep_by settle_keeps upd_keeps copy_into_keeps populate_keeps. Qed.

Lemma kept_miss (E : Env) (sock : string) (w : World) : kept w (miss E sock w).
Proof.
  unfold miss, time_Sleep, os_Stat, faulty.
  destruct (flt E _); [|destruct (fs w sock)];
    keep_by settle_keeps upd_keeps copy_into_keeps populate_keeps.
Qed.

Lemma kept_Start_waitA (E : Env) (t : T) (pg : PgtestA.PG) (n : nat) (w : World) :
  kept w (snd (PgtestA.Start_wait E t pg n w)).
Proof.
  revert w. induction n as [|n IH]; intros w.
  - intros q Hq. exact Hq.
  - destruct (stat_ok E PgtestA.sock w) eqn:Hs.
    + rewrite (wait_hitA E t pg n w Hs). intros q Hq. exact Hq.
    + rewrite (wait_missA E t pg n w Hs).
      eapply kept_trans; [apply kept_miss | apply IH].
Qed.

Lemma kept_Start_waitC (E : Env) (t : T) (pg : PgtestC.PG) (sock : string) (n : nat)
    (w : World) :
  kept w (snd (PgtestC.Start_wait E t pg sock n w)).
Proof.
  revert w. induction n as [|n IH]; intros w.
  - intros q Hq. exact Hq.
  - destruct (stat_ok E sock w) eqn:Hs.
    + rewrite (wait_hitC E t pg sock n w Hs). intros q Hq. exact Hq.
    + rewrite (wait_missC E t pg sock n w Hs).
      eapply kept_trans; [apply kept_miss | apply IH].
Qed.

Lemma kept_Start_restA (E : Env) (t : T) (w : World) :
  kept w (snd (PgtestA.Start_rest E t w)).
Proof.
  unfold PgtestA.Start_rest, bind.
  pose proof (kept_Start_copyA E t w) as H2.
  destruct (PgtestA.Start_copy E t w) as [[pg0| |] w2]; cbn [snd] in *; try exact H2.
  pose proof (kept_Start_launchA E t pg0 w2) as H3.
  destruct (PgtestA.Start_launch E t pg0 w2) as [[pg1| |] w3]; cbn [snd] in *;
    try (eapply kept_trans; eassumption).
  eapply kept_trans; [exact H2|]. eapply kept_trans; [exact H3|].
  apply kept_Start_waitA.
Qed.

Lemma kept_Start_restC (E : Env) (t : T) (w : World) :
  kept w (snd (PgtestC.Start_rest E t w)).
Proof.
  unfold PgtestC.Start_rest, bind.
  pose proof (kept_Start_copyC E t w) as H2.
  destruct (PgtestC.Start_copy E t w) as [[pg0| |] w2]; cbn [snd] in *; try exact H2.
  pose proof (kept_Start_confC E t pg0 w2) as H2'.
  destruct (PgtestC.Start_conf E t pg0 w2) as [[[]| |] w2']; cbn [snd] in *;
    try (eapply kept_trans; eassumption).
  pose proof (kept_Start_launchC E t pg0 w2') as H3.
  destruct (PgtestC.Start_launch E t pg0 w2') as [[pg1| |] w3]; cbn [snd] in *;
    try (eapply kept_trans; [exact H2|]; eapply kept_trans; eassumption).
  eapply kept_trans; [exact H2|]. eapply kept_trans; [exact H2'|].
  eapply kept_trans; [exact H3|]. apply kept_Start_waitC.
Qed.

(** X10: [Start] removes nothing that it found.  In src/pgtest.go every
    path that exists when [Start] is called exists when it ends, however it
    ends; in part_000, whose [maybeInitdb] removes the template after a
    failed initdb, every path outside the template directory does. *)
Theorem X10_Start_removes_nothing (E : Env) (t : T) (w : World) (q : string) :
  (fs w q <> None -> fs (snd (PgtestA.Start E t w)) q <> None) /\
  (fs w q <> None -> under (PgtestC.pgtestdata E) q = false ->
   fs (snd (PgtestC.Start E t w)) q <> None).
Proof.
  split.
  - revert q. change (kept w (snd (PgtestA.Start E t w))).
    rewrite Start_unfoldA.
    pose proof (kept_Start_onceA E t w) as H1.
    destruct (PgtestA.Start_once E t w) as [[[]| |] w1]; cbn [snd] in *; try exact H1.
    eapply kept_trans; [exact H1 | apply kept_Start_restA].
  - intros Hq Hu. rewrite Start_unfoldC.
    pose proof (Start_once_outsideC E t w q Hu) as H1.
    destruct (PgtestC.Start_once E t w) as [[[]| |] w1]; cbn [snd] in *;
      try (rewrite H1; exact Hq).
    apply kept_Start_restC. rewrite H1. exact Hq.
Qed.

Lemma X10_witness :
  fs (snd (PgtestA.Start env0 1 world0)) "/tmp" <> None /\
  fs (snd (PgtestC.Start env0 1 world0)) "/tmp" <> None.
Proof.
  split.
  - refine (proj1 (X10_Start_removes_nothing env0 1 world0 "/tmp") _).
    vm_compute. discriminate.
  - refine (proj2 (X10_Start_removes_nothing env0 1 world0 "/tmp") _ _).
    + vm_compute. discriminate.
    + vm_compute. reflexivity.
Defined.

Lemma kept_Start_launchedA (E : Env) (t : T) (w : World) :
  kept w (snd (PgtestA.Start_launched E t w)).
Proof.
  unfold PgtestA.Start_launched, bind.
  pose proof (kept_Start_onceA E t w) as H1.
  destruct (PgtestA.Start_once E t w) as [[[]| |] w1]; cbn [snd] in *; try exact H1.
  pose proof (kept_Start_copyA E t w1) as H2.
  destruct (PgtestA.Start_copy E t w1) as [[pg0| |] w2]; cbn [snd] in *;
    try (eapply kept_trans; eassumption).
  eapply kept_trans; [exact H1|]. eapply kept_trans; [exact H2|].
  apply kept_Start_launchA.
Qed.

(** X12: in src/pgtest.go the wait polls the one socket path of the
    package, which is not inside the instance directory.  When that path
    exists as [Start] is called (the socket file of an engine launched
    earlier, say) and the check does not fail, [Start] returns from its
    first check, without sleeping, whether the engine it has just launched
    will ever listen or not. *)
Theorem X12_socket_found_in_place_ends_the_wait
  (E : Env) (t : T) (w w1 : World) (pg : PgtestA.PG) :
  fs w PgtestA.sock <> None ->
  PgtestA.Start_launched E t w = (Ok pg, w1) ->
  flt E (length (log w1)) = false ->
  PgtestA.Start E t w = (Ok pg, tick (EvStat PgtestA.sock) w1).
Proof.
  intros Hs Hl Hf.
  rewrite (Start_eq_waitA E t w pg w1 Hl).
  apply wait_hitA.
  pose proof (kept_Start_launchedA E t w PgtestA.sock Hs) as Hk.
  rewrite Hl in Hk. cbn [snd] in Hk.
  unfold stat_ok, os_Stat, faulty. rewrite Hf.
  destruct (fs w1 PgtestA.sock); [reflexivity | now elim Hk].
Qed.

Lemma X12_witness :
  let w := set_fs (upd PgtestA.sock Sock (fs world0)) world0 in
  PgtestA.Start env_deaf 1 w
  = (Ok pgA0, tick (EvStat PgtestA.sock) (snd (PgtestA.Start_launched env_deaf 1 w))).
Proof.
  intros w.
  pose proof (surjective_pairing (PgtestA.Start_launched env_deaf 1 w)) as H.
  assert (Hf : fst (PgtestA.Start_launched env_deaf 1 w) = Ok pgA0)
    by (vm_compute; reflexivity).
  rewrite Hf in H.
  refine (X12_socket_found_in_place_ends_the_wait env_deaf 1 w _ pgA0 _ H _).
  - vm_compute. discriminate.
  - reflexivity.
Defined.

(** ** The programs of part_000 *)

Lemma postgres_Start_copyC (E : Env) (t : T) (w : World) :
  postgres (snd (PgtestC.Start_copy E t w)) = postgres w.
Proof. unfold PgtestC.Start_copy. run_calls; reflexivity. Qed.

Lemma postgres_Start_confC (E : Env) (t : T) (pg : PgtestC.PG) (w : World) :
  postgres (snd (PgtestC.Start_conf E t pg w)) = postgres w.
Proof.
  unfold PgtestC.Start_conf, PgtestC.contains, PgtestC.conf_Execute.
  run_calls; reflexivity.
Qed.

Lemma maybeInitdb_postgresC (E : Env) (t : T) (w : World) :
  fst (PgtestC.maybeInitdb E t w) = Ok tt ->
  postgres (snd (PgtestC.maybeInitdb E t w))
  = filepath_Join (bytes_TrimSpace (pg_config_out E)) "postgres".
Proof.
  unfold PgtestC.maybeInitdb. run_calls; intros H; try discriminate H; reflexivity.
Qed.

Lemma maybeInitdb_runsC (E : Env) (t : T) (w : World) (argv : list string) :
  In (EvRun argv) (log (snd (PgtestC.maybeInitdb E t w))) ->
  In (EvRun argv) (log w) \/
  argv = [filepath_Join (bytes_TrimSpace (pg_config_out E)) "initdb"; "-D";
          PgtestC.pgtestdata E].
Proof.
  unfold PgtestC.maybeInitdb. run_calls; simpl; intros H.
  all: repeat match goal with
              | H : _ \/ _ |- _ => destruct H as [H|H]
              end.
  all: try discriminate H.
  all: try (left; exact H).
  all: right; now injection H as <-.
Qed.

(** X9: part_000 takes its programs from the directory that pg_config
    --bindir prints, white space trimmed.  The only program [maybeInitdb]
    runs to completion is the initdb of that directory, on the template;
    the engine of a handle that [Start] returns is the postgres of that
    directory when this [Start] is the one that ran [maybeInitdb], and the
    value that [postgres] held otherwise.  When pg_config cannot be run,
    the first [Start] ends there, having touched no file. *)
Theorem X9_programs_come_from_pg_config (E : Env) (t : T) (w : World) :
  let bindir := bytes_TrimSpace (pg_config_out E) in
  (forall argv,
     In (EvRun argv) (log (snd (PgtestC.maybeInitdb E t w))) ->
     In (EvRun argv) (log w) \/
     argv = [filepath_Join bindir "initdb"; "-D"; PgtestC.pgtestdata E]) /\
  (forall pg,
     fst (PgtestC.Start E t w) = Ok pg ->
     exists p,
       PgtestC.cmd pg
       = Some {| Path := if once w then postgres w
                         else filepath_Join bindir "postgres";
                 Args := ["-D"; PgtestC.dir pg]; Process := Some p |}) /\
  (once w = false ->
   flt E (length (log w)) = true \/ execs E "pg_config" = false ->
   PgtestC.Start E t w
   = (Goexit,
      set_once true
        (set_failed ((t, [AStr "pg_config"; AErr EIO]) :: failed w)
           (tick (EvOutput ["pg_config"; "--bindir"]) w)))).
Proof.
  cbv zeta. split; [|split].
  - intros argv. apply maybeInitdb_runsC.
  - intros pg Hpg.
    destruct (Start_Ok_splitC E t w pg Hpg)
      as (w1 & pg0 & w2 & w3 & w4 & H1 & H2 & H3 & H4 & H5).
    destruct (Start_launch_handleC E t pg0 pg w3 w4 H4) as [Hh _].
    exists (length (procs w3)). rewrite Hh. cbn [PgtestC.cmd PgtestC.dir].
    do 2 f_equal.
    pose proof (postgres_Start_confC E t pg0 w2) as P3. rewrite H3 in P3.
    pose proof (postgres_Start_copyC E t w1) as P2. rewrite H2 in P2.
    cbn [snd] in P2, P3. rewrite P3, P2.
    destruct (once w) eqn:Hw.
    + rewrite (Start_once_doneC E t w Hw) in H1.
      destruct (initdbOk w); [|discriminate H1]. now injection H1 as <-.
    + rewrite (Start_once_firstC E t w Hw) in H1. cbv zeta in H1.
      pose proof (maybeInitdb_postgresC E t w) as P1.
      destruct (PgtestC.maybeInitdb E t w) as [[[]| |] w0]; cbn [fst snd] in *;
        try discriminate H1.
      destruct (initdbOk (set_once true w0)); [|discriminate H1].
      injection H1 as <-. cbn [postgres set_once]. now apply P1.
  - intros Hw Hbad. rewrite Start_unfoldC, (Start_once_firstC E t w Hw).
    unfold PgtestC.maybeInitdb, bind, Cmd_Output, faulty, exec_Command. cbn [Path Args].
    destruct Hbad as [-> | ->]; [|rewrite orb_true_r]; reflexivity.
Qed.

Lemma X9_witness :
  (exists p,
     PgtestC.cmd pgC0
     = Some {| Path := "/usr/lib/postgresql/bin/postgres";
               Args := ["-D"; "/tmp/pgtest3"]; Process := Some p |}) /\
  fst (PgtestC.Start (fault_at 0) 1 world0) = Goexit.
Proof.
  split.
  - refine (proj1 (proj2 (X9_programs_come_from_pg_config env0 1 world0)) pgC0 _).
    vm_compute. reflexivity.
  - rewrite (proj2 (proj2 (X9_programs_come_from_pg_config (fault_at 0) 1 world0))
                   eq_refl (or_introl eq_refl)).
    reflexivity.
Defined.

(** ** The test of the package *)

Lemma Start_Ok_handleA (E : Env) (t : T) (w : World) (pg : PgtestA.PG) :
  fst (PgtestA.Start E t w) = Ok pg ->
  PgtestA.t pg = t /\
  exists c p, PgtestA.cmd pg = Some c /\ Process c = Some p.
Proof.
  intros Hpg.
  destruct (Start_Ok_splitA E t w pg Hpg) as (w1 & pg0 & w2 & w3 & H1 & H2 & H3 & H4).
  destruct (Start_launch_handleA E t pg0 pg w2 w3 H3) as [Hh _].
  pose proof (Start_copy_handleA E t w1 w2 pg0 H2) as Ht.
  rewrite Hh. cbn [PgtestA.t PgtestA.cmd]. split; [exact Ht|]. do 2 eexists. split; reflexivity.
Qed.

Lemma Start_Ok_handleC (E : Env) (t : T) (w : World) (pg : PgtestC.PG) :
  fst (PgtestC.Start E t w) = Ok pg ->
  PgtestC.t pg = t /\
  exists c p, PgtestC.cmd pg = Some c /\ Process c = Some p.
Proof.
  intros Hpg.
  destruct (Start_Ok_splitC E t w pg Hpg)
    as (w1 & pg0 & w2 & w3 & w4 & H1 & H2 & H3 & H4 & H5).
  destruct (Start_launch_handleC E t pg0 pg w3 w4 H4) as [Hh _].
  pose proof (Start_copy_handleC E t w1 w2 pg0 H2) as Ht.
  rewrite Hh. cbn [PgtestC.t PgtestC.cmd]. split; [exact Ht|]. do 2 eexists. split; reflexivity.
Qed.

(** The body of [TestRun] changes nothing but the failures. *)
Lemma TestRun_body_eq (Q : Sql) (t : T) (url : string) (w : World) :
  TestRun_body Q t url w =
  match open_err Q "postgres" url with
  | Some e => (Goexit, set_failed ((t, [AStr "open"; AErr e]) :: failed w) w)
  | None =>
      match scan_int Q {| driverName := "postgres"; dataSourceName := url |}
                     "SELECT 1" w with
      | inl e => (Goexit, set_failed ((t, [AErr e]) :: failed w) w)
      | inr n =>
          if Z.eqb n 1 then (Ok tt, w)
          else (Goexit,
                set_failed ((t, [AStr "SELECT 1 = %d"; AStr (itoa n)]) :: failed w) w)
      end
  end.
Proof.
  unfold TestRun_body, sql_Open, QueryRow_Scan, bind, if_err, t_Fatal, ret.
  destruct (open_err Q "postgres" url); [reflexivity|].
  destruct (scan_int Q _ "SELECT 1" w) as [e|n]; [reflexivity|].
  destruct (Z.eqb n 1); reflexivity.
Qed.

Lemma TestRun_body_cases (Q : Sql) (t : T) (url : string) (w : World) :
  (TestRun_body Q t url w = (Ok tt, w) /\
   open_err Q "postgres" url = None /\
   scan_int Q {| driverName := "postgres"; dataSourceName := url |} "SELECT 1" w
   = inr 1%Z) \/
  (exists args,
     TestRun_body Q t url w = (Goexit, set_failed ((t, args) :: failed w) w) /\
     (open_err Q "postgres" url = None ->
      scan_int Q {| driverName := "postgres"; dataSourceName := url |} "SELECT 1" w
      <> inr 1%Z)).
Proof.
  rewrite TestRun_body_eq.
  destruct (open_err Q "postgres" url) as [e|].
  { right. eexists. split; [reflexivity | discriminate]. }
  destruct (scan_int Q _ "SELECT 1" w) as [e|n].
  { right. eexists. split; [reflexivity | discriminate]. }
  destruct (Z.eqb n 1) eqn:Hn.
  - left. apply Z.eqb_eq in Hn. subst n. auto.
  - right. eexists. split; [reflexivity|]. intros _ [= ->]. discriminate Hn.
Qed.

(** The deferred [Stop] of a launched handle, after the body of the test. *)
Lemma defer_StopA (E : Env) (Q : Sql) (t : T) (url : string) (pg : PgtestA.PG)
    (c : Cmd) (p : nat) (w : World) :
  PgtestA.cmd pg = Some c -> Process c = Some p ->
  let r := defer_ (PgtestA.Stop E pg) (TestRun_body Q t url) w in
  log (snd r)
  = ((if flt E (length (log w)) then [EvSignal p]
      else [EvRemoveAll (PgtestA.dir pg); EvSignal p]) ++ log w)%list /\
  (fst r = Ok tt <->
   open_err Q "postgres" url = None /\
   scan_int Q {| driverName := "postgres"; dataSourceName := url |} "SELECT 1" w
   = inr 1%Z /\
   flt E (length (log w)) = false /\ flt E (S (length (log w))) = false) /\
  (fst r = Ok tt -> failed (snd r) = failed w) /\
  (flt E (length (log w)) = false -> flt E (S (length (log w))) = false ->
   fs (snd r) = remove_all (PgtestA.dir pg) (fs w)) /\
  (exists new, failed (snd r) = (new ++ failed w)%list /\ length new <= 2 /\
               Forall (fun f => fst f = t \/ fst f = PgtestA.t pg) new) /\
  (forall m, fst r <> Panic m).
Proof.
  intros Hc Hp. cbv zeta. unfold defer_.
  destruct (TestRun_body_cases Q t url w) as [(-> & Ho & Hs) | (args & -> & Hn)];
    rewrite (Stop_eqA E pg c p _ Hc Hp); cbv zeta;
    cbn [log set_failed failed tick set_log fs];
    destruct (flt E (length (log w))) eqn:F0;
    [| destruct (flt E (S (length (log w)))) eqn:F1 | |
       destruct (flt E (S (length (log w)))) eqn:F1 ];
    cbn [fst snd log set_failed failed tick set_log set_fs fs app].
  all: split; [reflexivity|].
  all: split; [split; [intros H; try discriminate H; auto
                      | intros (H1 & H2 & H3 & H4); try discriminate;
                        try reflexivity; try (now elim (Hn H1))]|].
  all: split; [intros H; try discriminate H; reflexivity|].
  all: split; [intros H1 H2; try discriminate; reflexivity|].
  all: split; [|intros m H; discriminate H].
  all: first [ exists []; split; [reflexivity|]
             | eexists (cons _ nil); split; [reflexivity|]
             | eexists (cons _ (cons _ nil)); split; [reflexivity|] ].
  all: split; [simpl; lia|].
  all: repeat (apply Forall_cons; [cbn [fst]; auto|]); apply Forall_nil.
Qed.

Lemma defer_StopC (E : Env) (Q : Sql) (t : T) (url : string) (pg : PgtestC.PG)
    (c : Cmd) (p : nat) (w : World) :
  PgtestC.cmd pg = Some c -> Process c = Some p ->
  let r := defer_ (PgtestC.Stop E pg) (TestRun_body Q t url) w in
  log (snd r)
  = ((if flt E (length (log w)) then [EvSignal p]
      else [EvRemoveAll (PgtestC.dir pg); EvSignal p]) ++ log w)%list /\
  (fst r = Ok tt <->
   open_err Q "postgres" url = None /\
   scan_int Q {| driverName := "postgres"; dataSourceName := url |} "SELECT 1" w
   = inr 1%Z /\
   flt E (length (log w)) = false /\ flt E (S (length (log w))) = false) /\
  (fst r = Ok tt -> failed (snd r) = failed w) /\
  (flt E (length (log w)) = false -> flt E (S (length (log w))) = false ->
   fs (snd r) = remove_all (PgtestC.dir pg) (fs w)) /\
  (exists new, failed (snd r) = (new ++ failed w)%list /\ length new <= 2 /\
               Forall (fun f => fst f = t \/ fst f = PgtestC.t pg) new) /\
  (forall m, fst r <> Panic m).
Proof.
  intros Hc Hp. cbv zeta. unfold defer_.
  destruct (TestRun_body_cases Q t url w) as [(-> & Ho & Hs) | (args & -> & Hn)];
    rewrite (Stop_eqC E pg c p _ Hc Hp); cbv zeta;
    cbn [log set_failed failed tick set_log fs];
    destruct (flt E (length (log w))) eqn:F0;
    [| destruct (flt E (S (length (log w)))) eqn:F1 | |
       destruct (flt E (S (length (log w)))) eqn:F1 ];
    cbn [fst snd log set_failed failed tick set_log set_fs fs app].
  all: split; [reflexivity|].
  all: split; [split; [intros H; try discriminate H; auto
                      | intros (H1 & H2 & H3 & H4); try discriminate;
                        try reflexivity; try (now elim (Hn H1))]|].
  all: split; [intros H; try discriminate H; reflexivity|].
  all: split; [intros H1 H2; try discriminate; reflexivity|].
  all: split; [|intros m H; discriminate H].
  all: first [ exists []; split; [reflexivity|]
             | eexists (cons _ nil); split; [reflexivity|]
             | eexists (cons _ (cons _ nil)); split; [reflexivity|] ].
  all: split; [simpl; lia|].
  all: repeat (apply Forall_cons; [cbn [fst]; auto|]); apply Forall_nil.
Qed.

Lemma TestRun_unfoldA (E : Env) (Q : Sql) (t : T) (w : World) :
  TestA.TestRun E Q t w =
  match PgtestA.Start E t w with
  | (Ok pg, w1) => defer_ (PgtestA.Stop E pg) (TestRun_body Q t PgtestA.URL) w1
  | (Goexit, w1) => (Goexit, w1)
  | (Panic msg, w1) => (Panic msg, w1)
  end.
Proof. reflexivity. Qed.

Lemma TestRun_unfoldC (E : Env) (Q : Sql) (t : T) (w : World) :
  TestC.TestRun E Q t w =
  match PgtestC.Start E t w with
  | (Ok pg, w1) => defer_ (PgtestC.Stop E pg) (TestRun_body Q t (PgtestC.URL pg)) w1
  | (Goexit, w1) => (Goexit, w1)
  | (Panic msg, w1) => (Panic msg, w1)
  end.
Proof. reflexivity. Qed.

(** X13: [TestRun] passes exactly when [Start] returns a handle, the driver
    is registered, the query answers 1 on the world [Start] left, and
    neither call of the deferred [Stop] fails; it has then reported no
    failure.  Both documents of src/pgtest_test.go, the first with the
    package of src/pgtest.go and the second with that of part_000. *)
Theorem X13_TestRun_passes_exactly_when (E : Env) (Q : Sql) (t : T) (w : World) :
  ((fst (TestA.TestRun E Q t w) = Ok tt <->
    exists pg w1,
      PgtestA.Start E t w = (Ok pg, w1) /\
      open_err Q "postgres" PgtestA.URL = None /\
      scan_int Q {| driverName := "postgres"; dataSourceName := PgtestA.URL |}
               "SELECT 1" w1 = inr 1%Z /\
      flt E (length (log w1)) = false /\ flt E (S (length (log w1))) = false) /\
   (fst (TestA.TestRun E Q t w) = Ok tt ->
    failed (snd (TestA.TestRun E Q t w)) = failed w)) /\
  ((fst (TestC.TestRun E Q t w) = Ok tt <->
    exists pg w1,
      PgtestC.Start E t w = (Ok pg, w1) /\
      open_err Q "postgres" (PgtestC.URL pg) = None /\
      scan_int Q {| driverName := "postgres"; dataSourceName := PgtestC.URL pg |}
               "SELECT 1" w1 = inr 1%Z /\
      flt E (length (log w1)) = false /\ flt E (S (length (log w1))) = false) /\
   (fst (TestC.TestRun E Q t w) = Ok tt ->
    failed (snd (TestC.TestRun E Q t w)) = failed w)).
Proof.
  split.
  - rewrite TestRun_unfoldA.
    pose proof (tidy_StartA E t w) as Ht.
    pose proof (Start_Ok_handleA E t w) as Hh.
    destruct (PgtestA.Start E t w) as [[pg| |] w1]; cbn [fst snd] in *.
    + destruct (Hh pg eq_refl) as (_ & c & p & Hc & Hp).
      destruct (defer_StopA E Q t PgtestA.URL pg c p w1 Hc Hp) as (_ & Hiff & Hf & _).
      cbv zeta in Hiff, Hf. split.
      * split.
        -- intros H. exists pg, w1. split; [reflexivity | now apply Hiff].
        -- intros (pg' & w1' & [= <- <-] & H). now apply Hiff.
      * intros H. rewrite (Hf H). exact Ht.
    + split; [split|]; [discriminate | intros (? & ? & [=] & _) | discriminate].
    + split; [split|]; [discriminate | intros (? & ? & [=] & _) | discriminate].
  - rewrite TestRun_unfoldC.
    pose proof (tidy_StartC E t w) as Ht.
    pose proof (Start_Ok_handleC E t w) as Hh.
    destruct (PgtestC.Start E t w) as [[pg| |] w1]; cbn [fst snd] in *.
    + destruct (Hh pg eq_refl) as (_ & c & p & Hc & Hp).
      destruct (defer_StopC E Q t (PgtestC.URL pg) pg c p w1 Hc Hp)
        as (_ & Hiff & Hf & _).
      cbv zeta in Hiff, Hf. split.
      * split.
        -- intros H. exists pg, w1. split; [reflexivity | now apply Hiff].
        -- intros (pg' & w1' & [= <- <-] & H). now apply Hiff.
      * intros H. rewrite (Hf H). exact Ht.
    + split; [split|]; [discriminate | intros (? & ? & [=] & _) | discriminate].
    + split; [split|]; [discriminate | intros (? & ? & [=] & _) | discriminate].
Qed.

Lemma X13_witness :
  failed (snd (TestC.TestRun env0 sql0 1 world0)) = failed world0.
Proof.
  refine (proj2 (proj2 (X13_TestRun_passes_exactly_when env0 sql0 1 world0)) _).
  vm_compute. reflexivity.
Defined.

Lemma Forall_own (t t' : T) (new : list (T * list arg)) :
  t' = t -> Forall (fun f => fst f = t \/ fst f = t') new ->
  Forall (fun f => fst f = t) new.
Proof.
  intros ->. apply Forall_impl. intros f [H | H]; exact H.
Qed.

(** X14: [TestRun] defers [Stop] on the handle [Start] returned, so [Stop]
    runs once whether the body of the test fails or not: the engine gets
    its interrupt, and when neither call of [Stop] fails the instance
    directory is removed from what [Start] left.  When [Start] does not
    return, [TestRun] ends there and [Stop] never runs.  [TestRun] never
    panics, and it reports at most two failures, all on its own test: one
    from [Start] or from the body, one from [Stop].  Both documents. *)
Theorem X14_TestRun_stops_what_Start_returned
  (E : Env) (Q : Sql) (t : T) (w : World) :
  (let r := TestA.TestRun E Q t w in
   (forall pg w1,
      PgtestA.Start E t w = (Ok pg, w1) ->
      tally is_Signal (log (snd r)) = S (tally is_Signal (log w)) /\
      (flt E (length (log w1)) = false -> flt E (S (length (log w1))) = false ->
       fs (snd r) = remove_all (PgtestA.dir pg) (fs w1))) /\
   ((forall pg, fst (PgtestA.Start E t w) <> Ok pg) ->
    r = (Goexit, snd (PgtestA.Start E t w))) /\
   (exists new, failed (snd r) = (new ++ failed w)%list /\ length new <= 2 /\
                Forall (fun f => fst f = t) new) /\
   (forall m, fst r <> Panic m)) /\
  (let r := TestC.TestRun E Q t w in
   (forall pg w1,
      PgtestC.Start E t w = (Ok pg, w1) ->
      tally is_Signal (log (snd r)) = S (tally is_Signal (log w)) /\
      (flt E (length (log w1)) = false -> flt E (S (length (log w1))) = false ->
       fs (snd r) = remove_all (PgtestC.dir pg) (fs w1))) /\
   ((forall pg, fst (PgtestC.Start E t w) <> Ok pg) ->
    r = (Goexit, snd (PgtestC.Start E t w))) /\
   (exists new, failed (snd r) = (new ++ failed w)%list /\ length new <= 2 /\
                Forall (fun f => fst f = t) new) /\
   (forall m, fst r <> Panic m)).
Proof.
  split; cbv zeta.
  - rewrite TestRun_unfoldA.
    pose proof (tidy_StartA E t w) as Ht.
    pose proof (Start_Ok_handleA E t w) as Hh.
    destruct (Start_enginesA E t w) as (_ & Hsig & _).
    destruct (PgtestA.Start E t w) as [[pg| |] w1]; cbn [fst snd] in *.
    + destruct (Hh pg eq_refl) as (Hown & c & p & Hc & Hp).
      destruct (defer_StopA E Q t PgtestA.URL pg c p w1 Hc Hp)
        as (Hlog & _ & _ & Hfs & (new & Hnew & Hlen & Hall) & Hpanic).
      cbv zeta in *. repeat split.
      * injection H as <- <-. rewrite Hlog, <- Hsig. unfold tally.
        destruct (flt E (length (log w1))); reflexivity.
      * injection H as <- <-. exact Hfs.
      * intros H. now elim (H pg).
      * exists new. rewrite <- Ht. repeat split; trivial.
        now apply (Forall_own t (PgtestA.t pg)).
      * exact Hpanic.
    + repeat split; try discriminate.
      destruct Ht as [args Ht]. exists [(t, args)]. rewrite Ht.
      repeat split; [simpl; lia | repeat (apply Forall_cons; [reflexivity|]); apply Forall_nil].
    + contradiction.
  - rewrite TestRun_unfoldC.
    pose proof (tidy_StartC E t w) as Ht.
    pose proof (Start_Ok_handleC E t w) as Hh.
    destruct (Start_enginesC E t w) as (_ & Hsig & _).
    destruct (PgtestC.Start E t w) as [[pg| |] w1]; cbn [fst snd] in *.
    + destruct (Hh pg eq_refl) as (Hown & c & p & Hc & Hp).
      destruct (defer_StopC E Q t (PgtestC.URL pg) pg c p w1 Hc Hp)
        as (Hlog & _ & _ & Hfs & (new & Hnew & Hlen & Hall) & Hpanic).
      cbv zeta in *. repeat split.
      * injection H as <- <-. rewrite Hlog, <- Hsig. unfold tally.
        destruct (flt E (length (log w1))); reflexivity.
      * injection H as <- <-. exact Hfs.
      * intros H. now elim (H pg).
      * exists new. rewrite <- Ht. repeat split; trivial.
        now apply (Forall_own t (PgtestC.t pg)).
      * exact Hpanic.
    + repeat split; try discriminate.
      destruct Ht as [args Ht]. exists [(t, args)]. rewrite Ht.
      repeat split; [simpl; lia | repeat (apply Forall_cons; [reflexivity|]); apply Forall_nil].
    + contradiction.
Qed.

Lemma X14_witness :
  fs (snd (TestA.TestRun env0 sql0 1 world0))
  = remove_all "/tmp/pgtest5" (fs (snd (PgtestA.Start env0 1 world0))).
Proof.
  pose proof (surjective_pairing (PgtestA.Start env0 1 world0)) as H.
  assert (Hf : fst (PgtestA.Start env0 1 world0) = Ok pgA0)
    by (vm_compute; reflexivity).
  rewrite Hf in H.
  refine (proj2 (proj1 (proj1 (X14_TestRun_stops_what_Start_returned
                                 env0 sql0 1 world0)) pgA0 _ H) _ _);
    reflexivity.
Defined.

(** ** The second document of src/pgtest.go *)

Lemma tidy_maybeInitdbB (E : Env) (t : T) : tidy t (PgtestB.maybeInitdb E t).
Proof. unfold PgtestB.maybeInitdb. tidy_block. Qed.

Lemma tidy_Start_copyB (E : Env) (t : T) : tidy t (PgtestB.Start_copy E t).
Proof. unfold PgtestB.Start_copy. tidy_block. Qed.

Lemma tidy_Start_launchB (E : Env) (t : T) (pg : PgtestB.PG) :
  tidy t (PgtestB.Start_launch E t pg).
Proof. unfold PgtestB.Start_launch. tidy_block. Qed.

Lemma tidy_Start_waitB (E : Env) (t : T) (pg : PgtestB.PG) (n : nat) :
  tidy t (PgtestB.Start_wait E t pg n).
Proof.
  induction n as [|n IH]; simpl.
  - intros w. simpl. eauto.
  - apply tidy_bind; [apply tidy_Stat|]. intros [e|]; [|apply tidy_ret].
    apply tidy_bind; [apply tidy_Sleep | intros _; exact IH].
Qed.

Lemma tidy_StartB (E : Env) (t : T) : tidy t (PgtestB.Start E t).
Proof.
  unfold PgtestB.Start.
  apply tidy_bind; [apply tidy_once_Do, tidy_maybeInitdbB | intros _].
  apply tidy_bind; [apply tidy_Start_copyB | intros pg].
  apply tidy_bind; [apply tidy_Start_launchB | intros pg'].
  apply tidy_Start_waitB.
Qed.

Lemma wait_missB (E : Env) (t : T) (pg : PgtestB.PG) (n : nat) (w : World) :
  stat_ok E PgtestB.sock w = false ->
  PgtestB.Start_wait E t pg (S n) w
  = PgtestB.Start_wait E t pg n (miss E PgtestB.sock w).
Proof.
  unfold stat_ok, miss. simpl. unfold bind.
  destruct (os_Stat E PgtestB.sock w) as [[[e|]| |] w1] eqn:Hs; simpl;
    try discriminate; try reflexivity.
  - unfold os_Stat in Hs. destruct (faulty E w); [discriminate|].
    destruct (fs w PgtestB.sock); discriminate.
  - unfold os_Stat in Hs. destruct (faulty E w); [discriminate|].
    destruct (fs w PgtestB.sock); discriminate.
Qed.

Lemma wait_hitB (E : Env) (t : T) (pg : PgtestB.PG) (n : nat) (w : World) :
  stat_ok E PgtestB.sock w = true ->
  PgtestB.Start_wait E t pg (S n) w = (Ok pg, tick (EvStat PgtestB.sock) w) /\
  fs w PgtestB.sock <> None.
Proof.
  unfold stat_ok. simpl. unfold bind, os_Stat.
  destruct (faulty E w); simpl; [discriminate|].
  destruct (fs w PgtestB.sock); simpl; [split; [reflexivity | discriminate] | discriminate].
Qed.

(** A wait that returns returns the handle it was given, and has just found
    the socket file; the engines are the same. *)
Lemma Start_wait_OkB (E : Env) (t : T) (pg pg' : PgtestB.PG) (n : nat) (w w' : World) :
  PgtestB.Start_wait E t pg n w = (Ok pg', w') ->
  pg' = pg /\ fs w' PgtestB.sock <> None /\
  map pid (procs w') = map pid (procs w).
Proof.
  revert w. induction n as [|n IH]; intros w; [discriminate|].
  destruct (stat_ok E PgtestB.sock w) eqn:Hs.
  - destruct (wait_hitB E t pg n w Hs) as [-> Hf]. intros [= <- <-].
    repeat split. exact Hf.
  - rewrite (wait_missB E t pg n w Hs). intros H.
    destruct (IH _ H) as (H1 & H2 & H3). repeat split; trivial.
    rewrite H3. apply (quiet_miss E PgtestB.sock w).
Qed.

Lemma Start_copy_OkB (E : Env) (t : T) (w w1 : World) (pg : PgtestB.PG) :
  PgtestB.Start_copy E t w = (Ok pg, w1) ->
  PgtestB.t pg = t /\
  PgtestB.dir pg = temp_name E "" "pgtest" (rnd E (length (log w))).
Proof. unfold PgtestB.Start_copy. run_calls; intros [= <- <-]; split; reflexivity. Qed.

Lemma Start_launch_handleB (E : Env) (t : T) (pg pg' : PgtestB.PG) (w w' : World) :
  PgtestB.Start_launch E t pg w = (Ok pg', w') ->
  pg' = {| PgtestB.t := PgtestB.t pg; PgtestB.dir := PgtestB.dir pg;
           PgtestB.cmd := Some {| Path := "postgres"; Args := ["-D"; PgtestB.dir pg];
                                  Process := Some (length (procs w)) |} |} /\
  In (length (procs w)) (map pid (procs w')).
Proof.
  unfold PgtestB.Start_launch. run_calls; intros [= <- <-].
  all: split; [reflexivity|]. all: rewrite settle_pids; simpl; auto.
Qed.

(** X15: the second document of src/pgtest.go.  [Start] returns a handle
    and has reported no failure, or leaves through [t.Fatal] with exactly
    one failure reported on its own test; it never panics.  A handle it
    returns carries the test, a directory named by [ioutil.TempDir] and the
    command postgres -D dir with its process, which is among the engines of
    the process, and [Start] returned it from a check that found the socket
    file. *)
Theorem X15_second_document_Start (E : Env) (t : T) (w : World) :
  reports t (fst (PgtestB.Start E t w)) w (snd (PgtestB.Start E t w)) /\
  (forall pg, fst (PgtestB.Start E t w) = Ok pg ->
     PgtestB.t pg = t /\
     (exists u, PgtestB.dir pg = temp_name E "" "pgtest" u) /\
     (exists p,
        PgtestB.cmd pg = Some {| Path := "postgres"; Args := ["-D"; PgtestB.dir pg];
                                 Process := Some p |} /\
        In p (map pid (procs (snd (PgtestB.Start E t w))))) /\
     fs (snd (PgtestB.Start E t w)) PgtestB.sock <> None).
Proof.
  split; [apply tidy_StartB|].
  intros pg. unfold PgtestB.Start, bind.
  destruct (PgtestB.Start_once E t w) as [[[]| |] w1]; try discriminate.
  destruct (PgtestB.Start_copy E t w1) as [[pg0| |] w2] eqn:H2; try discriminate.
  destruct (PgtestB.Start_launch E t pg0 w2) as [[pg1| |] w3] eqn:H3; try discriminate.
  destruct (PgtestB.Start_wait E t pg1 20 w3) as [[pg2| |] w4] eqn:H4; try discriminate.
  cbn [fst snd]. intros [= Hpg]. subst pg2.
  destruct (Start_wait_OkB E t pg1 pg 20 w3 w4 H4) as (Heq & Hs & Hp). subst pg1.
  destruct (Start_launch_handleB E t pg0 pg w2 w3 H3) as [Hh Hin].
  destruct (Start_copy_OkB E t w1 w2 pg0 H2) as [Ht Hd].
  rewrite Hh. cbn [PgtestB.t PgtestB.dir PgtestB.cmd]. repeat split; trivial.
  - exists (rnd E (length (log w1))). exact Hd.
  - exists (length (procs w2)). split; [reflexivity|]. rewrite Hp. exact Hin.
Qed.

Lemma X15_witness :
  fs (snd (PgtestB.Start env0 1 world0)) PgtestB.sock <> None.
Proof.
  refine (proj2 (proj2 (proj2 (proj2 (X15_second_document_Start env0 1 world0)
            {| PgtestB.t := 1; PgtestB.dir := "/tmp/pgtest5";
               PgtestB.cmd := Some {| Path := "postgres"; Args := ["-D"; "/tmp/pgtest5"];
                                      Process := Some 0 |} |} _)))).
  vm_compute. reflexivity.
Defined.

(** [initdb -D d] and the append to a file inside [d] leave the directory
    entry [d] itself alone. *)
Lemma append_longer (d r : string) : r <> "" -> d ++ r <> d.
Proof.
  intros Hr H. apply (f_equal String.length) in H. rewrite length_append in H.
  destruct r; [now elim Hr | simpl in H; lia].
Qed.

Lemma populate_at (d : string) (files : list (string * string)) (f : FS) :
  populate d files f d = f d.
Proof.
  induction files as [|[name data] rest IH]; [reflexivity|].
  cbn [populate]. unfold upd.
  destruct (String.eqb_spec d (d ++ "/" ++ name)) as [H|_]; [|exact IH].
  symmetry in H. now apply append_longer in H.
Qed.

Lemma upd_elsewhere (p q : string) (n : node) (f : FS) : q <> p -> upd p n f q = f q.
Proof. intros H. apply String.eqb_neq in H. unfold upd. now rewrite H. Qed.

Lemma upd_there (p : string) (n : node) (f : FS) : upd p n f p = Some n.
Proof. unfold upd. now rewrite String.eqb_refl. Qed.

(** X16: the second document of src/pgtest.go keeps its template in [Dir],
    the relative path pgtestdata, which "will be created with initdb if it
    doesn't already exist".  When [Dir] exists, [maybeInitdb] changes no
    file and runs nothing, and succeeds unless the [os.Mkdir] call itself
    fails.  When [Dir] does not exist and [maybeInitdb] succeeds, [Dir] is
    a directory that holds what initdb wrote, with the overrides of the
    package appended to postgresql.conf.  When the directory is made and
    initdb then fails, [maybeInitdb] ends in [t.Fatal] and leaves [Dir]
    behind, for a later process to find in place. *)
Theorem X16_Dir_is_created_with_initdb_if_missing (E : Env) (t : T) (w : World) :
  let r := PgtestB.maybeInitdb E t w in
  let path := filepath_Join PgtestB.Dir "postgresql.conf" in
  let initdb_fs := populate PgtestB.Dir (initdb_files E) (upd PgtestB.Dir Dir (fs w)) in
  (fs w PgtestB.Dir <> None ->
   fs (snd r) = fs w /\ log (snd r) = EvMkdir PgtestB.Dir :: log w /\
   (flt E (length (log w)) = false -> fst r = Ok tt)) /\
  (fs w PgtestB.Dir = None -> fst r = Ok tt ->
   fs (snd r) PgtestB.Dir = Some Dir /\
   In (EvRun ["initdb"; "-D"; PgtestB.Dir]) (log (snd r)) /\
   (exists old rd,
      initdb_fs path = Some (File old rd true) /\
      fs (snd r) path = Some (File (old ++ PgtestB.conf) rd true)) /\
   (forall q, q <> path -> fs (snd r) q = initdb_fs q)) /\
  (fs w PgtestB.Dir = None -> flt E (length (log w)) = false ->
   flt E (S (length (log w))) = true \/ execs E "initdb" = false ->
   r = (Goexit,
        set_failed ((t, [AStr "initdb"; AErr EIO]) :: failed w)
          (tick (EvRun ["initdb"; "-D"; PgtestB.Dir])
             (set_fs (upd PgtestB.Dir Dir (fs w)) (tick (EvMkdir PgtestB.Dir) w))))).
Proof.
  cbv zeta. split; [|split].
  - intros Hex. unfold PgtestB.maybeInitdb. run_calls; try congruence.
    all: repeat split; intros; congruence.
  - intros Hno. unfold PgtestB.maybeInitdb. run_calls; try congruence;
      intros Hok; try discriminate Hok.
    all: repeat match goal with
                | H : Some _ = Some _ |- _ => injection H as H; try subst
                end.
    all: simpl.
    all: split; [rewrite upd_elsewhere by discriminate; rewrite populate_at; apply upd_there|].
    all: split; [auto|].
    all: split; [do 2 eexists; split; [reflexivity | apply upd_there]
                | intros q Hq; now apply upd_elsewhere].
  - intros Hno H0 Hbad. unfold PgtestB.maybeInitdb.
    run_calls; try congruence; try reflexivity.
    all: destruct Hbad; congruence.
Qed.

Lemma X16_witness :
  fs (snd (PgtestB.maybeInitdb env0 1 world0)) PgtestB.Dir = Some Dir /\
  (let w := snd (PgtestB.maybeInitdb env0 1 world0) in
   fs (snd (PgtestB.maybeInitdb env0 2 w)) = fs w) /\
  fst (PgtestB.maybeInitdb (fault_at 1) 1 world0) = Goexit.
Proof.
  split; [|split].
  - refine (proj1 (proj1 (proj2 (X16_Dir_is_created_with_initdb_if_missing
                                   env0 1 world0)) _ _)).
    + reflexivity.
    + vm_compute. reflexivity.
  - intros w.
    refine (proj1 (proj1 (X16_Dir_is_created_with_initdb_if_missing env0 2 w) _)).
    vm_compute. discriminate.
  - rewrite (proj2 (proj2 (X16_Dir_is_created_with_initdb_if_missing
                             (fault_at 1) 1 world0)) eq_refl eq_refl
                   (or_introl eq_refl)).
    reflexivity.
Defined.

(** X17: in the second document of src/pgtest.go the instance is a copy of
    [Dir]: when the copy block of [Start] succeeds, every entry of [Dir],
    at whatever depth, is in the new instance directory under the same
    relative name, with the same contents and permissions.  [Stop] is the
    [Stop] of the first document: on a handle with the same fields it ends
    the same way and leaves the same world. *)
Theorem X17_second_document_copies_Dir_and_stops_alike (E : Env) (w : World) :
  (forall t pg w1 r n,
     PgtestB.Start_copy E t w = (Ok pg, w1) ->
     fs w (PgtestB.Dir ++ "/" ++ r) = Some n ->
     fs w1 (PgtestB.dir pg ++ "/" ++ r) = Some n) /\
  (forall pg, PgtestB.Stop E pg w = PgtestA.Stop E (toA pg) w).
Proof.
  split.
  - intros t pg w1 r n. unfold PgtestB.Start_copy.
    assert (Hd : drop_dot (PgtestB.Dir ++ "/.") = PgtestB.Dir) by reflexivity.
    run_calls; intros [= <- <-] Hn; simpl.
    all: rewrite Hd in *.
    all: now apply copy_into_child.
  - intros [t d [[path args [p|]]|]]; reflexivity.
Qed.

Lemma X17_witness :
  let w0 := snd (PgtestB.maybeInitdb env0 1 world0) in
  fs (snd (PgtestB.Start_copy env0 1 w0)) ("/tmp/pgtest5" ++ "/" ++ "PG_VERSION")
  = Some (File ("9.3" ++ nl) true true).
Proof.
  intros w0.
  pose proof (surjective_pairing (PgtestB.Start_copy env0 1 w0)) as H.
  assert (Hf : fst (PgtestB.Start_copy env0 1 w0)
               = Ok {| PgtestB.t := 1; PgtestB.dir := "/tmp/pgtest5";
                       PgtestB.cmd := None |})
    by (vm_compute; reflexivity).
  rewrite Hf in H.
  refine (proj1 (X17_second_document_copies_Dir_and_stops_alike env0 w0)
                1 _ _ "PG_VERSION" _ H _).
  vm_compute. reflexivity.
Defined.

(** ** The rest of the file system *)




(** ** When the engine comes up *)

Lemma settle_due (w : World) (pr : proc) :
  In pr (procs w) -> due (now w) pr = true -> fs (settle w) (psock pr) <> None.
Proof.
  intros Hin Hdue. unfold settle. cbn [fs set_procs set_fs].
  induction (procs w) as [|hd ps IH]; [contradiction|].
  cbn [fold_right]. destruct Hin as [-> | Hin].
  - rewrite Hdue. unfold upd. rewrite String.eqb_refl. discriminate.
  - destruct (due (now w) hd); [apply upd_keeps|]; now apply IH.
Qed.

Lemma settle_pending (w : World) (pr : proc) :
  In pr (procs w) -> due (now w) pr = false -> In pr (procs (settle w)).
Proof.
  intros Hin Hdue. unfold settle. cbn [procs set_procs].
  apply in_map_iff. exists pr. rewrite Hdue. now split.
Qed.

Lemma settle_coming (sock : string) (T : nat) (w : World) :
  fs w sock <> None \/
  (exists p, In {| pid := p; psock := sock; up_at := Some T |} (procs w)) ->
  now (settle w) = now w /\ coming sock T (settle w).
Proof.
  intros H. split; [reflexivity|]. destruct H as [H | [p Hin]].
  - left. now apply settle_keeps.
  - destruct (due (now w) {| pid := p; psock := sock; up_at := Some T |}) eqn:Hd.
    + left. exact (settle_due w _ Hin Hd).
    + right. split.
      * unfold due in Hd. cbn [up_at] in Hd. apply Nat.leb_gt in Hd. exact Hd.
      * exists p. exact (settle_pending w _ Hin Hd).
Qed.

Lemma miss_coming (E : Env) (sock stat : string) (T : nat) (w : World) :
  coming sock T w ->
  coming sock T (miss E stat w) /\ now (miss E stat w) = now w + 50 /\
  length (log (miss E stat w)) = S (S (length (log w))).
Proof.
  intros H. unfold miss, time_Sleep. cbn [snd].
  set (w1 := snd (os_Stat E stat w)).
  assert (H1 : fs w1 = fs w /\ procs w1 = procs w /\ now w1 = now w /\
               log w1 = EvStat stat :: log w).
  { unfold w1, os_Stat. destruct (faulty E w); [|destruct (fs w stat)];
      repeat split. }
  destruct H1 as (Hf & Hp & Hn & Hl).
  destruct (settle_coming sock T (set_now (now w1 + 50) (tick (EvSleep 50) w1)))
    as [Hnow Hc].
  { cbn [fs procs set_now tick set_log]. rewrite Hf, Hp.
    destruct H as [H | [_ H]]; [now left | now right]. }
  split; [exact Hc|]. split.
  - rewrite Hnow. cbn [now set_now]. now rewrite Hn.
  - unfold settle. cbn [log set_procs set_fs set_now tick set_log]. now rewrite Hl.
Qed.

(** A wait with enough rounds left for the engine to come up returns. *)
Lemma wait_livesC (E : Env) (t : T) (pg : PgtestC.PG) (sock : string) (T : nat) (n : nat) :
  forall w,
    coming sock T w -> T <= now w + 50 * n ->
    (forall m, length (log w) <= m -> flt E m = false) ->
    exists w', PgtestC.Start_wait E t pg sock (S n) w = (Ok pg, w').
Proof.
  induction n as [|n IH]; intros w Hc HT Hflt.
  - assert (Hs : stat_ok E sock w = true).
    { unfold stat_ok, os_Stat, faulty. rewrite (Hflt _ (le_n _)).
      destruct Hc as [Hc | [Hc _]]; [|lia].
      destruct (fs w sock); [reflexivity | now elim Hc]. }
    rewrite (wait_hitC E t pg sock 0 w Hs). eexists. reflexivity.
  - destruct (stat_ok E sock w) eqn:Hs.
    + rewrite (wait_hitC E t pg sock (S n) w Hs). eexists. reflexivity.
    + rewrite (wait_missC E t pg sock (S n) w Hs).
      destruct (miss_coming E sock sock T w Hc) as (Hc' & Hn' & Hl').
      apply (IH (miss E sock w) Hc').
      * lia.
      * intros m Hm. apply Hflt. lia.
Qed.

Lemma wait_livesA (E : Env) (t : T) (pg : PgtestA.PG) (T : nat) (n : nat) :
  forall w,
    coming PgtestA.sock T w -> T <= now w + 50 * n ->
    (forall m, length (log w) <= m -> flt E m = false) ->
    exists w', PgtestA.Start_wait E t pg (S n) w = (Ok pg, w').
Proof.
  induction n as [|n IH]; intros w Hc HT Hflt.
  - assert (Hs : stat_ok E PgtestA.sock w = true).
    { unfold stat_ok, os_Stat, faulty. rewrite (Hflt _ (le_n _)).
      destruct Hc as [Hc | [Hc _]]; [|lia].
      destruct (fs w PgtestA.sock); [reflexivity | now elim Hc]. }
    rewrite (wait_hitA E t pg 0 w Hs). eexists. reflexivity.
  - destruct (stat_ok E PgtestA.sock w) eqn:Hs.
    + rewrite (wait_hitA E t pg (S n) w Hs). eexists. reflexivity.
    + rewrite (wait_missA E t pg (S n) w Hs).
      destruct (miss_coming E PgtestA.sock PgtestA.sock T w Hc) as (Hc' & Hn' & Hl').
      apply (IH (miss E PgtestA.sock w) Hc').
      * lia.
      * intros m Hm. apply Hflt. lia.
Qed.

Lemma launch_comingA (E : Env) (t : T) (pg0 : PgtestA.PG) (w : World) (d : nat) :
  flt E (length (log w)) = false -> execs E "postgres" = true ->
  listen_delay E (length (log w)) = Some d ->
  exists pg w1,
    PgtestA.Start_launch E t pg0 w = (Ok pg, w1) /\
    PgtestA.dir pg = PgtestA.dir pg0 /\
    coming PgtestA.sock (now w + d) w1 /\
    now w1 = now w /\ length (log w1) = S (length (log w)).
Proof.
  intros Hf Hx Hd.
  unfold PgtestA.Start_launch, bind, Cmd_Start, faulty, exec_Command, if_err, ret.
  cbn [Path Args]. rewrite Hf, Hx, Hd. cbn [orb negb option_map].
  do 2 eexists. split; [reflexivity|]. split; [reflexivity|].
  match goal with |- coming _ _ (settle ?w0) /\ _ =>
    destruct (settle_coming PgtestA.sock (now w + d) w0) as [Hn Hc] end.
  { right. eexists. left. reflexivity. }
  split; [exact Hc|]. rewrite Hn. split; reflexivity.
Qed.

Lemma launch_comingC (E : Env) (t : T) (pg0 : PgtestC.PG) (w : World) (d : nat) :
  flt E (length (log w)) = false -> execs E (postgres w) = true ->
  listen_delay E (length (log w)) = Some d ->
  exists pg w1,
    PgtestC.Start_launch E t pg0 w = (Ok pg, w1) /\
    PgtestC.dir pg = PgtestC.dir pg0 /\
    coming (filepath_Join (PgtestC.dir pg) ".s.PGSQL.5432") (now w + d) w1 /\
    now w1 = now w /\ length (log w1) = S (length (log w)).
Proof.
  intros Hf Hx Hd.
  unfold PgtestC.Start_launch, bind, gets, Cmd_Start, faulty, exec_Command, if_err, ret.
  cbn [Path Args]. rewrite Hf, Hx, Hd. cbn [orb negb option_map].
  do 2 eexists. split; [reflexivity|]. split; [reflexivity|].
  cbn [PgtestC.dir].
  match goal with |- coming ?s _ (settle ?w0) /\ _ =>
    destruct (settle_coming s (now w + d) w0) as [Hn Hc] end.
  { right. eexists. left. reflexivity. }
  split; [exact Hc|]. rewrite Hn. split; reflexivity.
Qed.

(** X19: [Start] returns when the engine comes up in time.  Once the
    instance directory is provisioned, if the launch and the checks do not
    fail, the engine can be executed and it starts to listen at most 950
    ms after the launch, then [Start] returns a handle on that directory:
    the loop makes its 20th check no earlier than 950 ms after the launch.
    Both revisions. *)
Theorem X19_Start_returns_when_the_engine_listens_in_time
  (E : Env) (t : T) (w : World) (d : nat) :
  (forall pg0 w0,
     PgtestA.Start_provisioned E t w = (Ok pg0, w0) ->
     execs E "postgres" = true ->
     listen_delay E (length (log w0)) = Some d -> d <= 950 ->
     (forall m, length (log w0) <= m -> flt E m = false) ->
     exists pg w',
       PgtestA.Start E t w = (Ok pg, w') /\ PgtestA.dir pg = PgtestA.dir pg0) /\
  (forall pg0 w0,
     PgtestC.Start_provisioned E t w = (Ok pg0, w0) ->
     execs E (postgres w0) = true ->
     listen_delay E (length (log w0)) = Some d -> d <= 950 ->
     (forall m, length (log w0) <= m -> flt E m = false) ->
     exists pg w',
       PgtestC.Start E t w = (Ok pg, w') /\ PgtestC.dir pg = PgtestC.dir pg0).
Proof.
  split; intros pg0 w0 Hprov Hx Hd Hle Hflt.
  - rewrite (Start_eq_launchA E t w w0 pg0 Hprov). unfold bind at 1.
    destruct (launch_comingA E t pg0 w0 d (Hflt _ (le_n _)) Hx Hd)
      as (pg & w1 & -> & Hdir & Hc & Hn & Hl).
    destruct (wait_livesA E t pg (now w0 + d) 19 w1 Hc) as (w' & Hw').
    + lia.
    + intros m Hm. apply Hflt. lia.
    + exists pg, w'. split; [exact Hw' | exact Hdir].
  - rewrite (Start_eq_launchC E t w w0 pg0 Hprov). unfold bind at 1.
    destruct (launch_comingC E t pg0 w0 d (Hflt _ (le_n _)) Hx Hd)
      as (pg & w1 & -> & Hdir & Hc & Hn & Hl).
    destruct (wait_livesC E t pg _ (now w0 + d) 19 w1 Hc) as (w' & Hw').
    + lia.
    + intros m Hm. apply Hflt. lia.
    + exists pg, w'. split; [exact Hw' | exact Hdir].
Qed.

Lemma X19_witness :
  exists pg w',
    PgtestC.Start env0 1 world0 = (Ok pg, w') /\ PgtestC.dir pg = "/tmp/pgtest3".
Proof.
  pose proof (surjective_pairing (PgtestC.Start_provisioned env0 1 world0)) as H.
  assert (Hf : fst (PgtestC.Start_provisioned env0 1 world0)
               = Ok {| PgtestC.URL := ""; PgtestC.t := 1; PgtestC.dir := "/tmp/pgtest3";
                       PgtestC.cmd := None |})
    by (vm_compute; reflexivity).
  rewrite Hf in H.
  refine (proj2 (X19_Start_returns_when_the_engine_listens_in_time env0 1 world0 0)
                _ _ H _ _ _ _).
  - reflexivity.
  - reflexivity.
  - lia.
  - reflexivity.
Defined.

(** ** When the engine never comes up *)

Lemma due_mono (n L : nat) (pr : proc) : n <= L -> due L pr = false -> due n pr = false.
Proof.
  unfold due. destruct (up_at pr) as [T'|]; [|reflexivity].
  intros Hle H. apply Nat.leb_gt in H. apply Nat.leb_gt. lia.
Qed.

Lemma settle_silent (sock : string) (L : nat) (w : World) :
  silent sock L w -> now w <= L -> silent sock L (settle w).
Proof.
  intros [Hf Hp] Hle. split.
  - unfold settle. cbn [fs set_procs set_fs].
    induction (procs w) as [|hd ps IH]; [exact Hf|].
    cbn [fold_right]. destruct (due (now w) hd) eqn:Hd.
    + unfold upd. destruct (String.eqb_spec sock (psock hd)) as [He|_].
      * rewrite (due_mono _ _ hd Hle (Hp hd (or_introl eq_refl) (eq_sym He))) in Hd.
        discriminate Hd.
      * apply IH. intros pr Hin. apply Hp. now right.
    + apply IH. intros pr Hin. apply Hp. now right.
  - intros pr Hin Hs. unfold settle in Hin. cbn [procs set_procs] in Hin.
    apply in_map_iff in Hin. destruct Hin as (pr0 & Heq & Hin0).
    destruct (due (now w) pr0).
    + subst pr. reflexivity.
    + subst pr0. now apply Hp.
Qed.

Lemma miss_silent (E : Env) (sock : string) (L : nat) (w : World) :
  silent sock L w -> now w + 50 <= L -> silent sock L (miss E sock w).
Proof.
  intros [Hf Hp] Hle. unfold miss, time_Sleep. cbn [snd].
  apply settle_silent; [|cbn [now set_now]; unfold os_Stat;
                          destruct (faulty E w); [|destruct (fs w sock)]; exact Hle].
  unfold os_Stat. destruct (faulty E w); [|rewrite Hf]; split; assumption.
Qed.

Lemma misses_silent (E : Env) (sock : string) (L : nat) (w : World) (k : nat) :
  silent sock L w -> now w + 50 * k <= L -> silent sock L (misses E sock k w).
Proof.
  intros Hs. induction k as [|k IH]; intros Hle; [exact Hs|].
  cbn [misses]. apply miss_silent; [apply IH; lia|].
  rewrite (proj1 (proj2 (misses_facts E sock k w))). lia.
Qed.

Lemma silent_stat (E : Env) (sock : string) (L : nat) (w : World) :
  silent sock L w -> stat_ok E sock w = false.
Proof.
  intros [Hf _]. unfold stat_ok, os_Stat. destruct (faulty E w); [reflexivity|].
  now rewrite Hf.
Qed.

Lemma misses_quiet (E : Env) (sock : string) (k : nat) (w : World) :
  quiet w (misses E sock k w).
Proof.
  induction k as [|k IH]; [apply quiet_refl|].
  cbn [misses]. eapply quiet_trans; [exact IH | apply quiet_miss].
Qed.

Lemma misses_kept (E : Env) (sock : string) (k : nat) (w : World) :
  kept w (misses E sock k w).
Proof.
  induction k as [|k IH]; [apply kept_refl|].
  cbn [misses]. eapply kept_trans; [exact IH | apply kept_miss].
Qed.

Lemma never_silent (sock : string) (L : nat) (w : World) :
  fs w sock = None ->
  (forall pr, In pr (procs w) -> psock pr = sock -> up_at pr = None) ->
  silent sock L w.
Proof.
  intros Hf Hp. split; [exact Hf|]. intros pr Hin Hs. unfold due.
  now rewrite (Hp pr Hin Hs).
Qed.

Lemma launch_silentA (E : Env) (t : T) (pg0 : PgtestA.PG) (w : World) :
  flt E (length (log w)) = false -> execs E "postgres" = true ->
  listen_delay E (length (log w)) = None ->
  silent PgtestA.sock (now w + 950) w ->
  exists pg w1,
    PgtestA.Start_launch E t pg0 w = (Ok pg, w1) /\
    silent PgtestA.sock (now w + 950) w1 /\
    now w1 = now w /\ failed w1 = failed w /\
    log w1 = EvStart ["postgres"; "-D"; PgtestA.dir pg0] :: log w /\
    map pid (procs w1) = length (procs w) :: map pid (procs w).
Proof.
  intros Hf Hx Hd [Hs Hp].
  unfold PgtestA.Start_launch, bind, Cmd_Start, faulty, exec_Command, if_err, ret.
  cbn [Path Args]. rewrite Hf, Hx, Hd. cbn [orb negb option_map].
  do 2 eexists. split; [reflexivity|].
  split; [|split; [reflexivity|]; split; [reflexivity|]; split; [reflexivity|];
           rewrite settle_pids; reflexivity].
  apply settle_silent; [|cbn [now set_procs tick set_log]; lia].
  split; [exact Hs|]. cbn [procs set_procs]. intros pr [<- | Hin] Hsock.
  - reflexivity.
  - now apply Hp.
Qed.

Lemma launch_silentC (E : Env) (t : T) (pg0 : PgtestC.PG) (w : World) :
  flt E (length (log w)) = false -> execs E (postgres w) = true ->
  listen_delay E (length (log w)) = None ->
  silent (filepath_Join (PgtestC.dir pg0) ".s.PGSQL.5432") (now w + 950) w ->
  exists pg w1,
    PgtestC.Start_launch E t pg0 w = (Ok pg, w1) /\
    PgtestC.dir pg = PgtestC.dir pg0 /\
    silent (filepath_Join (PgtestC.dir pg0) ".s.PGSQL.5432") (now w + 950) w1 /\
    now w1 = now w /\ failed w1 = failed w /\
    log w1 = EvStart [postgres w; "-D"; PgtestC.dir pg0] :: log w /\
    map pid (procs w1) = length (procs w) :: map pid (procs w).
Proof.
  intros Hf Hx Hd [Hs Hp].
  unfold PgtestC.Start_launch, bind, gets, Cmd_Start, faulty, exec_Command, if_err, ret.
  cbn [Path Args]. rewrite Hf, Hx, Hd. cbn [orb negb option_map].
  do 2 eexists. split; [reflexivity|]. split; [reflexivity|].
  split; [|split; [reflexivity|]; split; [reflexivity|]; split; [reflexivity|];
           rewrite settle_pids; reflexivity].
  apply settle_silent; [|cbn [now set_procs tick set_log]; lia].
  split; [exact Hs|]. cbn [procs set_procs]. intros pr [<- | Hin] Hsock.
  - reflexivity.
  - now apply Hp.
Qed.

(** X20: [Start] cleans nothing up when the engine never comes up.  When
    the instance directory is provisioned and the launch succeeds, but the
    engine never listens, the socket file is not there and no other engine
    of the process will bring it, [Start] makes its 20 checks, each
    followed by its sleep, and ends in the timeout failure; the engine it
    launched is still among the engines of the process (it is neither
    signalled nor waited for) and the instance directory is still in
    place.  Both revisions. *)
Theorem X20_engine_that_never_listens_times_out (E : Env) (t : T) (w : World) :
  (forall pg0 w0,
     PgtestA.Start_provisioned E t w = (Ok pg0, w0) ->
     flt E (length (log w0)) = false -> execs E "postgres" = true ->
     listen_delay E (length (log w0)) = None ->
     fs w0 PgtestA.sock = None ->
     (forall pr, In pr (procs w0) -> psock pr = PgtestA.sock -> up_at pr = None) ->
     let r := PgtestA.Start E t w in
     fst r = Goexit /\
     failed (snd r) = (t, [AStr "timeout waiting for postgres to start"]) :: failed w0 /\
     log (snd r)
     = (wait_log PgtestA.sock 20
        ++ EvStart ["postgres"; "-D"; PgtestA.dir pg0] :: log w0)%list /\
     tally is_Signal (log (snd r)) = tally is_Signal (log w0) /\
     map pid (procs (snd r)) = length (procs w0) :: map pid (procs w0) /\
     fs (snd r) (PgtestA.dir pg0) <> None) /\
  (forall pg0 w0,
     PgtestC.Start_provisioned E t w = (Ok pg0, w0) ->
     flt E (length (log w0)) = false -> execs E (postgres w0) = true ->
     listen_delay E (length (log w0)) = None ->
     let sock := filepath_Join (PgtestC.dir pg0) ".s.PGSQL.5432" in
     fs w0 sock = None ->
     (forall pr, In pr (procs w0) -> psock pr = sock -> up_at pr = None) ->
     let r := PgtestC.Start E t w in
     fst r = Goexit /\
     failed (snd r) = (t, [AStr "timeout waiting for postgres to start"]) :: failed w0 /\
     log (snd r)
     = (wait_log sock 20 ++ EvStart [postgres w0; "-D"; PgtestC.dir pg0] :: log w0)%list /\
     tally is_Signal (log (snd r)) = tally is_Signal (log w0) /\
     map pid (procs (snd r)) = length (procs w0) :: map pid (procs w0) /\
     fs (snd r) (PgtestC.dir pg0) <> None).
Proof.
  split.
  - intros pg0 w0 Hprov Hf Hx Hd Hno Hpr r.
    pose proof (never_silent _ (now w0 + 950) w0 Hno Hpr) as Hs.
    destruct (launch_silentA E t pg0 w0 Hf Hx Hd Hs)
      as (pg & w1 & Hl & Hs1 & Hn & Hfl & Hlog & Hpid).
    rewrite <- Hn in Hs1.
    assert (Heq : r = PgtestA.Start_wait E t pg 0 (misses E PgtestA.sock 20 w1)).
    { unfold r. rewrite (Start_eq_launchA E t w w0 pg0 Hprov). unfold bind at 1.
      rewrite Hl. change 20 with (20 + 0) at 1.
      apply wait_missesA. intros j Hj.
      apply (silent_stat E _ (now w1 + 950)), misses_silent; [exact Hs1 | lia]. }
    rewrite Heq, wait_zeroA.
    destruct (misses_facts E PgtestA.sock 20 w1) as (Hml & _ & Hfail).
    destruct (misses_quiet E PgtestA.sock 20 w1) as (_ & Hsig & Hmp).
    pose proof (misses_kept E PgtestA.sock 20 w1) as Hk.
    pose proof (kept_Start_launchA E t pg0 w0) as Hk0. rewrite Hl in Hk0.
    cbn [snd] in Hk0.
    pose proof (Start_provisioned_dirA E t w w0 pg0 Hprov) as Hdir.
    revert Hml Hfail Hsig Hmp Hk. generalize (misses E PgtestA.sock 20 w1).
    intros wm Hml Hfail Hsig Hmp Hk. simpl.
    rewrite Hsig, Hml, Hfail, Hfl, Hmp, Hpid, Hlog.
    repeat split. apply Hk, Hk0. rewrite Hdir. discriminate.
  - intros pg0 w0 Hprov Hf Hx Hd sock Hno Hpr r.
    pose proof (never_silent _ (now w0 + 950) w0 Hno Hpr) as Hs.
    destruct (launch_silentC E t pg0 w0 Hf Hx Hd Hs)
      as (pg & w1 & Hl & Hdp & Hs1 & Hn & Hfl & Hlog & Hpid).
    rewrite <- Hn in Hs1.
    assert (Heq : r = PgtestC.Start_wait E t pg sock 0 (misses E sock 20 w1)).
    { unfold r. rewrite (Start_eq_launchC E t w w0 pg0 Hprov). unfold bind at 1.
      rewrite Hl, Hdp. change 20 with (20 + 0) at 1.
      apply wait_missesC. intros j Hj.
      apply (silent_stat E _ (now w1 + 950)), misses_silent; [exact Hs1 | lia]. }
    rewrite Heq, wait_zeroC.
    destruct (misses_facts E sock 20 w1) as (Hml & _ & Hfail).
    destruct (misses_quiet E sock 20 w1) as (_ & Hsig & Hmp).
    pose proof (misses_kept E sock 20 w1) as Hk.
    pose proof (kept_Start_launchC E t pg0 w0) as Hk0. rewrite Hl in Hk0.
    cbn [snd] in Hk0.
    pose proof (Start_provisioned_dirC E t w w0 pg0 Hprov) as Hdir.
    revert Hml Hfail Hsig Hmp Hk. generalize (misses E sock 20 w1).
    intros wm Hml Hfail Hsig Hmp Hk. simpl.
    rewrite Hsig, Hml, Hfail, Hfl, Hmp, Hpid, Hlog.
    repeat split. apply Hk, Hk0. rewrite Hdir. discriminate.
Qed.

Lemma X20_witness :
  fst (PgtestC.Start env_deaf 1 world0) = Goexit /\
  fs (snd (PgtestC.Start env_deaf 1 world0)) "/tmp/pgtest3" <> None.
Proof.
  pose proof (surjective_pairing (PgtestC.Start_provisioned env_deaf 1 world0)) as H.
  assert (Hf : fst (PgtestC.Start_provisioned env_deaf 1 world0)
               = Ok {| PgtestC.URL := ""; PgtestC.t := 1; PgtestC.dir := "/tmp/pgtest3";
                       PgtestC.cmd := None |})
    by (vm_compute; reflexivity).
  rewrite Hf in H.
  destruct (proj2 (X20_engine_that_never_listens_times_out env_deaf 1 world0) _ _ H)
    as (H1 & _ & _ & _ & _ & H6).
  - reflexivity.
  - reflexivity.
  - reflexivity.
  - vm_compute. reflexivity.
  - intros pr Hin. exfalso. vm_compute in Hin. exact Hin.
  - split; [exact H1 | exact H6].
Defined.
